(** * Report_Generator: a shallow embedding of [report_generator.py]

    The program fetches three worksheets of a Google spreadsheet
    (PRODUCTS, ORDERS, HOURSWORKED), cleans them with pandas, groups
    them by calendar month, and writes one .docx report per spreadsheet
    link; a per-link [try]/[except] keeps one bad link from stopping the
    others.

    Conventions of the embedding.
    - A Python exception is a value of [exn]; code that may raise
      returns a [result].
    - Code that talks to the outside (Streamlit calls, [time.sleep], the
      remote [get_all_values]) runs in [M]: it returns the list of
      events it emitted together with its [result].
    - Cell text is a [string] (the bytes of its UTF-8 encoding). The
      regular-expression class [\d], in the money columns and in the
      date format, is the decimal digits of every script (Unicode
      14.0, category Nd); [pd.to_numeric] reads the ASCII digits only.
    - [time.sleep] refuses a negative length ([ValueError]) and one
      whose nanoseconds do not fit a signed 64-bit integer
      ([OverflowError]). What the operating system refuses besides (on
      Linux, a sleep that would end after the last second its monotonic
      clock counts, some 292 years after boot) is outside the model.
    - pandas floats are exact rationals kept in lowest terms ([Qred]);
      rounding, overflow and the literals inf/nan of float64 are outside
      the model.
    - Streamlit calls only add to the log; they do not fail.
    - A PNG buffer is represented by the chart it draws, a .docx buffer
      by the list of elements of the document.
    - The whitespace of [str.strip] is the characters [str.isspace]
      accepts, matched as the bytes of their UTF-8 encodings.
    - The script itself is [main_script]: what it puts on the page, given
      what the file system, the two calls that build the client and the
      two widgets return. *)

From Stdlib Require Import String Ascii List Bool Arith ZArith QArith Lia.
From Stdlib Require Import Sorted Permutation.
Import ListNotations.

Local Open Scope string_scope.
Local Open Scope list_scope.
Local Open Scope nat_scope.

Set Implicit Arguments.

(* ================================================================== *)
(** ** Python values: exceptions, results, string formatting          *)
(* ================================================================== *)

(** An exception: its class and what [str(e)] prints. *)
Record exn : Type := mk_exn { exn_class : string; exn_str : string }.

(** [str(KeyError(k))] is the [repr] of the key. *)
Definition KeyError (key : string) : exn :=
  mk_exn "KeyError" ("'" ++ key ++ "'").
Definition ValueError (msg : string) : exn := mk_exn "ValueError" msg.
Definition AttributeError (msg : string) : exn := mk_exn "AttributeError" msg.
Definition TypeError (msg : string) : exn := mk_exn "TypeError" msg.
Definition OverflowError (msg : string) : exn := mk_exn "OverflowError" msg.

Inductive result (A : Type) : Type :=
| Ok (a : A)
| Raise (e : exn).
Arguments Ok {A} a.
Arguments Raise {A} e.

Definition rbind {A B} (c : result A) (k : A -> result B) : result B :=
  match c with
  | Ok a => k a
  | Raise e => Raise e
  end.

Declare Scope py_scope.
Delimit Scope py_scope with py.
Notation "x <- c ;; k" := (rbind c (fun x => k))
  (at level 100, c at next level, right associativity) : py_scope.

(** [str(n)] for a non-negative integer. *)
Fixpoint digits_of (fuel n : nat) (acc : string) : string :=
  match fuel with
  | O => acc
  | S fuel' =>
      let acc' := String (ascii_of_nat (48 + n mod 10)) acc in
      if n / 10 =? 0 then acc' else digits_of fuel' (n / 10) acc'
  end.

Definition str_of_nat (n : nat) : string := digits_of (S n) n "".

(* ================================================================== *)
(** ** Charts and documents                                           *)
(* ================================================================== *)

Inductive graph_type : Type := bar | line.

(** What [create_graph] draws on its 6x4 figure before [savefig]: the
    PNG buffer it returns is a function of this and nothing else. *)
Record chart : Type := {
  chart_kind : graph_type;
  chart_x : list string;        (* data.index.astype(str) *)
  chart_y : list Q;             (* data.values *)
  chart_title : string;
  chart_xlabel : string;
  chart_ylabel : string
}.

(** A piece of an f-string: literal text, or a float under [:.2f]. *)
Inductive fragment : Type :=
| Lit (s : string)
| Float2f (x : Q).

Inductive element : Type :=
| Heading (text : string) (level : nat)
| Paragraph (text : list fragment)
| Picture (image : chart) (width_inches : nat).

(** What [doc.save] writes: the elements in the order they were added. *)
Definition document : Type := list element.

(* ================================================================== *)
(** ** Effects: the event log                                         *)
(* ================================================================== *)

Inductive event : Type :=
| ev_get_all_values                       (* one remote call *)
| st_warning (body : string)
| time_sleep (secs : Z)
| st_write (body : string)
| st_error (body : string)
| st_download_button (label : string) (data : document)
                     (file_name : string) (mime : string).

(** A computation: the events it emitted, then how it ended. *)
Definition M (A : Type) : Type := (list event * result A)%type.

Definition ret {A} (a : A) : M A := ([], Ok a).

Definition bind {A B} (c : M A) (k : A -> M B) : M B :=
  match c with
  | (t, Ok a) => let (t', r) := k a in (t ++ t', r)
  | (t, Raise e) => (t, Raise e)
  end.

Definition emit (e : event) : M unit := ([e], Ok tt).

Definition lift {A} (r : result A) : M A := ([], r).

(** [try: c  except Exception as e: h e] *)
Definition try_except {A} (c : M A) (h : exn -> M A) : M A :=
  match c with
  | (t, Ok a) => (t, Ok a)
  | (t, Raise e) => let (t', r) := h e in (t ++ t', r)
  end.

Definition trace {A} (c : M A) : list event := fst c.
Definition outcome {A} (c : M A) : result A := snd c.

Declare Scope eff_scope.
Delimit Scope eff_scope with eff.
Notation "x <- c ;; k" := (bind c (fun x => k))
  (at level 100, c at next level, right associativity) : eff_scope.

(* ================================================================== *)
(** ** The remote spreadsheet                                         *)
(* ================================================================== *)

(** A grid as [get_all_values] returns it: row 0 is the header. *)
Definition RawGrid : Type := list (list string).

(** A worksheet handle. [get_all_values ws i] is what the [i]-th call
    (from 0) on this handle does: it returns a grid or raises. *)
Record Worksheet : Type := { get_all_values : nat -> result RawGrid }.

Record Spreadsheet : Type := {
  title : string;
  worksheet : string -> result Worksheet
}.

Record Client : Type := { open_by_url : string -> result Spreadsheet }.

(* ================================================================== *)
(** ** [safe_fetch_worksheet]                                         *)
(* ================================================================== *)

(** [range(n)]: empty when [n <= 0]. *)
Definition range (n : Z) : list nat := seq 0 (Z.to_nat n).

Definition retry_warning (e : exn) (attempt : nat) : string :=
  "Retrying due to: " ++ exn_str e ++ ". Attempt " ++ str_of_nat (attempt + 1).

(** The longest sleep, in seconds: [time.sleep] counts the length in
    nanoseconds in a signed 64-bit integer, [(2^63 - 1) / 10^9]
    seconds at most. *)
Definition sleep_max : Z := 9223372036.

(** [time.sleep(secs)], [secs] an integer: a negative length is refused
    with a [ValueError], one that cannot be counted with an
    [OverflowError]. *)
Definition sleep (secs : Z) : M unit :=
  if (secs <? 0)%Z
  then lift (Raise (ValueError "sleep length must be non-negative"))
  else if (sleep_max <? secs)%Z
  then lift (Raise (OverflowError
                      "timestamp too large to convert to C _PyTime_t"))
  else emit (time_sleep secs).

(** The [for attempt in range(retries)] loop; [delay] is the loop's
    mutable variable. Falling out of the loop is [return []]. What the
    handler raises is not caught: it leaves the function. *)
Fixpoint safe_fetch_loop (ws : Worksheet) (attempts : list nat) (delay : Z)
  : M RawGrid :=
  match attempts with
  | [] => ret []
  | attempt :: rest =>
      (_ <- emit ev_get_all_values ;;
       match get_all_values ws attempt with
       | Ok grid => ret grid
       | Raise e =>
           (_ <- emit (st_warning (retry_warning e attempt)) ;;
            _ <- sleep delay ;;
            safe_fetch_loop ws rest (delay * 2)%Z)%eff
       end)%eff
  end.

(** [safe_fetch_worksheet(worksheet, retries=5, delay=2)] *)
Definition safe_fetch_worksheet (ws : Worksheet) (retries delay : Z)
  : M RawGrid :=
  safe_fetch_loop ws (range retries) delay.

(** The defaults of the two keyword arguments; every caller uses them. *)
Definition default_retries : Z := 5.
Definition default_delay : Z := 2.

(* ================================================================== *)
(** ** Text: UTF-8 and the decimal digits of Unicode                  *)
(* ================================================================== *)

(** A text is the bytes of its UTF-8 encoding, taken as well formed. *)
Definition utf8 (bytes : list nat) : string :=
  string_of_list_ascii (map ascii_of_nat bytes).

(** [s] without the prefix [p], when it starts with it. *)
Fixpoint drop_prefix (p s : string) : option string :=
  match p, s with
  | EmptyString, _ => Some s
  | String a p', String b s' =>
      if Ascii.eqb a b then drop_prefix p' s' else None
  | String _ _, EmptyString => None
  end.

(** The first alternative, in order, whose continuation succeeds: the
    backtracking of the regular-expression matcher. *)
Fixpoint first_match {A B} (k : A -> option B) (alts : list A) : option B :=
  match alts with
  | [] => None
  | a :: rest =>
      match k a with
      | Some b => Some b
      | None => first_match k rest
      end
  end.

(** The decimal digits of Unicode 14.0 (category [Nd], the class [\d]
    of [re] on a [str], the digits [int] reads): 66 runs of ten
    characters with the values 0 to 9. The ten of a run are encoded with
    the same bytes but the last; a run is given by these bytes and the
    last byte of its zero. The first run is the ASCII digits. *)
Definition digit_blocks : list (list nat * nat) :=
    [([], 48); ([217], 160); ([219], 176); ([223], 128); ([224; 165], 166);
     ([224; 167], 166); ([224; 169], 166); ([224; 171], 166);
     ([224; 173], 166); ([224; 175], 166); ([224; 177], 166);
     ([224; 179], 166); ([224; 181], 166); ([224; 183], 166);
     ([224; 185], 144); ([224; 187], 144); ([224; 188], 160);
     ([225; 129], 128); ([225; 130], 144); ([225; 159], 160);
     ([225; 160], 144); ([225; 165], 134); ([225; 167], 144);
     ([225; 170], 128); ([225; 170], 144); ([225; 173], 144);
     ([225; 174], 176); ([225; 177], 128); ([225; 177], 144);
     ([234; 152], 160); ([234; 163], 144); ([234; 164], 128);
     ([234; 167], 144); ([234; 167], 176); ([234; 169], 144);
     ([234; 175], 176); ([239; 188], 144); ([240; 144; 146], 160);
     ([240; 144; 180], 176); ([240; 145; 129], 166);
     ([240; 145; 131], 176); ([240; 145; 132], 182);
     ([240; 145; 135], 144); ([240; 145; 139], 176);
     ([240; 145; 145], 144); ([240; 145; 147], 144);
     ([240; 145; 153], 144); ([240; 145; 155], 128);
     ([240; 145; 156], 176); ([240; 145; 163], 160);
     ([240; 145; 165], 144); ([240; 145; 177], 144);
     ([240; 145; 181], 144); ([240; 145; 182], 160);
     ([240; 150; 169], 160); ([240; 150; 171], 128);
     ([240; 150; 173], 144); ([240; 157; 159], 142);
     ([240; 157; 159], 152); ([240; 157; 159], 162);
     ([240; 157; 159], 172); ([240; 157; 159], 182);
     ([240; 158; 133], 128); ([240; 158; 139], 176);
     ([240; 158; 165], 144); ([240; 159; 175], 176)].

(** The decimal digit of one of the [blocks] that [s] starts with: its
    value and the text after it. *)
Definition digit_in (blocks : list (list nat * nat)) (s : string)
  : option (Z * string) :=
  first_match
    (fun block : list nat * nat =>
       match drop_prefix (utf8 (fst block)) s with
       | Some (String b rest) =>
           if (snd block <=? nat_of_ascii b)
              && (nat_of_ascii b <=? snd block + 9)
           then Some (Z.of_nat (nat_of_ascii b - snd block), rest)
           else None
       | _ => None
       end)
    blocks.

(** [\d] at the head of [s]. *)
Definition unicode_digit (s : string) : option (Z * string) :=
  digit_in digit_blocks s.

(* ================================================================== *)
(** ** pandas: cells and their coercions                              *)
(* ================================================================== *)

Definition is_digit (c : ascii) : bool :=
  (48 <=? nat_of_ascii c) && (nat_of_ascii c <=? 57).

Definition digit_value (c : ascii) : Z := Z.of_nat (nat_of_ascii c - 48).

(** [re.sub(pat, '', s)] for a pattern that is a single character
    class: every character the class matches is deleted. *)
Fixpoint re_delete (pat : ascii -> bool) (s : string) : string :=
  match s with
  | EmptyString => EmptyString
  | String c s' =>
      if pat c then re_delete pat s' else String c (re_delete pat s')
  end.

(** The class [[^\d.]] on the bytes of an ASCII text. *)
Definition ascii_not_digit_or_dot (c : ascii) : bool :=
  negb (is_digit c || Ascii.eqb c ".").

(** How many bytes the decimal digit at the head of [s] takes; 0 when
    [s] does not start with one. *)
Definition digit_width (s : string) : nat :=
  match unicode_digit s with
  | Some (_, rest) => String.length s - String.length rest
  | None => 0
  end.

(** [re.sub(r'[^\d.]', '', s)]: every character is deleted but the
    decimal digits, of any script, and the points. [pending] counts the
    bytes still to copy of a digit that was recognised at its first
    byte. *)
Fixpoint keep_digits_and_dots (pending : nat) (s : string) : string :=
  match s with
  | EmptyString => EmptyString
  | String c s' =>
      match pending with
      | S n => String c (keep_digits_and_dots n s')
      | O =>
          if Ascii.eqb c "." then String c (keep_digits_and_dots 0 s')
          else match digit_width s with
               | S n => String c (keep_digits_and_dots n s')
               | O => keep_digits_and_dots 0 s'
               end
      end
  end.

Definition sub_not_digit_or_dot (s : string) : string :=
  keep_digits_and_dots 0 s.

(** The pattern [%]. *)
Definition re_percent (c : ascii) : bool := Ascii.eqb c "%".

(** *** [pd.to_numeric] on one string

    pandas parses a string cell with its own [strtod]: optional blanks,
    an optional sign, digits with at most one decimal point and at
    least one digit, an optional exponent, optional blanks, and nothing
    else. *)

Definition is_space (c : ascii) : bool :=
  let n := nat_of_ascii c in (n =? 32) || ((9 <=? n) && (n <=? 13)).

Fixpoint skip_spaces (s : string) : string :=
  match s with
  | String c s' => if is_space c then skip_spaces s' else s
  | EmptyString => s
  end.

(** The longest prefix of digits, and what follows it. *)
Fixpoint take_digits (s : string) : list ascii * string :=
  match s with
  | String c s' =>
      if is_digit c
      then let (ds, rest) := take_digits s' in (c :: ds, rest)
      else ([], s)
  | EmptyString => ([], s)
  end.

Definition digits_value (ds : list ascii) : Z :=
  fold_left (fun acc c => 10 * acc + digit_value c)%Z ds 0%Z.

(** An optional sign: [true] for minus. *)
Definition take_sign (s : string) : bool * string :=
  match s with
  | String "-" s' => (true, s')
  | String "+" s' => (false, s')
  | _ => (false, s)
  end.

(** An optional exponent. An [e] with no digit after it makes the whole
    parse fail, as the unread [e] is left over. *)
Definition take_exponent (s : string) : option (Z * string) :=
  match s with
  | String c s' =>
      if Ascii.eqb c "e" || Ascii.eqb c "E" then
        let (neg, s1) := take_sign s' in
        let (ds, s2) := take_digits s1 in
        match ds with
        | [] => None
        | _ => Some ((if neg then - digits_value ds else digits_value ds)%Z, s2)
        end
      else Some (0%Z, s)
  | EmptyString => Some (0%Z, s)
  end.

(** [mant * 10 ^ e], in lowest terms. *)
Definition scale10 (mant e : Z) : Q :=
  Qred (if (0 <=? e)%Z then inject_Z (mant * 10 ^ e)
        else Qmake mant (Z.to_pos (10 ^ (- e)))).

Definition parse_float (s : string) : option Q :=
  let s0 := skip_spaces s in
  let (neg, s1) := take_sign s0 in
  let (ip, s2) := take_digits s1 in
  let (fp, s3) := match s2 with
                  | String "." s' => take_digits s'
                  | _ => ([], s2)
                  end in
  match ip ++ fp with
  | [] => None
  | ds =>
      match take_exponent s3 with
      | None => None
      | Some (ex, s4) =>
          match skip_spaces s4 with
          | EmptyString =>
              let mant := digits_value ds in
              Some (scale10 (if neg then - mant else mant)
                            (ex - Z.of_nat (length fp)))
          | String _ _ => None
          end
      end
  end.

(** *** [pd.to_datetime(..., format='%d/%m/%Y')] on one string *)

Record date : Type := { year : Z; month : Z; day : Z }.

Definition is_leap (y : Z) : bool :=
  ((y mod 4 =? 0) && (negb (y mod 100 =? 0) || (y mod 400 =? 0)))%Z.

Definition days_in_month (y m : Z) : Z :=
  (if m =? 2 then (if is_leap y then 29 else 28)
   else if (m =? 4) || (m =? 6) || (m =? 9) || (m =? 11) then 30
   else 31)%Z.

(** What [datetime.date(y, m, d)] accepts. *)
Definition valid_date (y m d : Z) : bool :=
  ((1 <=? y) && (y <=? 9999) && (1 <=? m) && (m <=? 12)
   && (1 <=? d) && (d <=? days_in_month y m))%Z.

Definition in_range (lo hi : nat) (c : ascii) : bool :=
  (lo <=? nat_of_ascii c) && (nat_of_ascii c <=? hi).

(** The directive [%d], the regular expression
    [3[0-1]|[1-2]\d|0[1-9]|[1-9]| [1-9]]: its matches at the head of
    [s], in the order the alternatives are tried. The ranges are ASCII
    digits; [\d] is any decimal digit, and [int] reads its value. *)
Definition re_d (s : string) : list (Z * string) :=
  let two (ok : ascii -> ascii -> bool) :=
    match s with
    | String a (String b r) =>
        if ok a b then [((10 * digit_value a + digit_value b)%Z, r)] else []
    | _ => []
    end in
  two (fun a b => Ascii.eqb a "3" && in_range 48 49 b)
  ++ match s with
     | String a r =>
         if in_range 49 50 a then
           match unicode_digit r with
           | Some (v, r') => [((10 * digit_value a + v)%Z, r')]
           | None => []
           end
         else []
     | _ => []
     end
  ++ two (fun a b => Ascii.eqb a "0" && in_range 49 57 b)
  ++ match s with
     | String a r => if in_range 49 57 a then [(digit_value a, r)] else []
     | _ => []
     end
  ++ match s with
     | String a (String b r) =>
         if Ascii.eqb a " " && in_range 49 57 b then [(digit_value b, r)] else []
     | _ => []
     end.

(** The directive [%m]: [1[0-2]|0[1-9]|[1-9]]. *)
Definition re_m (s : string) : list (Z * string) :=
  let two (ok : ascii -> ascii -> bool) :=
    match s with
    | String a (String b r) =>
        if ok a b then [((10 * digit_value a + digit_value b)%Z, r)] else []
    | _ => []
    end in
  two (fun a b => Ascii.eqb a "1" && in_range 48 50 b)
  ++ two (fun a b => Ascii.eqb a "0" && in_range 49 57 b)
  ++ match s with
     | String a r => if in_range 49 57 a then [(digit_value a, r)] else []
     | _ => []
     end.

(** The directive [%Y]: [\d\d\d\d], four decimal digits of any
    script. *)
Definition re_Y (s : string) : list (Z * string) :=
  match unicode_digit s with
  | Some (a, s1) =>
      match unicode_digit s1 with
      | Some (b, s2) =>
          match unicode_digit s2 with
          | Some (c, s3) =>
              match unicode_digit s3 with
              | Some (d, r) => [((((a * 10 + b) * 10 + c) * 10 + d)%Z, r)]
              | None => []
              end
          | None => []
          end
      | None => []
      end
  | None => []
  end.

(** A literal character of the format. *)
Definition re_char (ch : ascii) (s : string) : list string :=
  match s with
  | String a r => if Ascii.eqb a ch then [r] else []
  | EmptyString => []
  end.

(** [format_regex.match(val)] for [%d/%m/%Y]: the fields and the text
    left unread. *)
Definition match_dmY (s : string) : option (Z * Z * Z * string) :=
  first_match (fun '(d, s1) =>
    first_match (fun s2 =>
      first_match (fun '(m, s3) =>
        first_match (fun s4 =>
          first_match (fun '(y, s5) => Some (d, m, y, s5)) (re_Y s4))
        (re_char "/" s3))
      (re_m s2))
    (re_char "/" s1))
  (re_d s).

(** What a [datetime64[ns]] holds: midnights from 1677-09-22 to
    2262-04-11 (pandas before 3.0 parses to nanoseconds). *)
Definition in_ns_bounds (y m d : Z) : bool :=
  let ymd := (y * 10000 + m * 100 + d)%Z in
  ((16770922 <=? ymd) && (ymd <=? 22620411))%Z.

(** One cell under [errors='coerce']: no match, unread text, a day that
    the month does not have, or a date out of bounds, give [NaT]. *)
Definition parse_date (s : string) : option date :=
  match match_dmY s with
  | Some (d, m, y, EmptyString) =>
      if valid_date y m d && in_ns_bounds y m d
      then Some {| year := y; month := m; day := d |}
      else None
  | _ => None
  end.

(* ================================================================== *)
(** ** pandas: columns and frames                                     *)
(* ================================================================== *)

(** A column by dtype. [None] is the missing value of the dtype: [None]
    in an object column, [NaN] in a float column, [NaT] in a datetime
    column. *)
Inductive column : Type :=
| ObjCol (cells : list (option string))
| NumCol (cells : list (option Q))
| DtCol (cells : list (option date)).

(** [s.dtype] *)
Inductive dtype : Type := object | float64 | datetime64.

Definition dtype_of (c : column) : dtype :=
  match c with
  | ObjCol _ => object
  | NumCol _ => float64
  | DtCol _ => datetime64
  end.

(** A frame: the length of its index and its columns in order. Column
    names may repeat, as pandas allows. *)
Record DataFrame : Type := {
  index_len : nat;
  columns : list (string * column)
}.

(** [pd.DataFrame()] *)
Definition empty_DataFrame : DataFrame :=
  {| index_len := 0; columns := [] |}.

(** [len(df)] *)
Definition nrows (df : DataFrame) : nat := index_len df.

Definition column_names (df : DataFrame) : list string :=
  map fst (columns df).

Definition column_len (c : column) : nat :=
  match c with
  | ObjCol l => length l
  | NumCol l => length l
  | DtCol l => length l
  end.

(** [df.empty]: some axis has length 0. *)
Definition df_empty (df : DataFrame) : bool :=
  (index_len df =? 0) || (length (columns df) =? 0).

(** [key in df] *)
Definition contains (df : DataFrame) (key : string) : bool :=
  existsb (String.eqb key) (column_names df).

(** [pd.DataFrame(data, columns=cols)] for a list of rows. pandas pads
    the rows with [None] to the longest of them, and raises unless
    that width is the number of names passed. *)
Definition DataFrame_of_rows (data : list (list string)) (cols : list string)
  : result DataFrame :=
  match data with
  | [] => Ok {| index_len := 0;
                columns := map (fun name => (name, ObjCol [])) cols |}
  | _ =>
      let width := list_max (map (@length string) data) in
      if width =? length cols then
        Ok {| index_len := length data;
              columns :=
                map (fun jn : nat * string =>
                       (snd jn,
                        ObjCol (map (fun row => nth_error row (fst jn)) data)))
                    (combine (seq 0 (length cols)) cols) |}
      else
        Raise (ValueError (str_of_nat (length cols)
                           ++ " columns passed, passed data had "
                           ++ str_of_nat width ++ " columns"))
  end.

(** What [df[key]] is: a Series when one column has that name, a frame
    when several have. *)
Inductive selection : Type :=
| Sel_Series (c : column)
| Sel_Frame (cs : list (string * column)).

Definition named (key : string) (p : string * column) : bool :=
  String.eqb (fst p) key.

(** [df[key]] *)
Definition getitem (df : DataFrame) (key : string) : result selection :=
  match filter (named key) (columns df) with
  | [] => Raise (KeyError key)
  | [(_, c)] => Ok (Sel_Series c)
  | cs => Ok (Sel_Frame cs)
  end.

(** [df[key] = value] for a Series value: every column of that name is
    replaced; a new name is appended. *)
Definition setitem (df : DataFrame) (key : string) (value : column)
  : DataFrame :=
  if contains df key then
    {| index_len := index_len df;
       columns := map (fun p => if named key p then (key, value) else p)
                      (columns df) |}
  else
    {| index_len := index_len df;
       columns := columns df ++ [(key, value)] |}.

(** [df[[k1, ..., kn]]]: for each key in turn, the columns of that
    name. *)
Fixpoint getitem_list (df : DataFrame) (keys : list string)
  : result DataFrame :=
  match keys with
  | [] => Ok {| index_len := index_len df; columns := [] |}
  | key :: rest =>
      match filter (named key) (columns df) with
      | [] => Raise (KeyError ("['" ++ key ++ "'] not in index"))
      | cs =>
          (r <- getitem_list df rest ;;
           Ok {| index_len := index_len df; columns := cs ++ columns r |})%py
      end
  end.

(** [s.str.replace(pat, '', regex=True)], with [sub] what
    [re.sub(pat, '', _)] does to one cell: missing cells stay missing. *)
Definition str_replace (sub : string -> string) (s : selection)
  : result column :=
  match s with
  | Sel_Series (ObjCol l) => Ok (ObjCol (map (option_map sub) l))
  | Sel_Series _ =>
      Raise (AttributeError "Can only use .str accessor with string values!")
  | Sel_Frame _ =>
      Raise (AttributeError "'DataFrame' object has no attribute 'str'")
  end.

Definition numeric_cell (c : option string) : option Q :=
  match c with
  | Some s => parse_float s
  | None => None
  end.

(** [pd.to_numeric(s, errors='coerce')] *)
Definition to_numeric (s : selection) : result column :=
  match s with
  | Sel_Series (ObjCol l) => Ok (NumCol (map numeric_cell l))
  | Sel_Series (NumCol l) => Ok (NumCol l)
  | Sel_Series (DtCol _) =>
      Raise (TypeError "Invalid object type")
  | Sel_Frame _ =>
      Raise (TypeError "arg must be a list, tuple, 1-d array, or Series")
  end.

Definition datetime_cell (c : option string) : option date :=
  match c with
  | Some s => parse_date s
  | None => None
  end.

(** [pd.to_datetime(s, format='%d/%m/%Y', errors='coerce')] *)
Definition to_datetime (s : selection) : result column :=
  match s with
  | Sel_Series (ObjCol l) => Ok (DtCol (map datetime_cell l))
  | Sel_Series (DtCol l) => Ok (DtCol l)
  | Sel_Series (NumCol _) =>
      Raise (TypeError "cannot parse numbers with a string format")
  | Sel_Frame _ =>
      Raise (ValueError "to assemble mappings requires at least that [year, month, day] be specified")
  end.

(** [s / d] on a float column: [NaN] stays [NaN]. *)
Definition truediv (c : column) (d : Q) : result column :=
  match c with
  | NumCol l => Ok (NumCol (map (option_map (fun x => Qred (x / d))) l))
  | _ => Raise (TypeError "unsupported operand type(s) for /")
  end.

(* ================================================================== *)
(** ** The three cleaners                                             *)
(* ================================================================== *)

(** [pd.to_numeric(df[key].str.replace(r'[^\d.]', '', regex=True),
    errors='coerce')] *)
Definition money_column (df : DataFrame) (key : string) : result column :=
  (s <- getitem df key ;;
   c <- str_replace sub_not_digit_or_dot s ;;
   to_numeric (Sel_Series c))%py.

(** [pd.to_numeric(df[key].str.replace('%', '', regex=True),
    errors='coerce') / 100] *)
Definition percent_column (df : DataFrame) (key : string) : result column :=
  (s <- getitem df key ;;
   c <- str_replace (re_delete re_percent) s ;;
   n <- to_numeric (Sel_Series c) ;;
   truediv n 100)%py.

(** [pd.to_datetime(df[key], format='%d/%m/%Y', errors='coerce')] *)
Definition date_column (df : DataFrame) (key : string) : result column :=
  (s <- getitem df key ;; to_datetime s)%py.

(** The body of [fetch_products_data] from [if len(raw_data) > 1] on. *)
Definition normalize_products (raw_data : RawGrid) : result DataFrame :=
  if 1 <? length raw_data then
    (df <- DataFrame_of_rows (tl raw_data) (hd [] raw_data) ;;
     c <- date_column df "Date Uploaded:" ;;
     let df := setitem df "Date Uploaded" c in
     c <- money_column df "eBay Price" ;;
     let df := setitem df "eBay Price" c in
     c <- percent_column df "Profit Per Product Present" ;;
     let df := setitem df "Profit Per Product Present" c in
     getitem_list df ["Date Uploaded"; "eBay Price";
                      "Profit Per Product Present"])%py
  else Ok empty_DataFrame.

(** The body of [fetch_orders_data] from [if len(raw_data) > 1] on. *)
Definition normalize_orders (raw_data : RawGrid) : result DataFrame :=
  if 1 <? length raw_data then
    (df <- DataFrame_of_rows (tl raw_data) (hd [] raw_data) ;;
     c <- date_column df "Date Of Purchase" ;;
     let df := setitem df "Date Of Purchase" c in
     c <- money_column df "eBay Price" ;;
     let df := setitem df "eBay Price" c in
     c <- money_column df "Profit Per Sale USD" ;;
     let df := setitem df "Profit Per Sale USD" c in
     c <- money_column df "Total Sales" ;;
     let df := setitem df "Total Sales" c in
     c <- money_column df "Total Profits" ;;
     let df := setitem df "Total Profits" c in
     getitem_list df ["Date Of Purchase"; "eBay Price"; "Profit Per Sale USD";
                      "Total Sales"; "Total Profits"])%py
  else Ok empty_DataFrame.

(** The body of [fetch_hours_data] from [if len(raw_data) > 1] on. *)
Definition normalize_hours (raw_data : RawGrid) : result DataFrame :=
  if 1 <? length raw_data then
    (df <- DataFrame_of_rows (tl raw_data) (hd [] raw_data) ;;
     c <- date_column df "Date:" ;;
     let df := setitem df "Date" c in
     s <- getitem df "Hours:" ;;
     c <- to_numeric s ;;
     let df := setitem df "Hours" c in
     getitem_list df ["Date"; "Hours"])%py
  else Ok empty_DataFrame.

(** [fetch_products_data(sheet)] *)
Definition fetch_products_data (sheet : Spreadsheet) : M DataFrame :=
  (ws <- lift (worksheet sheet "PRODUCTS") ;;
   raw_data <- safe_fetch_worksheet ws default_retries default_delay ;;
   lift (normalize_products raw_data))%eff.

(** [fetch_orders_data(sheet)] *)
Definition fetch_orders_data (sheet : Spreadsheet) : M DataFrame :=
  (ws <- lift (worksheet sheet "ORDERS") ;;
   raw_data <- safe_fetch_worksheet ws default_retries default_delay ;;
   lift (normalize_orders raw_data))%eff.

(** [fetch_hours_data(sheet)] *)
Definition fetch_hours_data (sheet : Spreadsheet) : M DataFrame :=
  (ws <- lift (worksheet sheet "HOURSWORKED") ;;
   raw_data <- safe_fetch_worksheet ws default_retries default_delay ;;
   lift (normalize_hours raw_data))%eff.

(* ================================================================== *)
(** ** Grouping by calendar month                                     *)
(* ================================================================== *)

(** A monthly period is its ordinal, the number of months since
    January 1970, as in [Period.ordinal] for the frequency [M]. *)
Definition period : Type := Z.

(** [d.to_period('M')] *)
Definition to_period_M (d : date) : period :=
  ((year d - 1970) * 12 + (month d - 1))%Z.

Definition period_year (p : period) : Z := (1970 + p / 12)%Z.
Definition period_month (p : period) : Z := (p mod 12 + 1)%Z.

(** Left padding with zeros to [width] characters. *)
Definition zfill (width : nat) (s : string) : string :=
  String.concat "" (repeat "0" (width - String.length s)) ++ s.

(** [str(p)] for a monthly period: [YYYY-MM]. *)
Definition period_str (p : period) : string :=
  zfill 4 (str_of_nat (Z.to_nat (period_year p))) ++ "-"
  ++ zfill 2 (str_of_nat (Z.to_nat (period_month p))).

(** [s.dt.to_period('M')]: the grouping key of every row, [NaT] where
    the date is. *)
Definition dt_to_period_M (s : selection) : result (list (option period)) :=
  match s with
  | Sel_Series (DtCol l) => Ok (map (option_map to_period_M) l)
  | Sel_Series _ =>
      Raise (AttributeError "Can only use .dt accessor with datetimelike values")
  | Sel_Frame _ =>
      Raise (AttributeError "'DataFrame' object has no attribute 'dt'")
  end.

(** The groups of a [groupby]: the keys in increasing order, each with
    the values of its rows in row order. *)
Definition groups (V : Type) : Type := list (period * list V).

(** Put one row in the group of its key, opening the group at its
    place in the order when the key is new. *)
Fixpoint add_to_groups {V} (k : period) (v : V) (gs : groups V) : groups V :=
  match gs with
  | [] => [(k, [v])]
  | (k', vs) :: rest =>
      if (k <? k')%Z then (k, [v]) :: gs
      else if (k =? k')%Z then (k', vs ++ [v]) :: rest
      else (k', vs) :: add_to_groups k v rest
  end.

(** [groupby(keys)] with the defaults [sort=True, dropna=True]: a row
    whose key is [NaT] is in no group. *)
Fixpoint groupby_from {V} (rows : list (option period * V)) (gs : groups V)
  : groups V :=
  match rows with
  | [] => gs
  | (Some k, v) :: rest => groupby_from rest (add_to_groups k v gs)
  | (None, _) :: rest => groupby_from rest gs
  end.

Definition groupby {V} (keys : list (option period)) (values : list V)
  : groups V :=
  groupby_from (combine keys values) [].

(** The result of a reduction: month to number, in key order. *)
Definition MonthSeries : Type := list (period * Q).

Definition reduce {V} (f : list V -> Q) (gs : groups V) : MonthSeries :=
  map (fun g => (fst g, f (snd g))) gs.

(** The sum of the values that are there ([skipna=True]); 0 for none. *)
Definition sum_present (vs : list (option Q)) : Q :=
  fold_left (fun acc v => match v with
                          | Some x => Qred (acc + x)
                          | None => acc
                          end) vs 0%Q.

Definition Q_of_nat (n : nat) : Q := inject_Z (Z.of_nat n).

(** [df.groupby(keys).size()]: the number of rows of each group. *)
Definition groupby_size (keys : list (option period)) : MonthSeries :=
  reduce (fun vs => Q_of_nat (length vs)) (groupby keys keys).

(** [s.notna()] *)
Definition notna (c : column) : list bool :=
  let there {A} (v : option A) := match v with Some _ => true | None => false end in
  match c with
  | ObjCol l => map there l
  | NumCol l => map there l
  | DtCol l => map there l
  end.

Definition count_true (vs : list bool) : nat := length (filter (fun b => b) vs).

(** [df.groupby(keys)[name].count()]: the number of rows of each group
    whose [name] is not missing. With several columns of that name the
    result is a frame, which [create_graph] handles only when it is
    empty. *)
Definition groupby_count (keys : list (option period)) (df : DataFrame)
  (name : string) : result MonthSeries :=
  match filter (named name) (columns df) with
  | [] => Raise (KeyError ("Column not found: " ++ name))
  | [(_, c)] => Ok (reduce (fun vs => Q_of_nat (count_true vs))
                           (groupby keys (notna c)))
  | _ => match groupby keys keys with
         | [] => Ok []
         | _ => Raise (ValueError "shape mismatch: objects cannot be broadcast to a single shape")
         end
  end.

(** [df.groupby(keys)[name].sum()]. The cleaners only ever leave a
    float column under a summed name; other dtypes are rejected here. *)
Definition groupby_sum (keys : list (option period)) (df : DataFrame)
  (name : string) : result MonthSeries :=
  match filter (named name) (columns df) with
  | [] => Raise (KeyError ("Column not found: " ++ name))
  | [(_, NumCol l)] => Ok (reduce sum_present (groupby keys l))
  | [(_, _)] => Raise (TypeError "the summed column is not numeric")
  | _ => match groupby keys keys with
         | [] => Ok []
         | _ => Raise (ValueError "shape mismatch: objects cannot be broadcast to a single shape")
         end
  end.

(** [s.sum()] *)
Definition series_sum (s : selection) : result Q :=
  match s with
  | Sel_Series (NumCol l) => Ok (sum_present l)
  | _ => Raise (TypeError "unsupported format string passed to __format__")
  end.

(* ================================================================== *)
(** ** [create_graph] and [generate_report]                           *)
(* ================================================================== *)

(** [create_graph(data, title, x_label, y_label, graph_type="bar")] *)
Definition create_graph (data : MonthSeries) (title x_label y_label : string)
  (kind : graph_type) : option chart :=
  match data with
  | [] => None
  | _ => Some {| chart_kind := kind;
                 chart_x := map (fun kv => period_str (fst kv)) data;
                 chart_y := map snd data;
                 chart_title := title;
                 chart_xlabel := x_label;
                 chart_ylabel := y_label |}
  end.

(** [if graph: doc.add_picture(graph, width=Inches(5))] *)
Definition add_picture (doc : document) (graph : option chart) : document :=
  match graph with
  | Some g => doc ++ [Picture g 5]
  | None => doc
  end.

(** [df[name].sum() if name in df else 0] *)
Definition total_of (df : DataFrame) (name : string) : result Q :=
  if contains df name then (s <- getitem df name ;; series_sum s)%py
  else Ok 0%Q.

(** [df[name].dt.to_period('M')] *)
Definition month_keys (df : DataFrame) (name : string)
  : result (list (option period)) :=
  (s <- getitem df name ;; dt_to_period_M s)%py.

Definition products_chart (products : DataFrame) : result (option chart) :=
  (keys <- month_keys products "Date Uploaded" ;;
   let products_per_month := groupby_size keys in
   Ok (create_graph products_per_month "Products Uploaded per Month"
                    "Month" "Number of Products" bar))%py.

Definition sales_chart (orders : DataFrame) : result (option chart) :=
  (keys <- month_keys orders "Date Of Purchase" ;;
   sales_per_month <- groupby_count keys orders "eBay Price" ;;
   Ok (create_graph sales_per_month "Sales per Month"
                    "Month" "Number of Sales" bar))%py.

Definition profit_chart (orders : DataFrame) : result (option chart) :=
  (keys <- month_keys orders "Date Of Purchase" ;;
   profit_per_month <- groupby_sum keys orders "Profit Per Sale USD" ;;
   Ok (create_graph profit_per_month "Profit per Month"
                    "Month" "Profit ($)" bar))%py.

Definition hours_chart (hours : DataFrame) : result (option chart) :=
  (keys <- month_keys hours "Date" ;;
   hours_per_month <- groupby_sum keys hours "Hours" ;;
   Ok (create_graph hours_per_month "Hours Worked per Month"
                    "Month" "Hours" bar))%py.

(** [generate_report(client_name, products, orders, hours)] *)
Definition generate_report (client_name : string)
  (products orders hours : DataFrame) : result document :=
  (let doc := [Heading ("Report for " ++ client_name) 0] in
   total_sales <- total_of orders "Total Sales" ;;
   total_profit <- total_of orders "Total Profits" ;;
   total_hours <- total_of hours "Hours" ;;
   let doc := doc ++ [Paragraph [Lit "Total Sales: $"; Float2f total_sales]] in
   let doc := doc ++ [Paragraph [Lit "Total Profit: $"; Float2f total_profit]] in
   let doc := doc ++ [Paragraph [Lit "Total Hours Worked: ";
                                 Float2f total_hours; Lit " hours"]] in
   let doc := doc ++ [Heading "Graphs" 1] in
   doc <- (if negb (df_empty products) then
             graph <- products_chart products ;;
             Ok (add_picture doc graph)
           else Ok doc) ;;
   doc <- (if negb (df_empty orders) then
             graph <- sales_chart orders ;;
             let doc := add_picture doc graph in
             graph <- profit_chart orders ;;
             Ok (add_picture doc graph)
           else Ok doc) ;;
   doc <- (if negb (df_empty hours) then
             graph <- hours_chart hours ;;
             Ok (add_picture doc graph)
           else Ok doc) ;;
   Ok doc)%py.

(* ================================================================== *)
(** ** The batch loop                                                 *)
(* ================================================================== *)

Definition docx_mime : string :=
  "application/vnd.openxmlformats-officedocument.wordprocessingml.document".

(** From [client.open_by_url] to [generate_report]: the client's name
    and the report. *)
Definition build_report (client : Client) (sheet_url : string)
  : M (string * document) :=
  (client_sheet <- lift (open_by_url client sheet_url) ;;
   let client_name := title client_sheet in
   products <- fetch_products_data client_sheet ;;
   orders <- fetch_orders_data client_sheet ;;
   hours <- fetch_hours_data client_sheet ;;
   report_buffer <- lift (generate_report client_name products orders hours) ;;
   ret (client_name, report_buffer))%eff.

Definition error_message (sheet_url : string) (e : exn) : string :=
  "Error processing link " ++ sheet_url ++ ": " ++ exn_str e.

(** One turn of the loop: the [try] block and its [except]. *)
Definition process_link (client : Client) (idx : nat) (sheet_url : string)
  : M unit :=
  try_except
    (_ <- emit (st_write ("Processing link " ++ str_of_nat (idx + 1) ++ "...")) ;;
     named_report <- build_report client sheet_url ;;
     let client_name := fst named_report in
     emit (st_download_button ("Download " ++ client_name ++ "'s Report")
                              (snd named_report)
                              (client_name ++ "_Report.docx")
                              docx_mime))%eff
    (fun e => emit (st_error (error_message sheet_url e))).

(** [enumerate(l)] *)
Definition enumerate {A} (l : list A) : list (nat * A) :=
  combine (seq 0 (length l)) l.

Fixpoint batch_loop (client : Client) (items : list (nat * string)) : M unit :=
  match items with
  | [] => ret tt
  | (idx, sheet_url) :: rest =>
      (_ <- process_link client idx sheet_url ;;
       batch_loop client rest)%eff
  end.

(** [for idx, sheet_url in enumerate(sheet_links): ...] *)
Definition generate_reports (client : Client) (sheet_links : list string)
  : M unit :=
  batch_loop client (enumerate sheet_links).

(** What the user is shown for one source: a download (the name of the
    file and the report in it) or an error message. *)
Inductive BatchResult : Type :=
| Completed (file_name : string) (report : document)
| Failed (message : string).

Definition batch_result_of (e : event) : list BatchResult :=
  match e with
  | st_download_button _ data file_name _ => [Completed file_name data]
  | st_error body => [Failed body]
  | _ => []
  end.

(** The results in a log, in the order they were shown. *)
Definition batch_results (t : list event) : list BatchResult :=
  flat_map batch_result_of t.

(** What one source comes to, from its own run of [build_report]. *)
Definition source_result (client : Client) (sheet_url : string) : BatchResult :=
  match outcome (build_report client sheet_url) with
  | Ok (client_name, report) => Completed (client_name ++ "_Report.docx") report
  | Raise e => Failed (error_message sheet_url e)
  end.

(* ================================================================== *)
(** ** Observations on the log *)
(* ================================================================== *)

(** How many times the remote was called. *)
Definition remote_calls (t : list event) : nat :=
  length (filter (fun e => match e with ev_get_all_values => true | _ => false end) t).

(** The arguments of the calls of [time.sleep], in order. *)
Definition sleeps (t : list event) : list Z :=
  flat_map (fun e => match e with time_sleep d => [d] | _ => [] end) t.

(** The calls of [st.warning], in order. *)
Definition warnings (t : list event) : list string :=
  flat_map (fun e => match e with st_warning b => [b] | _ => [] end) t.

(** What one failed attempt leaves in the log. *)
Definition failed_attempt (err : nat -> exn) (d : Z) (attempt : nat)
  : list event :=
  [ev_get_all_values;
   st_warning (retry_warning (err attempt) attempt);
   time_sleep (d * 2 ^ Z.of_nat attempt)%Z].

(** A computation that shows neither a download nor an error. *)
Definition quiet {A} (c : M A) : Prop := batch_results (trace c) = [].

(* ================================================================== *)
(** ** Schemas and grids *)
(* ================================================================== *)

(** The source and target column names of the three cleaners. *)
Definition products_source_columns : list string :=
  ["Date Uploaded:"; "eBay Price"; "Profit Per Product Present"].
Definition products_target_columns : list string :=
  ["Date Uploaded"; "eBay Price"; "Profit Per Product Present"].
Definition orders_source_columns : list string :=
  ["Date Of Purchase"; "eBay Price"; "Profit Per Sale USD"; "Total Sales";
   "Total Profits"].
Definition orders_target_columns : list string := orders_source_columns.
Definition hours_source_columns : list string := ["Date:"; "Hours:"].
Definition hours_target_columns : list string := ["Date"; "Hours"].

(** How many columns of the header have the name [key]. *)
Definition count_name (key : string) (header : list string) : nat :=
  length (filter (String.eqb key) header).

(** Some source column of the schema is not in the header. *)
Definition lacks_column (sources : list string) (raw_data : RawGrid) : bool :=
  existsb (fun key => count_name key (hd [] raw_data) =? 0) sources.

(** A grid the cleaner of a schema accepts: no data row is wider than
    the header and one is as wide, and every source column of the
    schema is in the header once. *)
Definition valid_grid (sources : list string) (raw_data : RawGrid) : bool :=
  (list_max (map (@length string) (tl raw_data)) =? length (hd [] raw_data))
  && forallb (fun key => count_name key (hd [] raw_data) =? 1) sources.

(** Every column is as long as the index. *)
Definition well_formed (df : DataFrame) : Prop :=
  Forall (fun p => column_len (snd p) = index_len df) (columns df).


(** The grid the cleaner of a worksheet is given: what the fetch of
    that worksheet returned. *)
Definition fetched (sheet : Spreadsheet) (table : string) (raw_data : RawGrid)
  : Prop :=
  exists ws, worksheet sheet table = Ok ws
             /\ outcome (safe_fetch_worksheet ws default_retries default_delay)
                = Ok raw_data.

(* ================================================================== *)
(** ** The groups of a series *)
(* ================================================================== *)

(** The keys of the groups, in their order. *)
Definition keys_of {V} (gs : groups V) : list period := map fst gs.

(** The values of the group of key [k]; none when there is no such group. *)
Fixpoint group_of {V} (k : period) (gs : groups V) : list V :=
  match gs with
  | [] => []
  | (k', vs) :: rest => if (k' =? k)%Z then vs else group_of k rest
  end.

Definition has_key {V} (k : period) (row : option period * V) : bool :=
  match fst row with
  | Some k' => (k' =? k)%Z
  | None => false
  end.

Definition dated {V} (row : option period * V) : bool :=
  match fst row with
  | Some _ => true
  | None => false
  end.

(* ================================================================== *)
(** ** The cleaners as lists of steps *)
(* ================================================================== *)

(** Each cleaner reads a source column, converts it, and assigns the
    result to a target column, one column after the other; this is the
    same computation written as a list of such steps. *)

(** [pd.to_numeric(df[key], errors='coerce')] *)
Definition number_column (df : DataFrame) (key : string) : result column :=
  (s <- getitem df key ;; to_numeric s)%py.

Record step : Type := {
  source : string;
  target : string;
  convert : DataFrame -> string -> result column;
  yield : dtype                 (* the dtype of what [convert] returns *)
}.

Fixpoint apply_steps (df : DataFrame) (steps : list step) : result DataFrame :=
  match steps with
  | [] => Ok df
  | st :: rest =>
      (c <- convert st df (source st) ;;
       apply_steps (setitem df (target st) c) rest)%py
  end.

Definition clean_with (steps : list step) (raw_data : RawGrid)
  : result DataFrame :=
  if 1 <? length raw_data then
    (df <- DataFrame_of_rows (tl raw_data) (hd [] raw_data) ;;
     df <- apply_steps df steps ;;
     getitem_list df (map target steps))%py
  else Ok empty_DataFrame.

Definition products_steps : list step :=
  [ {| source := "Date Uploaded:"; target := "Date Uploaded";
       convert := date_column; yield := datetime64 |};
    {| source := "eBay Price"; target := "eBay Price";
       convert := money_column; yield := float64 |};
    {| source := "Profit Per Product Present";
       target := "Profit Per Product Present";
       convert := percent_column; yield := float64 |} ].

Definition orders_steps : list step :=
  [ {| source := "Date Of Purchase"; target := "Date Of Purchase";
       convert := date_column; yield := datetime64 |};
    {| source := "eBay Price"; target := "eBay Price";
       convert := money_column; yield := float64 |};
    {| source := "Profit Per Sale USD"; target := "Profit Per Sale USD";
       convert := money_column; yield := float64 |};
    {| source := "Total Sales"; target := "Total Sales";
       convert := money_column; yield := float64 |};
    {| source := "Total Profits"; target := "Total Profits";
       convert := money_column; yield := float64 |} ].

Definition hours_steps : list step :=
  [ {| source := "Date:"; target := "Date"; convert := date_column; yield := datetime64 |};
    {| source := "Hours:"; target := "Hours"; convert := number_column; yield := float64 |} ].

(** No step assigns to a column that a later step reads. *)
Fixpoint sources_fresh (steps : list step) : bool :=
  match steps with
  | [] => true
  | st :: rest =>
      forallb (fun later => negb (String.eqb (source later) (target st))) rest
      && sources_fresh rest
  end.

(** No two steps assign to the same column. *)
Fixpoint targets_distinct (steps : list step) : bool :=
  match steps with
  | [] => true
  | st :: rest =>
      forallb (fun later => negb (String.eqb (target st) (target later))) rest
      && targets_distinct rest
  end.

(** What the proofs need of a conversion: it raises [KeyError] when
    no column has the name it reads, succeeds on a single text column,
    returns a column as long as the index, and succeeds only when one
    column has the name it reads. *)
Definition reads_source (op : DataFrame -> string -> result column) : Prop :=
  (forall df key, filter (named key) (columns df) = [] ->
                  op df key = Raise (KeyError key))
  /\ (forall df key name l,
         filter (named key) (columns df) = [(name, ObjCol l)] ->
         exists c, op df key = Ok c)
  /\ (forall df key c, well_formed df -> op df key = Ok c ->
                       column_len c = index_len df)
  /\ (forall df key c, op df key = Ok c ->
                       length (filter (named key) (columns df)) = 1).

(** Every step returns a column of the dtype it declares. *)
Definition steps_yield (steps : list step) : Prop :=
  Forall (fun st => forall df key c,
              convert st df key = Ok c -> dtype_of c = yield st) steps.

(** The frame has one column of that name, and it has that dtype. *)
Definition typed_column (t : DataFrame) (name : string) (k : dtype) : Prop :=
  exists c, filter (named name) (columns t) = [(name, c)] /\ dtype_of c = k.

(** A table as a cleaner leaves it: [pd.DataFrame()], or a frame with
    one column of the right dtype under each target of the steps. *)
Definition typed_table (steps : list step) (t : DataFrame) : Prop :=
  t = empty_DataFrame
  \/ Forall (fun st => typed_column t (target st) (yield st)) steps.

(** No target column is in the header more than once. *)
Definition targets_free (steps : list step) (raw_data : RawGrid) : bool :=
  forallb (fun st => count_name (target st) (hd [] raw_data) <=? 1) steps.

(* ================================================================== *)
(** ** Cell by cell *)
(* ================================================================== *)

(** What the three column conversions of the cleaners do to one cell. *)

(** A cell of a money column: [[^\d.]] deleted, then parsed. *)
Definition money_cell (c : option string) : option Q :=
  numeric_cell (option_map sub_not_digit_or_dot c).

(** A cell of the percentage column: [%] deleted, parsed, over 100. *)
Definition percent_cell (c : option string) : option Q :=
  option_map (fun x => Qred (x / 100))
             (numeric_cell (option_map (re_delete re_percent) c)).

(** The percentage coercion as the specification words it: only a [%]
    that ends the cell is stripped. *)
Fixpoint spec_strip_trailing_percent (s : string) : string :=
  match s with
  | EmptyString => EmptyString
  | String c EmptyString => if Ascii.eqb c "%" then EmptyString else s
  | String c s' => String c (spec_strip_trailing_percent s')
  end.

Definition spec_percent_cell (s : string) : option Q :=
  option_map (fun x => Qred (x / 100))
             (parse_float (spec_strip_trailing_percent s)).

(** A date written as [strftime('%d/%m/%Y')] writes it. *)
Definition digit_char (n : Z) : ascii := ascii_of_nat (48 + Z.to_nat n).

Definition two_digits (n : Z) : string :=
  String (digit_char (n / 10)) (String (digit_char (n mod 10)) "").

Definition four_digits (n : Z) : string :=
  String (digit_char (n / 1000))
    (String (digit_char (n / 100 mod 10))
       (String (digit_char (n / 10 mod 10))
          (String (digit_char (n mod 10)) ""))).

Definition strftime_dmY (d : date) : string :=
  two_digits (day d) ++ "/" ++ two_digits (month d) ++ "/"
  ++ four_digits (year d).

(** The characters of [s] that [keep] accepts. *)
Definition keep_chars (keep : ascii -> bool) (s : string) : string :=
  string_of_list_ascii (filter keep (list_ascii_of_string s)).

(** The numeric coercion as the specification words it: the hours, as
    the money, have every character that is not a digit or a decimal
    point stripped before they are parsed. *)
Definition spec_numeric_cell (s : string) : option Q :=
  parse_float (keep_chars (fun c => is_digit c || Ascii.eqb c ".") s).

(** Every byte of the text is an ASCII character. *)
Definition ascii_text (s : string) : bool :=
  forallb (fun c => nat_of_ascii c <? 128) (list_ascii_of_string s).

(** The cell has no decimal digit of a script other than ASCII: nothing
    that [[^\d.]] leaves of it is outside ASCII. *)
Definition ascii_digits_only (s : string) : bool :=
  ascii_text (sub_not_digit_or_dot s).

(* ================================================================== *)
(** ** The parts of a report *)
(* ================================================================== *)

(** The chart section a buffer gives: one picture, or nothing when
    there is no buffer. *)
Definition shown (graph : option chart) : list element :=
  match graph with
  | Some g => [Picture g 5]
  | None => []
  end.

(** The pictures of a document, in order. *)
Definition pictures (doc : document) : list chart :=
  flat_map (fun el => match el with Picture c _ => [c] | _ => [] end) doc.

(** The heading, the three totals and the heading of the charts. *)
Definition front_matter (client_name : string)
  (total_sales total_profit total_hours : Q) : document :=
  [Heading ("Report for " ++ client_name) 0;
   Paragraph [Lit "Total Sales: $"; Float2f total_sales];
   Paragraph [Lit "Total Profit: $"; Float2f total_profit];
   Paragraph [Lit "Total Hours Worked: "; Float2f total_hours; Lit " hours"];
   Heading "Graphs" 1].

(* ================================================================== *)
(** ** Sample inputs *)
(* ================================================================== *)

Definition quota_error : exn := mk_exn "APIError" "quota exceeded".

(** A worksheet whose every call fails. *)
Definition worksheet_down : Worksheet :=
  {| get_all_values := fun _ => Raise quota_error |}.

(** A worksheet that answers at once. *)
Definition worksheet_of (grid : RawGrid) : Worksheet :=
  {| get_all_values := fun _ => Ok grid |}.

(** A spreadsheet whose three worksheets all hold the same grid, and a
    client that opens it under every link. *)
Definition sheet_of (name : string) (grid : RawGrid) : Spreadsheet :=
  {| title := name; worksheet := fun _ => Ok (worksheet_of grid) |}.

Definition client_of (sheet : Spreadsheet) : Client :=
  {| open_by_url := fun _ => Ok sheet |}.

(** A grid that is a header and nothing else. *)
Definition header_only : RawGrid := [["Item"; "Notes"]].

(** A listings grid with three data rows: a clean one, one whose cells
    cannot be parsed, and a short one. *)
Definition sample_listings : RawGrid :=
  [ ["Date Uploaded:"; "eBay Price"; "Profit Per Product Present"; "Title"];
    ["15/03/2024"; "£12.50"; "45%"; "Lamp"];
    ["not-a-date"; ""; "n/a"; "Chair"];
    ["1/4/2024"; "7"] ].

(** A grid with a data row and none of the columns of any schema. *)
Definition sample_wrong_header : RawGrid := [["Item"; "Notes"]; ["Lamp"; "-"]].

(** An orders grid and an hours grid, and a spreadsheet with the three
    worksheets. *)
Definition sample_orders : RawGrid :=
  [ ["Date Of Purchase"; "eBay Price"; "Profit Per Sale USD"; "Total Sales";
     "Total Profits"];
    ["02/03/2024"; "$20.00"; "$5.50"; "$20.00"; "$5.50"];
    ["17/03/2024"; "$10.00"; "$2.50"; "$30.00"; "$8.00"];
    ["05/04/2024"; ""; "$1.00"; "$30.00"; "$9.00"] ].

Definition sample_hours : RawGrid :=
  [ ["Date:"; "Hours:"]; ["01/03/2024"; "7.5"]; ["02/03/2024"; "8"];
    ["n/a"; "3"] ].

Definition sample_sheet : Spreadsheet :=
  {| title := "Acme";
     worksheet := fun name =>
       if String.eqb name "PRODUCTS" then Ok (worksheet_of sample_listings)
       else if String.eqb name "ORDERS" then Ok (worksheet_of sample_orders)
       else if String.eqb name "HOURSWORKED" then Ok (worksheet_of sample_hours)
       else Raise (mk_exn "WorksheetNotFound" name) |}.

(** A client for which one link cannot be opened. *)
Definition sample_client : Client :=
  {| open_by_url := fun url =>
       if String.eqb url "https://sheets/bad"
       then Raise (mk_exn "SpreadsheetNotFound" "no such spreadsheet")
       else Ok sample_sheet |}.

Definition sample_links : list string :=
  ["https://sheets/a"; "https://sheets/bad"; "https://sheets/b"].

(** The listings table cleaned from [sample_listings]. *)
Definition sample_products : DataFrame :=
  match normalize_products sample_listings with
  | Ok t => t
  | Raise _ => empty_DataFrame
  end.

(** A raw frame with one text column of awkward cells. *)
Definition sample_cells : list (option string) :=
  [Some "£12.50"; Some "45%"; Some "15/03/2024"; Some "not-a-date"; Some "";
   None].

Definition sample_frame : DataFrame :=
  {| index_len := 6; columns := [("Cell", ObjCol sample_cells)] |}.

(* ================================================================== *)
(** ** More observations on a fetch *)
(* ================================================================== *)

(** The exception the [i]-th call of a worksheet raises. *)
Definition error_at (ws : Worksheet) (i : nat) : exn :=
  match get_all_values ws i with
  | Raise e => e
  | Ok _ => mk_exn "" ""
  end.

(** The seconds slept in all. *)
Definition total_sleep (t : list event) : Z := fold_right Z.add 0%Z (sleeps t).

(** A worksheet that fails [k] times and then answers. *)
Definition worksheet_flaky (k : nat) (grid : RawGrid) : Worksheet :=
  {| get_all_values := fun i => if i <? k then Raise quota_error else Ok grid |}.

(** A spreadsheet that opens and whose worksheets never answer. *)
Definition sheet_down (name : string) : Spreadsheet :=
  {| title := name; worksheet := fun _ => Ok worksheet_down |}.

(* ================================================================== *)
(** ** The cells of a grid *)
(* ================================================================== *)

(** The position of the first name of the header that is [key]. *)
Fixpoint column_index (key : string) (header : list string) : nat :=
  match header with
  | [] => 0
  | name :: rest =>
      if String.eqb name key then 0 else S (column_index key rest)
  end.

(** The cells of the data rows under the column [key] of the header, one
    for each data row; a row too short to reach the column has none. *)
Definition raw_column (raw_data : RawGrid) (key : string)
  : list (option string) :=
  map (fun row => nth_error row (column_index key (hd [] raw_data)))
      (tl raw_data).

(** The cells of the one text column named [key] of a frame. *)
Definition text_cells (df : DataFrame) (key : string) : list (option string) :=
  match filter (named key) (columns df) with
  | [(_, ObjCol l)] => l
  | _ => []
  end.

(** A conversion that turns the one text column it reads into [g] of its
    cells, whatever else the frame holds. *)
Definition cellwise (op : DataFrame -> string -> result column)
  (g : list (option string) -> column) : Prop :=
  forall df key name l,
    filter (named key) (columns df) = [(name, ObjCol l)] ->
    op df key = Ok (g l).

(** The columns of the three tables, from the cells of the grid. *)
Definition date_cells (l : list (option string)) : column :=
  DtCol (map datetime_cell l).
Definition money_cells (l : list (option string)) : column :=
  NumCol (map money_cell l).
Definition percent_cells (l : list (option string)) : column :=
  NumCol (map percent_cell l).
Definition number_cells (l : list (option string)) : column :=
  NumCol (map numeric_cell l).

(* ================================================================== *)
(** ** Totals over the months *)
(* ================================================================== *)

(** The cell is there. *)
Definition present {A} (v : option A) : bool :=
  match v with
  | Some _ => true
  | None => false
  end.

(** The values of a monthly series added up: the heights of the bars of
    its chart together. *)
Definition series_total (s : MonthSeries) : Q :=
  fold_right (fun kv acc => (snd kv + acc)%Q) 0%Q s.

(** A count [m] of the values of each group, over all the groups. *)
Definition groups_total {V} (m : list V -> nat) (gs : groups V) : nat :=
  list_sum (map (fun g => m (snd g)) gs).

(** A row with a date and with a value. *)
Definition counted (row : option period * bool) : bool :=
  dated row && snd row.

(** The three tables cleaned from the sample grids. *)
Definition sample_orders_table : DataFrame :=
  {| index_len := 3;
     columns :=
       [("Date Of Purchase",
         DtCol [Some {| year := 2024; month := 3; day := 2 |};
                Some {| year := 2024; month := 3; day := 17 |};
                Some {| year := 2024; month := 4; day := 5 |}]);
        ("eBay Price", NumCol [Some 20%Q; Some 10%Q; None]);
        ("Profit Per Sale USD", NumCol [Some (11 # 2); Some (5 # 2); Some 1%Q]);
        ("Total Sales", NumCol [Some 20%Q; Some 30%Q; Some 30%Q]);
        ("Total Profits", NumCol [Some (11 # 2); Some 8%Q; Some 9%Q])] |}.

Definition sample_hours_table : DataFrame :=
  {| index_len := 3;
     columns :=
       [("Date",
         DtCol [Some {| year := 2024; month := 3; day := 1 |};
                Some {| year := 2024; month := 3; day := 2 |}; None]);
        ("Hours", NumCol [Some (15 # 2); Some 8%Q; Some 3%Q])] |}.

(* ================================================================== *)
(** ** The links pasted in the text area *)
(* ================================================================== *)

Definition newline : ascii := ascii_of_nat 10.

(** The text up to the first newline, and the lines after it. *)
Fixpoint split_newline (s : string) : string * list string :=
  match s with
  | EmptyString => (EmptyString, [])
  | String c rest =>
      let (line, lines) := split_newline rest in
      if Ascii.eqb c newline then (EmptyString, line :: lines)
      else (String c line, lines)
  end.

(** [s.split("\n")]: never empty; the empty text is one empty line. *)
Definition split_lines (s : string) : list string :=
  let (line, lines) := split_newline s in line :: lines.

(** The characters [str.isspace] accepts, each as the bytes of its UTF-8
    encoding: U+0009 to U+000D, U+001C to U+0020, U+0085, U+00A0,
    U+1680, U+2000 to U+200A, U+2028, U+2029, U+202F, U+205F, U+3000. *)
Definition whitespace : list string :=
  map utf8
    [[9]; [10]; [11]; [12]; [13]; [28]; [29]; [30]; [31]; [32];
     [194; 133]; [194; 160]; [225; 154; 128];
     [226; 128; 128]; [226; 128; 129]; [226; 128; 130]; [226; 128; 131];
     [226; 128; 132]; [226; 128; 133]; [226; 128; 134]; [226; 128; 135];
     [226; 128; 136]; [226; 128; 137]; [226; 128; 138];
     [226; 128; 168]; [226; 128; 169]; [226; 128; 175];
     [226; 129; 159]; [227; 128; 128]].

(** [s] without the one character of [spaces] it starts with. *)
Definition drop_space (spaces : list string) (s : string) : option string :=
  first_match (fun ws => drop_prefix ws s) spaces.

Fixpoint lstrip_fuel (spaces : list string) (fuel : nat) (s : string)
  : string :=
  match fuel with
  | 0 => s
  | S fuel' =>
      match drop_space spaces s with
      | Some rest => lstrip_fuel spaces fuel' rest
      | None => s
      end
  end.

(** [s.lstrip()] for the characters [spaces]. *)
Definition lstrip_with (spaces : list string) (s : string) : string :=
  lstrip_fuel spaces (String.length s) s.

Definition rev_string (s : string) : string :=
  string_of_list_ascii (rev (list_ascii_of_string s)).

(** [s.strip()]: the whitespace at the start is dropped, then the
    whitespace at the end, read backwards from the last byte. *)
Definition lstrip (s : string) : string := lstrip_with whitespace s.
Definition rstrip (s : string) : string :=
  rev_string (lstrip_with (map rev_string whitespace) (rev_string s)).
Definition strip (s : string) : string := rstrip (lstrip s).

(** [[link.strip() for link in sheet_links_input.split("\n")
      if link.strip()]] *)
Definition sheet_links_of (sheet_links_input : string) : list string :=
  map strip
      (filter (fun link => negb (String.eqb (strip link) EmptyString))
              (split_lines sheet_links_input)).

(** A link as the loop is given it: not empty, on one line, with no
    whitespace at either end. *)
Definition no_newline (s : string) : bool :=
  forallb (fun c => negb (Ascii.eqb c newline)) (list_ascii_of_string s).

Definition starts_with_space (s : string) : bool :=
  present (drop_space whitespace s).

Definition ends_with_space (s : string) : bool :=
  present (drop_space (map rev_string whitespace) (rev_string s)).

Definition clean_link (link : string) : bool :=
  negb (String.eqb link EmptyString) && no_newline link
  && negb (starts_with_space link) && negb (ends_with_space link).

(* ================================================================== *)
(** ** The page *)
(* ================================================================== *)

(** The credentials object of [oauth2client]: the key file it was read
    from and the scopes asked for. *)
Inductive Credentials : Type :=
| service_account (keyfile : string) (scope : list string).

(** What a run of the script meets outside the program: the file system,
    the two library calls that build the client, and what the user did
    with the two widgets. *)
Record Environment : Type := {
  path_exists : string -> bool;
  from_json_keyfile_name : string -> list string -> result Credentials;
  authorize : Credentials -> result Client;
  text_area : string;
  button : bool
}.

(** What the script puts on the page: the title, the two widgets, and
    the events of the functions above. *)
Inductive page_event : Type :=
| st_title (body : string)
| st_text_area (label : string) (key : string)
| st_button (label : string)
| logged (e : event).

(** The events of the log among those of the page. *)
Definition page_log (t : list page_event) : list event :=
  flat_map (fun e => match e with logged e' => [e'] | _ => [] end) t.

Definition credentials_path : string := "credentials.json".

Definition scope : list string :=
  ["https://spreadsheets.google.com/feeds";
   "https://www.googleapis.com/auth/drive"].

Definition widgets : list page_event :=
  [st_text_area "Paste Google Sheets Links (one per line):"
                "google_sheets_input";
   st_button "Generate Reports"].

(** The body of the outer [try]. *)
Definition app_body (env : Environment) : list page_event * result unit :=
  if negb (path_exists env credentials_path) then
    ([logged (st_error "The `credentials.json` file is missing.")], Ok tt)
  else
    match from_json_keyfile_name env credentials_path scope with
    | Raise e => ([], Raise e)
    | Ok creds =>
        match authorize env creds with
        | Raise e => ([], Raise e)
        | Ok client =>
            if button env then
              let run := generate_reports client
                           (sheet_links_of (text_area env)) in
              (widgets ++ map logged (trace run), outcome run)
            else (widgets, Ok tt)
        end
    end.

(** The script from [st.title] on: the outer [try] and its [except]. *)
Definition main_script (env : Environment) : list page_event :=
  st_title "Client Report Generator"
  :: match app_body env with
     | (t, Ok _) => t
     | (t, Raise e) =>
         t ++ [logged (st_error ("An error occurred: " ++ exn_str e))]
     end.

(** The client of a run: none is asked for when the key file is not
    there; otherwise what the two library calls come to. *)
Definition client_of_env (env : Environment) : option (result Client) :=
  if path_exists env credentials_path then
    Some (creds <- from_json_keyfile_name env credentials_path scope ;;
          authorize env creds)%py
  else None.

(** The one message of a run that gets no client. *)
Definition failure_message (env : Environment) : string :=
  match client_of_env env with
  | None => "The `credentials.json` file is missing."
  | Some (Raise e) => "An error occurred: " ++ exn_str e
  | Some (Ok _) => ""
  end.

(** The report of the three sample tables. *)
Definition sample_full_report : document :=
  match generate_report "Acme" sample_products sample_orders_table
          sample_hours_table with
  | Ok doc => doc
  | Raise _ => []
  end.

(** An environment with the key file, a client, a text and a button. *)
Definition sample_env (client : Client) (text : string) (pressed : bool)
  : Environment :=
  {| path_exists := fun _ => true;
     from_json_keyfile_name := fun path sc => Ok (service_account path sc);
     authorize := fun _ => Ok client;
     text_area := text;
     button := pressed |}.

(** An environment whose key file is rejected. *)
Definition sample_env_bad_key : Environment :=
  {| path_exists := fun _ => true;
     from_json_keyfile_name :=
       fun _ _ => Raise (ValueError "Unexpected credentials type");
     authorize := fun _ => Ok sample_client;
     text_area := "https://sheets/a";
     button := true |}.

(* ================================================================== *)
(** ** What is read of a money cell *)
(* ================================================================== *)

(** The text after the first decimal point; none when there is no
    point. *)
Fixpoint after_dot (s : string) : string :=
  match s with
  | EmptyString => EmptyString
  | String c s' => if Ascii.eqb c "." then s' else after_dot s'
  end.

(** The digits of a text, in order. *)
Definition digits_of_text (s : string) : list ascii :=
  filter is_digit (list_ascii_of_string s).

(** How many decimal points a text has. *)
Definition count_dots (s : string) : nat :=
  length (filter (Ascii.eqb ".") (list_ascii_of_string s)).

(* ================================================================== *)
(** ** What the page shows during the loop *)
(* ================================================================== *)

(** [f"Processing link {idx + 1}..."] *)
Definition progress_message (idx : nat) : string :=
  "Processing link " ++ str_of_nat (idx + 1) ++ "...".

(** The progress messages and the results in a log, in the order they
    were shown; warnings are left out. *)
Definition display (t : list event) : list (string + BatchResult) :=
  flat_map (fun e => match e with
                     | st_write body => [inl body]
                     | _ => map inr (batch_result_of e)
                     end) t.

(* ================================================================== *)
(** * Properties                                                      *)
(* ================================================================== *)

Unset Implicit Arguments.

(** ** The event monad *)

Lemma outcome_bind_raise A B (c : M A) (k : A -> M B) e :
  outcome c = Raise e -> outcome (bind c k) = Raise e.
Proof.
  destruct c as [t [a | e']]; simpl; intros H; [discriminate |].
  injection H as ->. reflexivity.
Qed.

Lemma outcome_bind_ok A B (c : M A) (k : A -> M B) a :
  outcome c = Ok a -> outcome (bind c k) = outcome (k a).
Proof.
  destruct c as [t [a' | e']]; simpl; intros H; [| discriminate].
  injection H as ->. destruct (k a); reflexivity.
Qed.

(** ** Retry and backoff *)

Lemma sleep_max_count : sleep_max = ((2 ^ 63 - 1) / 10 ^ 9)%Z.
Proof. reflexivity. Qed.

Lemma sleep_in_range (secs : Z) :
  (0 <= secs <= sleep_max)%Z -> sleep secs = emit (time_sleep secs).
Proof.
  intros H. unfold sleep.
  destruct (Z.ltb_spec secs 0) as [Hlt | _]; [lia |].
  destruct (Z.ltb_spec sleep_max secs) as [Hgt | _]; [lia | reflexivity].
Qed.

Lemma delay_nonneg (d : Z) (a : nat) :
  (0 <= d)%Z -> (0 <= d * 2 ^ Z.of_nat a)%Z.
Proof.
  intros Hd. apply Z.mul_nonneg_nonneg; [exact Hd |].
  apply Z.pow_nonneg. lia.
Qed.

(** The delays grow: when the last of them can be slept, all can. *)
Lemma delay_fits (d r : Z) (i : nat) :
  (0 <= d)%Z -> (d * 2 ^ (r - 1) <= sleep_max)%Z -> i < Z.to_nat r ->
  (d * 2 ^ Z.of_nat i <= sleep_max)%Z.
Proof.
  intros Hd Hmax Hi.
  apply Z.le_trans with (d * 2 ^ (r - 1))%Z; [| exact Hmax].
  apply Z.mul_le_mono_nonneg_l; [exact Hd |].
  apply Z.pow_le_mono_r; lia.
Qed.

Lemma safe_fetch_loop_all_fail ws (err : nat -> exn) d :
  (0 <= d)%Z ->
  forall n a d0,
    (forall i, a <= i < a + n -> (d * 2 ^ Z.of_nat i <= sleep_max)%Z) ->
    (forall i, a <= i < a + n -> get_all_values ws i = Raise (err i)) ->
    d0 = (d * 2 ^ Z.of_nat a)%Z ->
    safe_fetch_loop ws (seq a n) d0
    = (flat_map (failed_attempt err d) (seq a n), Ok []).
Proof.
  intros Hpos.
  induction n as [| n IH]; intros a d0 Hfit Hfail Hd; [reflexivity |].
  cbn [seq safe_fetch_loop flat_map].
  rewrite (Hfail a) by lia.
  rewrite (sleep_in_range d0)
    by (subst d0; split; [now apply delay_nonneg | apply Hfit; lia]).
  rewrite (IH (S a) (d0 * 2)%Z).
  - subst d0. reflexivity.
  - intros i Hi. apply Hfit. lia.
  - intros i Hi. apply Hfail. lia.
  - subst d0. rewrite Nat2Z.inj_succ, Z.pow_succ_r by lia. ring.
Qed.

Lemma remote_calls_failed_attempts err d l :
  remote_calls (flat_map (failed_attempt err d) l) = length l.
Proof.
  unfold remote_calls. induction l as [| i l IH]; [reflexivity |].
  cbn. f_equal. exact IH.
Qed.

Lemma sleeps_failed_attempts err d l :
  sleeps (flat_map (failed_attempt err d) l)
  = map (fun i => (d * 2 ^ Z.of_nat i)%Z) l.
Proof.
  unfold sleeps. induction l as [| i l IH]; [reflexivity |].
  cbn - [Z.mul Z.pow]. f_equal. exact IH.
Qed.

Lemma warnings_failed_attempts err d l :
  warnings (flat_map (failed_attempt err d) l)
  = map (fun i => retry_warning (err i) i) l.
Proof.
  unfold warnings. induction l as [| i l IH]; [reflexivity |].
  cbn - [retry_warning]. f_equal. exact IH.
Qed.

(** C3. When every attempt of the remote call fails, a fetch configured
    with [retries = r] and a first delay [d] that [time.sleep] takes,
    as it takes the last delay [2^(r-1) d], calls the remote exactly
    [r] times, warns and sleeps after each failure with the delays
    [d, 2d, 4d, ...] (the last attempt included), and returns the empty
    grid instead of raising. For [r = 3] the delays are [d, 2d, 4d]. *)
Theorem safe_fetch_exhausted ws (r d : Z) (err : nat -> exn) :
  (0 <= d)%Z ->
  (d * 2 ^ (r - 1) <= sleep_max)%Z ->
  (forall i, i < Z.to_nat r -> get_all_values ws i = Raise (err i)) ->
  let run := safe_fetch_worksheet ws r d in
  outcome run = Ok []
  /\ trace run = flat_map (failed_attempt err d) (range r)
  /\ remote_calls (trace run) = Z.to_nat r
  /\ warnings (trace run) = map (fun i => retry_warning (err i) i) (range r)
  /\ sleeps (trace run) = map (fun i => (d * 2 ^ Z.of_nat i)%Z) (range r)
  /\ (r = 3%Z -> sleeps (trace run) = [d; 2 * d; 4 * d]%Z).
Proof.
  intros Hpos Hmax Hfail run.
  assert (Hrun : run = (flat_map (failed_attempt err d) (range r), Ok [])).
  { unfold run, safe_fetch_worksheet, range.
    apply safe_fetch_loop_all_fail.
    - exact Hpos.
    - intros i Hi. apply (delay_fits d r i Hpos Hmax). lia.
    - intros i Hi. apply Hfail. lia.
    - simpl. ring. }
  rewrite Hrun. unfold trace, outcome. cbn [fst snd].
  repeat split.
  - rewrite remote_calls_failed_attempts. unfold range. apply length_seq.
  - apply warnings_failed_attempts.
  - apply sleeps_failed_attempts.
  - intros ->. rewrite sleeps_failed_attempts.
    change (range 3) with [0; 1; 2]. cbn [map Z.of_nat Pos.of_succ_nat Pos.succ].
    replace (d * 2 ^ 0)%Z with d by ring.
    replace (d * 2 ^ 1)%Z with (2 * d)%Z by ring.
    replace (d * 2 ^ 2)%Z with (4 * d)%Z by ring.
    reflexivity.
Qed.

Lemma safe_fetch_exhausted_witness :
  outcome (safe_fetch_worksheet worksheet_down 3 2) = Ok []
  /\ remote_calls (trace (safe_fetch_worksheet worksheet_down 3 2)) = 3
  /\ sleeps (trace (safe_fetch_worksheet worksheet_down 3 2)) = [2; 4; 8]%Z.
Proof.
  pose proof (safe_fetch_exhausted worksheet_down 3 2 (fun _ => quota_error)
                ltac:(lia) ltac:(vm_compute; discriminate)
                (fun i _ => eq_refl)) as H.
  cbv zeta in H.
  destruct H as (Hout & _ & Hcalls & _ & _ & Hthree).
  split; [exact Hout |]. split; [exact Hcalls |].
  exact (Hthree eq_refl).
Defined.

(** ** The chart encoder *)

(** C9. [create_graph] returns [None] exactly when the series is empty;
    for a series that is not, it returns a buffer, and the buffer draws
    one point per month of the series. *)
Theorem create_graph_none_iff_empty (data : MonthSeries)
  (title x_label y_label : string) (kind : graph_type) :
  (create_graph data title x_label y_label kind = None <-> data = [])
  /\ (data <> [] <->
      exists c, create_graph data title x_label y_label kind = Some c
                /\ length (chart_x c) = length data
                /\ chart_y c = map snd data).
Proof.
  destruct data as [| kv data]; cbn [create_graph]; split; split.
  - reflexivity.
  - reflexivity.
  - intros H. now contradiction H.
  - intros (c & H & _). discriminate H.
  - discriminate.
  - discriminate.
  - intros _. eexists. split; [reflexivity |]. split; [| reflexivity].
    cbn [chart_x]. now rewrite length_map.
  - discriminate.
Qed.

(** ** Grids without data rows *)

Lemma short_grid_test (raw_data : RawGrid) :
  length raw_data < 2 -> (1 <? length raw_data) = false.
Proof. intros H. apply Nat.ltb_ge. lia. Qed.

Lemma normalize_without_data_rows (raw_data : RawGrid) :
  length raw_data < 2 ->
  normalize_products raw_data = Ok empty_DataFrame
  /\ normalize_orders raw_data = Ok empty_DataFrame
  /\ normalize_hours raw_data = Ok empty_DataFrame.
Proof.
  intros H. unfold normalize_products, normalize_orders, normalize_hours.
  rewrite (short_grid_test _ H). repeat split.
Qed.

(** C2, as the code has it. A grid with fewer than 2 rows is cleaned to
    [pd.DataFrame()]: no rows and no columns at all, so none of the
    schema's columns is in it. *)
Theorem normalize_short_grid (raw_data : RawGrid) :
  length raw_data < 2 ->
  normalize_products raw_data = Ok empty_DataFrame
  /\ normalize_orders raw_data = Ok empty_DataFrame
  /\ normalize_hours raw_data = Ok empty_DataFrame
  /\ nrows empty_DataFrame = 0
  /\ column_names empty_DataFrame = []
  /\ (forall name, contains empty_DataFrame name = false)
  /\ df_empty empty_DataFrame = true.
Proof.
  intros H.
  destruct (normalize_without_data_rows raw_data H) as (Hp & Ho & Hh).
  repeat split; assumption.
Qed.

Lemma normalize_short_grid_witness :
  normalize_products header_only = Ok empty_DataFrame
  /\ normalize_orders header_only = Ok empty_DataFrame
  /\ normalize_hours header_only = Ok empty_DataFrame.
Proof.
  destruct (normalize_short_grid header_only) as (Hp & Ho & Hh & _).
  - simpl. lia.
  - exact (conj Hp (conj Ho Hh)).
Defined.

(** C2 as stated fails: the tables returned for the empty grid have
    zero rows but not the schema's columns. *)
Lemma normalize_empty_grid_has_no_schema_columns :
  length (A := list string) [] < 2
  /\ (exists t, normalize_products [] = Ok t
                /\ nrows t = 0
                /\ column_names t <> products_target_columns
                /\ contains t "Date Uploaded" = false)
  /\ (exists t, normalize_orders [] = Ok t
                /\ nrows t = 0
                /\ column_names t <> orders_target_columns
                /\ contains t "Total Sales" = false)
  /\ (exists t, normalize_hours [] = Ok t
                /\ nrows t = 0
                /\ column_names t <> hours_target_columns
                /\ contains t "Hours" = false).
Proof.
  split; [simpl; lia |].
  repeat split; exists empty_DataFrame; repeat split; discriminate.
Qed.

(** ** Grouping by month *)

Lemma add_to_groups_keys V (k : period) (v : V) gs k' :
  In k' (keys_of (add_to_groups k v gs)) <-> k' = k \/ In k' (keys_of gs).
Proof.
  unfold keys_of. induction gs as [| [k0 vs] gs IH]; cbn [add_to_groups].
  - simpl. intuition.
  - destruct (Z.ltb_spec k k0); [simpl; intuition |].
    destruct (Z.eqb_spec k k0); [subst; simpl; intuition |].
    cbn [map In fst]. rewrite IH. intuition.
Qed.

Lemma add_to_groups_sorted V (k : period) (v : V) gs :
  StronglySorted Z.lt (keys_of gs) ->
  StronglySorted Z.lt (keys_of (add_to_groups k v gs)).
Proof.
  unfold keys_of. induction gs as [| [k0 vs] gs IH]; cbn [add_to_groups]; intros Hs.
  - repeat constructor.
  - cbn [map fst] in Hs. inversion Hs as [| ? ? Htl Hhd]; subst.
    destruct (Z.ltb_spec k k0) as [Hlt | Hge].
    + cbn [map fst]. constructor; [exact Hs |].
      constructor; [exact Hlt |].
      eapply Forall_impl; [| exact Hhd]. intros; lia.
    + destruct (Z.eqb_spec k k0) as [-> | Hne]; [exact Hs |].
      cbn [map fst]. constructor; [apply IH; exact Htl |].
      apply Forall_forall. intros x Hx.
      apply (add_to_groups_keys _ k v gs x) in Hx. destruct Hx as [-> | Hx].
      * lia.
      * rewrite Forall_forall in Hhd. apply Hhd. exact Hx.
Qed.

Lemma group_of_absent V (k : period) (gs : groups V) :
  Forall (fun k' => k' <> k) (keys_of gs) -> group_of k gs = [].
Proof.
  unfold keys_of. induction gs as [| [k0 vs] gs IH]; intros H; [reflexivity |].
  cbn [map fst] in H. inversion H; subst. cbn [group_of].
  destruct (Z.eqb_spec k0 k); [contradiction |]. apply IH. assumption.
Qed.

Lemma group_of_add V (k : period) (v : V) gs k' :
  StronglySorted Z.lt (keys_of gs) ->
  group_of k' (add_to_groups k v gs)
  = if (k =? k')%Z then group_of k' gs ++ [v] else group_of k' gs.
Proof.
  unfold keys_of. induction gs as [| [k0 vs] gs IH]; intros Hs.
  - cbn. destruct (k =? k')%Z; reflexivity.
  - cbn [map fst] in Hs. inversion Hs as [| ? ? Htl Hhd]; subst.
    cbn [add_to_groups].
    destruct (Z.ltb_spec k k0) as [Hlt | Hge].
    + cbn [group_of]. destruct (Z.eqb_spec k k') as [-> | Hne]; [| reflexivity].
      destruct (Z.eqb_spec k0 k'); [lia |].
      rewrite group_of_absent; [reflexivity |].
      eapply Forall_impl; [| exact Hhd]. cbv beta. intros; lia.
    + destruct (Z.eqb_spec k k0) as [-> | Hne].
      * cbn [group_of]. destruct (Z.eqb_spec k0 k'); reflexivity.
      * cbn [group_of]. destruct (Z.eqb_spec k0 k') as [-> | Hne'].
        -- destruct (Z.eqb_spec k k'); [lia | reflexivity].
        -- apply IH. exact Htl.
Qed.

Lemma groupby_from_sorted V (rows : list (option period * V)) :
  forall gs, StronglySorted Z.lt (keys_of gs) ->
             StronglySorted Z.lt (keys_of (groupby_from rows gs)).
Proof.
  induction rows as [| [[k |] v] rows IH]; intros gs Hs; cbn [groupby_from].
  - exact Hs.
  - apply IH. apply add_to_groups_sorted. exact Hs.
  - apply IH. exact Hs.
Qed.

Lemma groupby_from_keys V (rows : list (option period * V)) :
  forall gs k,
    In k (keys_of (groupby_from rows gs))
    <-> In k (keys_of gs) \/ exists v, In (Some k, v) rows.
Proof.
  induction rows as [| [[k0 |] v0] rows IH]; intros gs k; cbn [groupby_from].
  - split; [auto | intros [H | [v []]]; exact H].
  - rewrite IH, add_to_groups_keys. split.
    + intros [[-> | H] | [v H]]; [right; exists v0; now left | now left |].
      right. exists v. now right.
    + intros [H | [v [H | H]]]; [left; now right | |].
      * injection H as -> ->. left. now left.
      * right. now exists v.
  - rewrite IH. split.
    + intros [H | [v H]]; [now left |]. right. exists v. now right.
    + intros [H | [v [H | H]]]; [now left | discriminate |].
      right. now exists v.
Qed.

Lemma groupby_from_group V (rows : list (option period * V)) :
  forall gs k,
    StronglySorted Z.lt (keys_of gs) ->
    group_of k (groupby_from rows gs)
    = group_of k gs ++ map snd (filter (has_key k) rows).
Proof.
  induction rows as [| [[k0 |] v0] rows IH]; intros gs k Hs; cbn [groupby_from].
  - cbn. now rewrite app_nil_r.
  - rewrite IH by (apply add_to_groups_sorted; exact Hs).
    rewrite group_of_add by exact Hs.
    cbn [filter]. unfold has_key at 2. cbn [fst].
    destruct (k0 =? k)%Z; [| reflexivity].
    cbn [map snd]. now rewrite <- app_assoc.
  - rewrite IH by exact Hs. reflexivity.
Qed.

Lemma groupby_from_dated V (rows : list (option period * V)) :
  forall gs, groupby_from (filter dated rows) gs = groupby_from rows gs.
Proof.
  induction rows as [| [[k0 |] v0] rows IH]; intros gs; cbn; auto.
Qed.

Lemma strictly_sorted_NoDup (l : list Z) : StronglySorted Z.lt l -> NoDup l.
Proof.
  induction 1 as [| a l Hs IH Hall]; constructor; [| exact IH].
  intros Hin. rewrite Forall_forall in Hall. specialize (Hall a Hin). lia.
Qed.

(** Two strictly increasing lists with the same elements are equal. *)
Lemma strictly_sorted_unique (l1 : list Z) :
  forall l2, StronglySorted Z.lt l1 -> StronglySorted Z.lt l2 ->
             (forall k, In k l1 <-> In k l2) -> l1 = l2.
Proof.
  induction l1 as [| a l1 IH]; intros [| b l2] H1 H2 Hin.
  - reflexivity.
  - exfalso. apply (proj2 (Hin b)). now left.
  - exfalso. apply (proj1 (Hin a)). now left.
  - inversion H1 as [| ? ? Hs1 Ha]; inversion H2 as [| ? ? Hs2 Hb]; subst.
    rewrite Forall_forall in Ha, Hb.
    assert (a = b) as ->.
    { destruct (proj1 (Hin a) (or_introl eq_refl)) as [E | Hab]; [now symmetry |].
      destruct (proj2 (Hin b) (or_introl eq_refl)) as [E | Hba]; [exact E |].
      specialize (Ha _ Hba). specialize (Hb _ Hab). lia. }
    f_equal. apply IH; [assumption | assumption |].
    intros k. split; intros Hk.
    + destruct (proj1 (Hin k) (or_intror Hk)) as [E | H]; [| exact H].
      subst k. specialize (Ha _ Hk). lia.
    + destruct (proj2 (Hin k) (or_intror Hk)) as [E | H]; [| exact H].
      subst k. specialize (Hb _ Hk). lia.
Qed.

Lemma group_of_member V (gs : groups V) k vs :
  NoDup (keys_of gs) -> In (k, vs) gs -> group_of k gs = vs.
Proof.
  unfold keys_of. induction gs as [| [k0 vs0] gs IH]; intros Hnd Hin; [destruct Hin |].
  cbn [map fst] in Hnd. inversion Hnd as [| ? ? Hnotin Hnd']; subst.
  cbn [group_of]. destruct Hin as [E | Hin].
  - injection E as -> ->. now rewrite Z.eqb_refl.
  - destruct (Z.eqb_spec k0 k) as [-> | Hne]; [| now apply IH].
    exfalso. apply Hnotin. change k with (fst (k, vs)). now apply in_map.
Qed.

Lemma keys_of_reduce V (f : list V -> Q) (gs : groups V) :
  map fst (reduce f gs) = keys_of gs.
Proof.
  unfold reduce, keys_of. rewrite map_map. reflexivity.
Qed.

Lemma to_period_M_order (d1 d2 : date) :
  (1 <= month d1 <= 12)%Z -> (1 <= month d2 <= 12)%Z ->
  ((to_period_M d1 < to_period_M d2)%Z
   <-> (year d1 < year d2 \/ (year d1 = year d2 /\ month d1 < month d2))%Z)
  /\ (to_period_M d1 = to_period_M d2
      <-> year d1 = year d2 /\ month d1 = month d2).
Proof. unfold to_period_M. intros H1 H2. lia. Qed.

(** C7. Whatever the rows and their order, the monthly series built by
    [groupby] has its keys in strictly increasing (chronological) order,
    hence without a repeated month; a month is a key exactly when some
    row has a date in it; the value of a month is reduced from the rows
    of that month alone, so a row whose date is missing counts in no
    month and dropping such rows beforehand changes nothing; and the
    keys do not depend on the order of the rows. The order of the keys
    is the order of the calendar months, and the key of a row is
    missing exactly where its date is. *)
Theorem monthly_series_keys (V : Type) (f : list V -> Q)
  (keys : list (option period)) (values : list V) :
  let rows := combine keys values in
  let series := reduce f (groupby keys values) in
  StronglySorted Z.lt (map fst series)
  /\ NoDup (map fst series)
  /\ (forall k, In k (map fst series) <-> exists v, In (Some k, v) rows)
  /\ (forall k x, In (k, x) series ->
                  x = f (map snd (filter (has_key k) rows)))
  /\ series = reduce f (groupby_from (filter dated rows) [])
  /\ (forall keys' values',
         Permutation (combine keys' values') rows ->
         map fst (reduce f (groupby keys' values')) = map fst series)
  /\ (forall d1 d2 : date,
         (1 <= month d1 <= 12)%Z -> (1 <= month d2 <= 12)%Z ->
         ((to_period_M d1 < to_period_M d2)%Z
          <-> (year d1 < year d2
               \/ (year d1 = year d2 /\ month d1 < month d2))%Z))
  /\ (forall dates : list (option date),
         dt_to_period_M (Sel_Series (DtCol dates))
         = Ok (map (option_map to_period_M) dates)).
Proof.
  intros rows series. unfold series. rewrite !keys_of_reduce.
  assert (Hnil : StronglySorted Z.lt (keys_of (@nil (period * list V))))
    by constructor.
  assert (Hs : StronglySorted Z.lt (keys_of (groupby keys values)))
    by (apply groupby_from_sorted; exact Hnil).
  assert (Hk : forall k, In k (keys_of (groupby keys values))
                         <-> exists v, In (Some k, v) rows).
  { intros k. unfold groupby. rewrite groupby_from_keys. fold rows.
    split; [intros [[] | H]; exact H | intros H; now right]. }
  split; [exact Hs |].
  split; [apply strictly_sorted_NoDup; exact Hs |].
  split; [exact Hk |].
  split; [| split; [| split; [| split]]].
  - intros k x Hin. unfold reduce in Hin. apply in_map_iff in Hin.
    destruct Hin as ([k0 vs] & E & Hin). cbn [fst snd] in E.
    injection E as -> <-. f_equal.
    rewrite <- (group_of_member _ (groupby keys values) k vs);
      [| apply strictly_sorted_NoDup; exact Hs | exact Hin].
    unfold groupby. rewrite groupby_from_group by exact Hnil. reflexivity.
  - unfold groupby. fold rows. now rewrite groupby_from_dated.
  - intros keys' values' Hperm. rewrite keys_of_reduce.
    apply strictly_sorted_unique.
    + apply groupby_from_sorted. exact Hnil.
    + exact Hs.
    + intros k. rewrite Hk. unfold groupby. rewrite groupby_from_keys.
      split.
      * intros [[] | [v H]]. exists v. eapply Permutation_in; eassumption.
      * intros [v H]. right. exists v.
        eapply Permutation_in; [apply Permutation_sym |]; eassumption.
  - intros d1 d2 H1 H2. apply to_period_M_order; assumption.
  - reflexivity.
Qed.

(** ** The batch loop *)

Lemma batch_results_app (t1 t2 : list event) :
  batch_results (t1 ++ t2) = batch_results t1 ++ batch_results t2.
Proof. unfold batch_results. apply flat_map_app. Qed.

Lemma batch_results_bind A B (c : M A) (k : A -> M B) :
  batch_results (trace (bind c k))
  = batch_results (trace c)
    ++ match outcome c with
       | Ok a => batch_results (trace (k a))
       | Raise _ => []
       end.
Proof.
  destruct c as [t [a | e]]; cbn [bind trace outcome fst snd].
  - destruct (k a) as [t' r]. cbn [fst]. apply batch_results_app.
  - now rewrite app_nil_r.
Qed.

Lemma quiet_lift A (r : result A) : quiet (lift r).
Proof. reflexivity. Qed.

Lemma quiet_bind A B (c : M A) (k : A -> M B) :
  quiet c -> (forall a, quiet (k a)) -> quiet (bind c k).
Proof.
  unfold quiet. intros Hc Hk. rewrite batch_results_bind, Hc.
  destruct (outcome c); [apply Hk | reflexivity].
Qed.

Lemma quiet_safe_fetch_loop ws attempts :
  forall delay, quiet (safe_fetch_loop ws attempts delay).
Proof.
  induction attempts as [| attempt rest IH]; intros delay; [reflexivity |].
  cbn [safe_fetch_loop]. apply quiet_bind; [reflexivity |]. intros _.
  destruct (get_all_values ws attempt); [reflexivity |].
  apply quiet_bind; [reflexivity |]. intros _.
  apply quiet_bind; [| intros _; apply IH].
  unfold sleep.
  destruct (delay <? 0)%Z; [| destruct (sleep_max <? delay)%Z]; reflexivity.
Qed.

Lemma quiet_fetch (sheet : Spreadsheet) (name : string)
  (clean : RawGrid -> result DataFrame) :
  quiet (ws <- lift (worksheet sheet name) ;;
         raw_data <- safe_fetch_worksheet ws default_retries default_delay ;;
         lift (clean raw_data))%eff.
Proof.
  apply quiet_bind; [apply quiet_lift |]. intros ws.
  apply quiet_bind; [apply quiet_safe_fetch_loop |]. intros raw.
  apply quiet_lift.
Qed.

Lemma quiet_build_report client sheet_url :
  quiet (build_report client sheet_url).
Proof.
  unfold build_report.
  apply quiet_bind; [apply quiet_lift |]. intros sheet.
  apply quiet_bind; [apply quiet_fetch |]. intros products.
  apply quiet_bind; [apply quiet_fetch |]. intros orders.
  apply quiet_bind; [apply quiet_fetch |]. intros hours.
  apply quiet_bind; [apply quiet_lift |]. intros report. reflexivity.
Qed.

(** One turn of the loop ends normally and shows exactly the result of
    its own source. *)
Lemma process_link_result client idx sheet_url :
  outcome (process_link client idx sheet_url) = Ok tt
  /\ batch_results (trace (process_link client idx sheet_url))
     = [source_result client sheet_url].
Proof.
  unfold process_link, source_result.
  pose proof (quiet_build_report client sheet_url) as Hq. unfold quiet in Hq.
  destruct (build_report client sheet_url) as [t [[name doc] | e]];
    cbn [trace outcome fst snd] in *.
  - cbn. split; [reflexivity |].
    rewrite flat_map_app. unfold batch_results in Hq. rewrite Hq. reflexivity.
  - cbn. split; [reflexivity |].
    rewrite flat_map_app. unfold batch_results in Hq. rewrite Hq. reflexivity.
Qed.

Lemma batch_loop_results client (items : list (nat * string)) :
  outcome (batch_loop client items) = Ok tt
  /\ batch_results (trace (batch_loop client items))
     = map (source_result client) (map snd items).
Proof.
  induction items as [| [idx url] items [IHo IHr]]; [split; reflexivity |].
  cbn [batch_loop map snd].
  destruct (process_link_result client idx url) as [Ho Hr].
  split.
  - rewrite (outcome_bind_ok _ _ _ _ _ Ho). exact IHo.
  - rewrite batch_results_bind, Ho, Hr, IHr. reflexivity.
Qed.

Lemma map_snd_enumerate A (l : list A) : map snd (enumerate l) = l.
Proof.
  unfold enumerate. generalize 0. induction l as [| a l IH]; intros n;
    [reflexivity |].
  cbn. f_equal. apply IH.
Qed.

Lemma generate_reports_results client sheet_links :
  outcome (generate_reports client sheet_links) = Ok tt
  /\ batch_results (trace (generate_reports client sheet_links))
     = map (source_result client) sheet_links.
Proof.
  unfold generate_reports.
  destruct (batch_loop_results client (enumerate sheet_links)) as [Ho Hr].
  split; [exact Ho |]. rewrite Hr, map_snd_enumerate. reflexivity.
Qed.

(** The result of a source depends on the client only through what
    [open_by_url] does for that source's link. *)
Lemma source_result_local client client' sheet_url :
  open_by_url client' sheet_url = open_by_url client sheet_url ->
  source_result client' sheet_url = source_result client sheet_url.
Proof.
  intros H. unfold source_result, build_report. rewrite H. reflexivity.
Qed.

Lemma source_result_raise client sheet_url e :
  outcome (build_report client sheet_url) = Raise e ->
  source_result client sheet_url = Failed (error_message sheet_url e).
Proof. unfold source_result. intros ->. reflexivity. Qed.

(** C1. The batch loop never aborts and shows exactly one result per
    link, in the order of the links: the result of that link's own run.
    A run that raises, whether at [open_by_url], at [worksheet], in
    cleaning or in [generate_report], gives an error result with the
    link and the message; a run that ends gives the report. What the
    other links come to is the same in any world that differs only in
    what link [k] does. *)
Theorem batch_isolation (client : Client) (sheet_links : list string) :
  let results := batch_results (trace (generate_reports client sheet_links)) in
  outcome (generate_reports client sheet_links) = Ok tt
  /\ results = map (source_result client) sheet_links
  /\ length results = length sheet_links
  /\ (forall url e,
         outcome (build_report client url) = Raise e ->
         source_result client url
         = Failed ("Error processing link " ++ url ++ ": " ++ exn_str e))
  /\ (forall url e,
         open_by_url client url = Raise e ->
         source_result client url = Failed (error_message url e))
  /\ (forall url sheet e,
         open_by_url client url = Ok sheet ->
         worksheet sheet "PRODUCTS" = Raise e ->
         source_result client url = Failed (error_message url e))
  /\ (forall url sheet products orders hours e,
         open_by_url client url = Ok sheet ->
         outcome (fetch_products_data sheet) = Ok products ->
         outcome (fetch_orders_data sheet) = Ok orders ->
         outcome (fetch_hours_data sheet) = Ok hours ->
         generate_report (title sheet) products orders hours = Raise e ->
         source_result client url = Failed (error_message url e))
  /\ (forall url name report,
         outcome (build_report client url) = Ok (name, report) ->
         source_result client url = Completed (name ++ "_Report.docx") report)
  /\ (forall client' k,
         (forall j url, j <> k -> nth_error sheet_links j = Some url ->
                        open_by_url client' url = open_by_url client url) ->
         forall j, j <> k ->
           nth_error (batch_results (trace (generate_reports client' sheet_links))) j
           = nth_error results j).
Proof.
  intros results. unfold results.
  destruct (generate_reports_results client sheet_links) as [Ho Hr].
  rewrite Hr.
  split; [exact Ho |]. split; [reflexivity |].
  split; [apply length_map |].
  split; [intros url e H; now apply source_result_raise |].
  split.
  { intros url e H. apply source_result_raise.
    unfold build_report. apply outcome_bind_raise. exact H. }
  split.
  { intros url sheet e Hopen Hws. apply source_result_raise.
    unfold build_report. rewrite Hopen.
    rewrite (@outcome_bind_ok _ _ (lift (Ok sheet)) _ sheet eq_refl).
    apply outcome_bind_raise. unfold fetch_products_data.
    apply outcome_bind_raise. exact Hws. }
  split.
  { intros url sheet products orders hours e Hopen Hp Hor Hh Hgen.
    apply source_result_raise. unfold build_report. rewrite Hopen.
    rewrite (@outcome_bind_ok _ _ (lift (Ok sheet)) _ sheet eq_refl).
    rewrite (outcome_bind_ok _ _ _ _ _ Hp), (outcome_bind_ok _ _ _ _ _ Hor),
      (outcome_bind_ok _ _ _ _ _ Hh).
    apply outcome_bind_raise. exact Hgen. }
  split.
  { intros url name report H. unfold source_result. now rewrite H. }
  intros client' k Hsame j Hj.
  destruct (generate_reports_results client' sheet_links) as [_ Hr'].
  rewrite Hr', !nth_error_map.
  destruct (nth_error sheet_links j) as [url |] eqn:E; [| reflexivity].
  cbn [option_map]. f_equal. apply source_result_local.
  now apply (Hsame j).
Qed.

(** ** The cleaners *)

(** Case analysis on the next computation of a chain of binds. *)
Ltac run_step :=
  match goal with
  | |- context [rbind ?c _] =>
      lazymatch c with
      | rbind _ _ => fail
      | Ok _ => fail
      | Raise _ => fail
      | _ => destruct c; cbn [rbind]; try reflexivity
      end
  end.

Lemma normalize_products_steps raw_data :
  normalize_products raw_data = clean_with products_steps raw_data.
Proof.
  unfold normalize_products, clean_with.
  destruct (1 <? length raw_data); [| reflexivity].
  destruct (DataFrame_of_rows (tl raw_data) (hd [] raw_data)) as [df |];
    [| reflexivity].
  cbn [rbind apply_steps products_steps source target convert map].
  repeat run_step; reflexivity.
Qed.

Lemma normalize_orders_steps raw_data :
  normalize_orders raw_data = clean_with orders_steps raw_data.
Proof.
  unfold normalize_orders, clean_with.
  destruct (1 <? length raw_data); [| reflexivity].
  destruct (DataFrame_of_rows (tl raw_data) (hd [] raw_data)) as [df |];
    [| reflexivity].
  cbn [rbind apply_steps orders_steps source target convert map].
  repeat run_step; reflexivity.
Qed.

Lemma normalize_hours_steps raw_data :
  normalize_hours raw_data = clean_with hours_steps raw_data.
Proof.
  unfold normalize_hours, clean_with.
  destruct (1 <? length raw_data); [| reflexivity].
  destruct (DataFrame_of_rows (tl raw_data) (hd [] raw_data)) as [df |];
    [| reflexivity].
  cbn [rbind apply_steps hours_steps source target convert map].
  unfold number_column.
  repeat run_step; reflexivity.
Qed.

(** *** Frames *)

Lemma filter_named_nil (cs : list (string * column)) key :
  filter (named key) cs = [] <-> ~ In key (map fst cs).
Proof.
  induction cs as [| [name c] cs IH]; cbn [filter map fst In]; [tauto |].
  unfold named at 1. cbn [fst].
  destruct (String.eqb_spec name key) as [-> | Hne].
  - split; [discriminate | intros H; exfalso; apply H; now left].
  - rewrite IH. tauto.
Qed.

Lemma length_filter_named (cs : list (string * column)) key :
  length (filter (named key) cs) = count_name key (map fst cs).
Proof.
  unfold count_name. induction cs as [| [name c] cs IH]; [reflexivity |].
  cbn [filter map fst]. unfold named at 1. cbn [fst].
  rewrite (String.eqb_sym key name).
  destruct (String.eqb name key); cbn [length]; now rewrite IH.
Qed.

Lemma filter_named_In (cs : list (string * column)) key p :
  In p (filter (named key) cs) -> In p cs /\ fst p = key.
Proof.
  intros H. apply filter_In in H. destruct H as [Hin Hn]. split; [exact Hin |].
  unfold named in Hn. now apply String.eqb_eq.
Qed.

Lemma map_snd_combine_seq A (l : list A) :
  forall n, map snd (combine (seq n (length l)) l) = l.
Proof.
  induction l as [| a l IH]; intros n; [reflexivity |].
  cbn. f_equal. apply IH.
Qed.

Lemma DataFrame_of_rows_ok data cols df :
  DataFrame_of_rows data cols = Ok df ->
  index_len df = length data
  /\ column_names df = cols
  /\ well_formed df
  /\ Forall (fun p => exists l, snd p = ObjCol l) (columns df).
Proof.
  unfold DataFrame_of_rows, column_names, well_formed.
  destruct data as [| row data].
  - intros H. injection H as <-. cbn [index_len columns].
    split; [reflexivity |]. split.
    { rewrite map_map. cbn [fst]. apply map_id. }
    split; apply Forall_forall; intros p Hp; apply in_map_iff in Hp;
      destruct Hp as (name & <- & _); cbn; eauto.
  - destruct (_ =? _); [| discriminate].
    intros H. injection H as <-. cbn [index_len columns].
    split; [reflexivity |]. split.
    { rewrite map_map. cbn [fst]. apply map_snd_combine_seq. }
    split; apply Forall_forall; intros p Hp; apply in_map_iff in Hp;
      destruct Hp as (jn & <- & _); cbn [snd column_len].
    + cbn [length]. f_equal. apply length_map.
    + eauto.
Qed.

Lemma DataFrame_of_rows_fits data cols :
  list_max (map (@length string) data) = length cols ->
  data <> [] ->
  exists df, DataFrame_of_rows data cols = Ok df.
Proof.
  intros Hw Hne. unfold DataFrame_of_rows.
  destruct data as [| row data]; [contradiction |].
  rewrite Hw, Nat.eqb_refl. eauto.
Qed.

Lemma setitem_index_len df k c : index_len (setitem df k c) = index_len df.
Proof. unfold setitem. destruct (contains df k); reflexivity. Qed.

Lemma contains_In df key : contains df key = true <-> In key (column_names df).
Proof.
  unfold contains. rewrite existsb_exists. split.
  - intros (x & Hin & E). apply String.eqb_eq in E. now subst.
  - intros H. exists key. split; [exact H | apply String.eqb_refl].
Qed.

Lemma filter_named_setitem_other df k c key :
  String.eqb key k = false ->
  filter (named key) (columns (setitem df k c))
  = filter (named key) (columns df).
Proof.
  intros Hne. unfold setitem. destruct (contains df k); cbn [columns].
  - unfold named. induction (columns df) as [| [name c0] cs IH]; [reflexivity |].
    cbn [map filter fst].
    destruct (String.eqb_spec name k) as [-> | Hnk]; cbn [fst].
    + rewrite (String.eqb_sym k key), Hne. exact IH.
    + destruct (String.eqb name key); [f_equal |]; exact IH.
  - rewrite filter_app. cbn [filter]. unfold named at 2. cbn [fst].
    rewrite (String.eqb_sym k key), Hne. apply app_nil_r.
Qed.






(** *** The conversions *)

Lemma getitem_missing df key :
  filter (named key) (columns df) = [] -> getitem df key = Raise (KeyError key).
Proof. unfold getitem. now intros ->. Qed.

Lemma getitem_single df key name c :
  filter (named key) (columns df) = [(name, c)] ->
  getitem df key = Ok (Sel_Series c).
Proof. unfold getitem. now intros ->. Qed.

Lemma getitem_series_len df key c :
  well_formed df -> getitem df key = Ok (Sel_Series c) ->
  column_len c = index_len df.
Proof.
  unfold getitem, well_formed. intros Hwf.
  destruct (filter (named key) (columns df)) as [| [name c0] [| q cs]] eqn:E;
    try discriminate.
  intros H. injection H as <-.
  assert (Hin : In (name, c0) (filter (named key) (columns df)))
    by (rewrite E; now left).
  apply filter_named_In in Hin. rewrite Forall_forall in Hwf.
  exact (Hwf _ (proj1 Hin)).
Qed.

Lemma getitem_series_single df key c :
  getitem df key = Ok (Sel_Series c) ->
  length (filter (named key) (columns df)) = 1.
Proof.
  unfold getitem.
  destruct (filter (named key) (columns df)) as [| [name c0] [| q cs]];
    try discriminate.
  reflexivity.
Qed.

Lemma to_datetime_len s c c' :
  s = Sel_Series c -> to_datetime s = Ok c' -> column_len c' = column_len c.
Proof.
  intros ->. destruct c; cbn; intros H; try discriminate;
    injection H as <-; cbn; now rewrite ?length_map.
Qed.

Lemma to_numeric_len s c c' :
  s = Sel_Series c -> to_numeric s = Ok c' -> column_len c' = column_len c.
Proof.
  intros ->. destruct c; cbn; intros H; try discriminate;
    injection H as <-; cbn; now rewrite ?length_map.
Qed.

Lemma str_replace_len pat s c c' :
  s = Sel_Series c -> str_replace pat s = Ok c' -> column_len c' = column_len c.
Proof.
  intros ->. destruct c; cbn; intros H; try discriminate;
    injection H as <-; cbn; now rewrite ?length_map.
Qed.

Lemma truediv_len c d c' :
  truediv c d = Ok c' -> column_len c' = column_len c.
Proof.
  destruct c; cbn; intros H; try discriminate;
    injection H as <-; cbn; now rewrite ?length_map.
Qed.

(** A selection on which a conversion succeeds is a Series. *)
Lemma to_datetime_series s c' :
  to_datetime s = Ok c' -> exists c, s = Sel_Series c.
Proof. destruct s; [eauto | discriminate]. Qed.

Lemma to_numeric_series s c' :
  to_numeric s = Ok c' -> exists c, s = Sel_Series c.
Proof. destruct s; [eauto | discriminate]. Qed.

Lemma str_replace_series pat s c' :
  str_replace pat s = Ok c' -> exists c, s = Sel_Series c.
Proof. destruct s; [eauto | discriminate]. Qed.

Lemma date_column_reads : reads_source date_column.
Proof.
  unfold reads_source, date_column. split; [| split; [| split]].
  - intros df key H. now rewrite (getitem_missing _ _ H).
  - intros df key name l H. rewrite (getitem_single _ _ _ _ H). cbn. eauto.
  - intros df key c Hwf H.
    destruct (getitem df key) as [s |] eqn:Hs; [| discriminate].
    cbn [rbind] in H. destruct (to_datetime_series _ _ H) as [c0 ->].
    rewrite (to_datetime_len _ _ _ eq_refl H). eapply getitem_series_len; eassumption.
  - intros df key c H.
    destruct (getitem df key) as [sel |] eqn:Hs; [| discriminate].
    cbn [rbind] in H. destruct (to_datetime_series _ _ H) as [c0 ->].
    exact (getitem_series_single _ _ _ Hs).
Qed.

Lemma number_column_reads : reads_source number_column.
Proof.
  unfold reads_source, number_column. split; [| split; [| split]].
  - intros df key H. now rewrite (getitem_missing _ _ H).
  - intros df key name l H. rewrite (getitem_single _ _ _ _ H). cbn. eauto.
  - intros df key c Hwf H.
    destruct (getitem df key) as [s |] eqn:Hs; [| discriminate].
    cbn [rbind] in H. destruct (to_numeric_series _ _ H) as [c0 ->].
    rewrite (to_numeric_len _ _ _ eq_refl H). eapply getitem_series_len; eassumption.
  - intros df key c H.
    destruct (getitem df key) as [sel |] eqn:Hs; [| discriminate].
    cbn [rbind] in H. destruct (to_numeric_series _ _ H) as [c0 ->].
    exact (getitem_series_single _ _ _ Hs).
Qed.

Lemma money_column_reads : reads_source money_column.
Proof.
  unfold reads_source, money_column. split; [| split; [| split]].
  - intros df key H. now rewrite (getitem_missing _ _ H).
  - intros df key name l H. rewrite (getitem_single _ _ _ _ H). cbn. eauto.
  - intros df key c Hwf H.
    destruct (getitem df key) as [s |] eqn:Hs; [| discriminate].
    cbn [rbind] in H.
    destruct (str_replace sub_not_digit_or_dot s) as [c1 |] eqn:Hr;
      [| discriminate].
    cbn [rbind] in H. destruct (str_replace_series _ _ _ Hr) as [c0 ->].
    rewrite (to_numeric_len _ _ _ eq_refl H), (str_replace_len _ _ _ _ eq_refl Hr).
    eapply getitem_series_len; eassumption.
  - intros df key c H.
    destruct (getitem df key) as [sel |] eqn:Hs; [| discriminate].
    cbn [rbind] in H.
    destruct (str_replace sub_not_digit_or_dot sel) as [c1 |] eqn:Hr;
      [| discriminate].
    destruct (str_replace_series _ _ _ Hr) as [c0 ->].
    exact (getitem_series_single _ _ _ Hs).
Qed.

Lemma percent_column_reads : reads_source percent_column.
Proof.
  unfold reads_source, percent_column. split; [| split; [| split]].
  - intros df key H. now rewrite (getitem_missing _ _ H).
  - intros df key name l H. rewrite (getitem_single _ _ _ _ H). cbn. eauto.
  - intros df key c Hwf H.
    destruct (getitem df key) as [s |] eqn:Hs; [| discriminate].
    cbn [rbind] in H.
    destruct (str_replace (re_delete re_percent) s) as [c1 |] eqn:Hr; [| discriminate].
    cbn [rbind] in H.
    destruct (to_numeric (Sel_Series c1)) as [c2 |] eqn:Hn; [| discriminate].
    cbn [rbind] in H. destruct (str_replace_series _ _ _ Hr) as [c0 ->].
    rewrite (truediv_len _ _ _ H), (to_numeric_len _ _ _ eq_refl Hn),
      (str_replace_len _ _ _ _ eq_refl Hr).
    eapply getitem_series_len; eassumption.
  - intros df key c H.
    destruct (getitem df key) as [sel |] eqn:Hs; [| discriminate].
    cbn [rbind] in H.
    destruct (str_replace (re_delete re_percent) sel) as [c1 |] eqn:Hr; [| discriminate].
    destruct (str_replace_series _ _ _ Hr) as [c0 ->].
    exact (getitem_series_single _ _ _ Hs).
Qed.

Lemma products_steps_read : Forall (fun st => reads_source (convert st)) products_steps.
Proof.
  unfold products_steps.
  repeat (apply Forall_cons || apply Forall_nil); cbn [convert].
  - exact date_column_reads.
  - exact money_column_reads.
  - exact percent_column_reads.
Qed.

Lemma orders_steps_read : Forall (fun st => reads_source (convert st)) orders_steps.
Proof.
  unfold orders_steps.
  repeat (apply Forall_cons || apply Forall_nil); cbn [convert];
    first [exact date_column_reads | exact money_column_reads].
Qed.

Lemma hours_steps_read : Forall (fun st => reads_source (convert st)) hours_steps.
Proof.
  unfold hours_steps.
  repeat (apply Forall_cons || apply Forall_nil); cbn [convert].
  - exact date_column_reads.
  - exact number_column_reads.
Qed.

(** *** Running the steps *)


Lemma sources_fresh_later st rest later :
  sources_fresh (st :: rest) = true -> In later rest ->
  String.eqb (source later) (target st) = false.
Proof.
  cbn [sources_fresh]. intros H Hin. apply andb_true_iff in H.
  destruct H as [H _]. rewrite forallb_forall in H.
  specialize (H _ Hin). now apply negb_true_iff in H.
Qed.

Lemma sources_fresh_tail st rest :
  sources_fresh (st :: rest) = true -> sources_fresh rest = true.
Proof. cbn [sources_fresh]. intros H. now apply andb_true_iff in H. Qed.

(** A missing source column makes the steps raise. *)
Lemma apply_steps_missing steps :
  Forall (fun st => reads_source (convert st)) steps ->
  sources_fresh steps = true ->
  forall df,
    (exists st, In st steps /\ filter (named (source st)) (columns df) = []) ->
    exists e, apply_steps df steps = Raise e.
Proof.
  induction 1 as [| st steps Hst _ IH]; intros Hfresh df (bad & Hin & Hbad).
  - destruct Hin.
  - cbn [apply_steps]. destruct Hin as [-> | Hin].
    + rewrite (proj1 Hst _ _ Hbad). cbn. eauto.
    + destruct (convert st df (source st)) as [c |]; cbn [rbind]; [| eauto].
      apply IH; [eapply sources_fresh_tail; eassumption |].
      exists bad. split; [exact Hin |].
      rewrite filter_named_setitem_other; [exact Hbad |].
      eapply sources_fresh_later; eassumption.
Qed.


(** *** The cleaners on grids with data rows *)

Lemma data_rows (raw_data : RawGrid) :
  2 <= length raw_data ->
  (1 <? length raw_data) = true
  /\ length (tl raw_data) = length raw_data - 1
  /\ tl raw_data <> [].
Proof.
  intros H. split; [apply Nat.ltb_lt; lia |].
  destruct raw_data as [| header [| row rows]]; cbn in *; try lia.
  split; [lia | discriminate].
Qed.




Lemma DataFrame_of_rows_width data cols df :
  data <> [] -> DataFrame_of_rows data cols = Ok df ->
  list_max (map (@length string) data) = length cols.
Proof.
  unfold DataFrame_of_rows. destruct data as [| row data]; [contradiction |].
  intros _. destruct (_ =? _) eqn:E; [| discriminate].
  intros _. now apply Nat.eqb_eq.
Qed.

(** Steps that succeed found each of their sources in one column. *)
Lemma apply_steps_sources steps :
  Forall (fun st => reads_source (convert st)) steps ->
  sources_fresh steps = true ->
  forall df df',
    apply_steps df steps = Ok df' ->
    Forall (fun st => length (filter (named (source st)) (columns df)) = 1)
           steps.
Proof.
  induction 1 as [| st steps Hst _ IH]; intros Hfresh df df';
    cbn [apply_steps]; [constructor |].
  destruct (convert st df (source st)) as [c |] eqn:Hc; [| discriminate].
  cbn [rbind]. intros H. constructor.
  - exact (proj2 (proj2 (proj2 Hst)) _ _ _ Hc).
  - specialize (IH (sources_fresh_tail _ _ Hfresh) _ _ H).
    rewrite Forall_forall in *. intros later Hin.
    rewrite <- (IH later Hin). symmetry. f_equal.
    apply filter_named_setitem_other.
    eapply sources_fresh_later; eassumption.
Qed.

Lemma clean_with_valid_inv steps raw_data t :
  Forall (fun st => reads_source (convert st)) steps ->
  sources_fresh steps = true ->
  2 <= length raw_data ->
  clean_with steps raw_data = Ok t ->
  valid_grid (map source steps) raw_data = true.
Proof.
  intros Hread Hfresh Hlen. destruct (data_rows raw_data Hlen) as (Htest & _ & Hne).
  unfold clean_with. rewrite Htest.
  destruct (DataFrame_of_rows (tl raw_data) (hd [] raw_data)) as [df |] eqn:Hdf;
    [| discriminate].
  cbn [rbind].
  destruct (apply_steps df steps) as [df' |] eqn:Hsteps; [| discriminate].
  intros _. unfold valid_grid. apply andb_true_iff. split.
  - apply Nat.eqb_eq. eapply DataFrame_of_rows_width; eassumption.
  - destruct (DataFrame_of_rows_ok _ _ _ Hdf) as (_ & Hnames & _ & _).
    pose proof (apply_steps_sources steps Hread Hfresh df df' Hsteps) as Hsrc.
    apply forallb_forall. intros key Hin. apply in_map_iff in Hin.
    destruct Hin as (st & <- & Hin). rewrite Forall_forall in Hsrc.
    apply Nat.eqb_eq. rewrite <- Hnames. unfold column_names.
    rewrite <- length_filter_named. now apply Hsrc.
Qed.

Lemma clean_with_lacking steps raw_data :
  Forall (fun st => reads_source (convert st)) steps ->
  sources_fresh steps = true ->
  2 <= length raw_data ->
  lacks_column (map source steps) raw_data = true ->
  exists e, clean_with steps raw_data = Raise e.
Proof.
  intros Hread Hfresh Hlen Hlacks.
  destruct (data_rows raw_data Hlen) as (Htest & _ & _).
  unfold clean_with. rewrite Htest.
  destruct (DataFrame_of_rows (tl raw_data) (hd [] raw_data)) as [df | e] eqn:Hdf;
    cbn [rbind]; [| eauto].
  destruct (DataFrame_of_rows_ok _ _ _ Hdf) as (_ & Hnames & _ & _).
  destruct (apply_steps_missing steps Hread Hfresh df) as [e He].
  - unfold lacks_column in Hlacks. apply existsb_exists in Hlacks.
    destruct Hlacks as (key & Hin & Hzero). apply in_map_iff in Hin.
    destruct Hin as (st & <- & Hin). exists st. split; [exact Hin |].
    apply Nat.eqb_eq in Hzero. rewrite <- Hnames in Hzero.
    unfold column_names in Hzero. rewrite <- length_filter_named in Hzero.
    now apply length_zero_iff_nil.
  - rewrite He. cbn [rbind]. eauto.
Qed.



(** *** A missing source column *)

Lemma outcome_fetch sheet table (clean : RawGrid -> result DataFrame) raw_data :
  fetched sheet table raw_data ->
  outcome (ws <- lift (worksheet sheet table) ;;
           raw <- safe_fetch_worksheet ws default_retries default_delay ;;
           lift (clean raw))%eff
  = clean raw_data.
Proof.
  intros (ws & Hws & Hraw). rewrite Hws.
  rewrite (outcome_bind_ok _ _ (lift (Ok ws)) _ ws eq_refl).
  rewrite (outcome_bind_ok _ _ _ _ raw_data Hraw). reflexivity.
Qed.

Lemma process_link_raise client idx sheet_url e :
  outcome (build_report client sheet_url) = Raise e ->
  batch_results (trace (process_link client idx sheet_url))
  = [Failed (error_message sheet_url e)].
Proof.
  intros H. rewrite (proj2 (process_link_result client idx sheet_url)).
  now rewrite (source_result_raise client sheet_url e H).
Qed.

(** If the cleaner of one of the three worksheets raises on what was
    fetched, the whole run of the source raises. *)
Lemma build_report_raises client sheet_url sheet :
  open_by_url client sheet_url = Ok sheet ->
  (exists e, outcome (fetch_products_data sheet) = Raise e)
  \/ (exists e, outcome (fetch_orders_data sheet) = Raise e)
  \/ (exists e, outcome (fetch_hours_data sheet) = Raise e) ->
  exists e, outcome (build_report client sheet_url) = Raise e.
Proof.
  intros Hopen H. unfold build_report. rewrite Hopen.
  rewrite (outcome_bind_ok _ _ (lift (Ok sheet)) _ sheet eq_refl).
  destruct (outcome (fetch_products_data sheet)) as [products | e] eqn:Hp;
    [| exists e; now apply outcome_bind_raise].
  rewrite (outcome_bind_ok _ _ _ _ products Hp).
  destruct (outcome (fetch_orders_data sheet)) as [orders | e] eqn:Hor;
    [| exists e; now apply outcome_bind_raise].
  rewrite (outcome_bind_ok _ _ _ _ orders Hor).
  destruct (outcome (fetch_hours_data sheet)) as [hours | e] eqn:Hh;
    [| exists e; now apply outcome_bind_raise].
  destruct H as [[e H] | [[e H] | [e H]]]; discriminate H.
Qed.

(** C4, as the code has it. On a grid with at least one data row
    (2 rows or more) whose header lacks a source column of the schema,
    the cleaner raises; and when that is the grid fetched for a source,
    the batch loop shows an error result for that source, with its link
    and the message. *)
Theorem missing_column_fails (raw_data : RawGrid) :
  2 <= length raw_data ->
  (lacks_column products_source_columns raw_data = true ->
   exists e, normalize_products raw_data = Raise e)
  /\ (lacks_column orders_source_columns raw_data = true ->
      exists e, normalize_orders raw_data = Raise e)
  /\ (lacks_column hours_source_columns raw_data = true ->
      exists e, normalize_hours raw_data = Raise e)
  /\ (forall client sheet_url sheet,
         open_by_url client sheet_url = Ok sheet ->
         (fetched sheet "PRODUCTS" raw_data
          /\ lacks_column products_source_columns raw_data = true)
         \/ (fetched sheet "ORDERS" raw_data
             /\ lacks_column orders_source_columns raw_data = true)
         \/ (fetched sheet "HOURSWORKED" raw_data
             /\ lacks_column hours_source_columns raw_data = true) ->
         exists e,
           source_result client sheet_url = Failed (error_message sheet_url e)
           /\ forall idx,
               batch_results (trace (process_link client idx sheet_url))
               = [Failed (error_message sheet_url e)]).
Proof.
  intros Hlen.
  assert (Hp : lacks_column products_source_columns raw_data = true ->
               exists e, normalize_products raw_data = Raise e).
  { intros H. rewrite normalize_products_steps.
    exact (clean_with_lacking products_steps raw_data products_steps_read
             eq_refl Hlen H). }
  assert (Ho : lacks_column orders_source_columns raw_data = true ->
               exists e, normalize_orders raw_data = Raise e).
  { intros H. rewrite normalize_orders_steps.
    exact (clean_with_lacking orders_steps raw_data orders_steps_read
             eq_refl Hlen H). }
  assert (Hh : lacks_column hours_source_columns raw_data = true ->
               exists e, normalize_hours raw_data = Raise e).
  { intros H. rewrite normalize_hours_steps.
    exact (clean_with_lacking hours_steps raw_data hours_steps_read
             eq_refl Hlen H). }
  split; [exact Hp |]. split; [exact Ho |]. split; [exact Hh |].
  intros client sheet_url sheet Hopen Hcase.
  destruct (build_report_raises client sheet_url sheet Hopen) as [e He].
  { destruct Hcase as [[Hf Hl] | [[Hf Hl] | [Hf Hl]]].
    - left. destruct (Hp Hl) as [e He]. exists e.
      unfold fetch_products_data. now rewrite (outcome_fetch _ _ _ _ Hf).
    - right; left. destruct (Ho Hl) as [e He]. exists e.
      unfold fetch_orders_data. now rewrite (outcome_fetch _ _ _ _ Hf).
    - right; right. destruct (Hh Hl) as [e He]. exists e.
      unfold fetch_hours_data. now rewrite (outcome_fetch _ _ _ _ Hf). }
  exists e. split; [now apply source_result_raise |].
  intros idx. now apply process_link_raise.
Qed.

Lemma missing_column_fails_witness :
  exists e,
    source_result (client_of (sheet_of "Acme" sample_wrong_header)) "link"
    = Failed (error_message "link" e).
Proof.
  assert (Hlen : 2 <= length sample_wrong_header) by (simpl; lia).
  destruct (missing_column_fails sample_wrong_header Hlen) as (_ & _ & _ & H).
  destruct (H (client_of (sheet_of "Acme" sample_wrong_header)) "link"
              (sheet_of "Acme" sample_wrong_header) eq_refl) as (e & He & _).
  - left. split; [| reflexivity].
    exists (worksheet_of sample_wrong_header). split; reflexivity.
  - exists e. exact He.
Defined.

(** C4 as stated fails: a header-only grid lacks every source column,
    yet cleaning it raises nothing and its source gets a report. *)
Lemma header_only_grid_is_accepted :
  lacks_column products_source_columns header_only = true
  /\ lacks_column orders_source_columns header_only = true
  /\ lacks_column hours_source_columns header_only = true
  /\ normalize_products header_only = Ok empty_DataFrame
  /\ source_result (client_of (sheet_of "Acme" header_only)) "link"
     = Completed "Acme_Report.docx"
         [Heading "Report for Acme" 0;
          Paragraph [Lit "Total Sales: $"; Float2f 0];
          Paragraph [Lit "Total Profit: $"; Float2f 0];
          Paragraph [Lit "Total Hours Worked: "; Float2f 0; Lit " hours"];
          Heading "Graphs" 1].
Proof. repeat split. Qed.

(** C10. With fewer than 2 rows the header is never looked at: for any
    header whatever, the header alone (and the empty grid) is cleaned to
    the empty table; a cleaner can only raise on a grid with a data row;
    and a header without the first source column, accepted alone, is
    rejected with [KeyError] once a single blank data row follows it. *)
Theorem header_unread_without_data_rows (header : list string)
  (raw_data : RawGrid) :
  (normalize_products [header] = Ok empty_DataFrame
   /\ normalize_orders [header] = Ok empty_DataFrame
   /\ normalize_hours [header] = Ok empty_DataFrame)
  /\ (normalize_products [] = Ok empty_DataFrame
      /\ normalize_orders [] = Ok empty_DataFrame
      /\ normalize_hours [] = Ok empty_DataFrame)
  /\ (forall e, normalize_products raw_data = Raise e
                \/ normalize_orders raw_data = Raise e
                \/ normalize_hours raw_data = Raise e ->
                2 <= length raw_data)
  /\ (~ In "Date Uploaded:" header ->
      normalize_products [header; map (fun _ => "") header]
      = Raise (KeyError "Date Uploaded:"))
  /\ (~ In "Date Of Purchase" header ->
      normalize_orders [header; map (fun _ => "") header]
      = Raise (KeyError "Date Of Purchase"))
  /\ (~ In "Date:" header ->
      normalize_hours [header; map (fun _ => "") header]
      = Raise (KeyError "Date:")).
Proof.
  split; [repeat split |]. split; [repeat split |]. split.
  { intros e H.
    destruct (Nat.lt_ge_cases (length raw_data) 2) as [Hlt | Hge]; [| exact Hge].
    destruct (normalize_without_data_rows raw_data Hlt) as (Hp & Ho & Hh).
    rewrite Hp, Ho, Hh in H. destruct H as [H | [H | H]]; discriminate H. }
  assert (Hdf : exists df,
             DataFrame_of_rows [map (fun _ : string => "") header] header = Ok df
             /\ column_names df = header).
  { destruct (DataFrame_of_rows_fits [map (fun _ : string => "") header] header)
      as [df Hdf].
    - cbn [map list_max fold_right]. rewrite length_map. apply Nat.max_0_r.
    - discriminate.
    - exists df. split; [exact Hdf |].
      exact (proj1 (proj2 (DataFrame_of_rows_ok _ _ _ Hdf))). }
  destruct Hdf as (df & Hdf & Hnames).
  unfold normalize_products, normalize_orders, normalize_hours.
  cbn [length Nat.ltb Nat.leb tl hd]. rewrite Hdf. cbn [rbind].
  unfold date_column.
  repeat split; intros Hnot;
    (rewrite getitem_missing;
     [reflexivity | apply filter_named_nil; fold (column_names df); now rewrite Hnames]).
Qed.

(** ** The report *)

Lemma pictures_app (d1 d2 : document) :
  pictures (d1 ++ d2) = pictures d1 ++ pictures d2.
Proof. unfold pictures. apply flat_map_app. Qed.

Lemma add_picture_shown doc graph : add_picture doc graph = doc ++ shown graph.
Proof. destruct graph; cbn; [reflexivity | now rewrite app_nil_r]. Qed.

Lemma pictures_shown graph :
  pictures (shown graph) = match graph with Some g => [g] | None => [] end.
Proof. destruct graph; reflexivity. Qed.

(** What a guarded block of [generate_report] with one chart does. *)
Lemma chart_block (empty : bool) (c : result (option chart)) (d : document)
  (k : document -> result document) (doc : document) :
  rbind (if negb empty then rbind c (fun g => Ok (add_picture d g)) else Ok d) k
  = Ok doc ->
  exists g, (if empty then g = None else c = Ok g)
            /\ k (d ++ shown g) = Ok doc.
Proof.
  destruct empty; cbn [negb rbind].
  - intros H. exists None. split; [reflexivity |]. cbn. now rewrite app_nil_r.
  - destruct c as [g | e]; cbn [rbind]; [| discriminate].
    intros H. exists g. split; [reflexivity |]. now rewrite <- add_picture_shown.
Qed.

(** The same for the block of the orders, which has two charts. *)
Lemma two_chart_block (empty : bool) (c1 c2 : result (option chart))
  (d : document) (k : document -> result document) (doc : document) :
  rbind (if negb empty
         then rbind c1 (fun g => let doc0 := add_picture d g in
                                 rbind c2 (fun g0 => Ok (add_picture doc0 g0)))
         else Ok d) k
  = Ok doc ->
  exists g g0, (if empty then g = None /\ g0 = None
                else c1 = Ok g /\ c2 = Ok g0)
               /\ k (d ++ shown g ++ shown g0) = Ok doc.
Proof.
  destruct empty; cbn [negb rbind].
  - intros H. exists None, None. split; [split; reflexivity |].
    cbn. now rewrite app_nil_r.
  - destruct c1 as [g | e]; cbn [rbind]; [| discriminate].
    destruct c2 as [g0 | e]; cbn [rbind]; [| discriminate].
    intros H. exists g, g0. split; [split; reflexivity |].
    now rewrite app_assoc, <- !add_picture_shown.
Qed.

Lemma products_chart_ok products g :
  products_chart products = Ok g ->
  exists keys,
    month_keys products "Date Uploaded" = Ok keys
    /\ g = create_graph (groupby_size keys) "Products Uploaded per Month"
             "Month" "Number of Products" bar.
Proof.
  unfold products_chart.
  destruct (month_keys products "Date Uploaded") as [keys |]; [| discriminate].
  cbn [rbind]. intros H. injection H as <-. eauto.
Qed.

Lemma orders_charts_ok orders g2 g3 :
  sales_chart orders = Ok g2 -> profit_chart orders = Ok g3 ->
  exists keys sales profit,
    month_keys orders "Date Of Purchase" = Ok keys
    /\ groupby_count keys orders "eBay Price" = Ok sales
    /\ groupby_sum keys orders "Profit Per Sale USD" = Ok profit
    /\ g2 = create_graph sales "Sales per Month" "Month" "Number of Sales" bar
    /\ g3 = create_graph profit "Profit per Month" "Month" "Profit ($)" bar.
Proof.
  unfold sales_chart, profit_chart.
  destruct (month_keys orders "Date Of Purchase") as [keys |]; [| discriminate].
  cbn [rbind].
  destruct (groupby_count keys orders "eBay Price") as [sales |] eqn:Es;
    [| discriminate].
  destruct (groupby_sum keys orders "Profit Per Sale USD") as [profit |] eqn:Ep;
    [| discriminate].
  cbn [rbind]. intros H2 H3. injection H2 as <-. injection H3 as <-.
  exists keys, sales, profit. auto.
Qed.

Lemma hours_chart_ok hours g :
  hours_chart hours = Ok g ->
  exists keys worked,
    month_keys hours "Date" = Ok keys
    /\ groupby_sum keys hours "Hours" = Ok worked
    /\ g = create_graph worked "Hours Worked per Month" "Month" "Hours" bar.
Proof.
  unfold hours_chart.
  destruct (month_keys hours "Date") as [keys |]; [| discriminate].
  cbn [rbind].
  destruct (groupby_sum keys hours "Hours") as [worked |] eqn:Ew;
    [| discriminate].
  cbn [rbind]. intros H. injection H as <-. exists keys, worked. auto.
Qed.

(** What the three aggregations compute when the table has one column
    of the name they read. *)
Lemma month_keys_single df key name dates keys :
  month_keys df key = Ok keys ->
  filter (named key) (columns df) = [(name, DtCol dates)] ->
  keys = map (option_map to_period_M) dates.
Proof.
  unfold month_keys, getitem. intros H Hcol. rewrite Hcol in H.
  cbn [rbind dt_to_period_M] in H. now injection H as <-.
Qed.

Lemma groupby_count_single keys df key name c series :
  groupby_count keys df key = Ok series ->
  filter (named key) (columns df) = [(name, c)] ->
  series = reduce (fun vs => Q_of_nat (count_true vs))
                  (groupby keys (notna c)).
Proof.
  unfold groupby_count. intros H Hcol. rewrite Hcol in H.
  now injection H as <-.
Qed.

Lemma groupby_sum_single keys df key name l series :
  groupby_sum keys df key = Ok series ->
  filter (named key) (columns df) = [(name, NumCol l)] ->
  series = reduce sum_present (groupby keys l).
Proof.
  unfold groupby_sum. intros H Hcol. rewrite Hcol in H.
  now injection H as <-.
Qed.

(** C8. A report that [generate_report] returns is the heading, the
    three totals, the heading of the charts, and then the chart
    sections of four aggregations in this order: listings per month
    (row count), orders per month (count of prices), profit per month
    (sum), hours per month (sum). The section of an aggregation is
    there exactly when [create_graph] returned a buffer for it; for an
    empty table no chart is asked for and no section is added. Where
    the table has one column of the name an aggregation reads, the
    months are those of the dates of the table's date column, the count
    of a month is the number of its rows that have a price, and the sum
    of a month is the sum of the values its rows have. *)
Theorem generate_report_charts (client_name : string)
  (products orders hours : DataFrame) (doc : document) :
  generate_report client_name products orders hours = Ok doc ->
  exists (total_sales total_profit total_hours : Q)
         (g1 g2 g3 g4 : option chart),
    total_of orders "Total Sales" = Ok total_sales
    /\ total_of orders "Total Profits" = Ok total_profit
    /\ total_of hours "Hours" = Ok total_hours
    /\ (if df_empty products then g1 = None
        else exists keys,
            month_keys products "Date Uploaded" = Ok keys
            /\ g1 = create_graph (groupby_size keys)
                      "Products Uploaded per Month" "Month"
                      "Number of Products" bar
            /\ (forall name dates,
                   filter (named "Date Uploaded") (columns products)
                   = [(name, DtCol dates)] ->
                   keys = map (option_map to_period_M) dates))
    /\ (if df_empty orders then g2 = None /\ g3 = None
        else exists keys sales profit,
            month_keys orders "Date Of Purchase" = Ok keys
            /\ groupby_count keys orders "eBay Price" = Ok sales
            /\ groupby_sum keys orders "Profit Per Sale USD" = Ok profit
            /\ g2 = create_graph sales "Sales per Month" "Month"
                      "Number of Sales" bar
            /\ g3 = create_graph profit "Profit per Month" "Month"
                      "Profit ($)" bar
            /\ (forall name dates,
                   filter (named "Date Of Purchase") (columns orders)
                   = [(name, DtCol dates)] ->
                   keys = map (option_map to_period_M) dates)
            /\ (forall name c,
                   filter (named "eBay Price") (columns orders)
                   = [(name, c)] ->
                   sales = reduce (fun vs => Q_of_nat (count_true vs))
                                  (groupby keys (notna c)))
            /\ (forall name l,
                   filter (named "Profit Per Sale USD") (columns orders)
                   = [(name, NumCol l)] ->
                   profit = reduce sum_present (groupby keys l)))
    /\ (if df_empty hours then g4 = None
        else exists keys worked,
            month_keys hours "Date" = Ok keys
            /\ groupby_sum keys hours "Hours" = Ok worked
            /\ g4 = create_graph worked "Hours Worked per Month" "Month"
                      "Hours" bar
            /\ (forall name dates,
                   filter (named "Date") (columns hours)
                   = [(name, DtCol dates)] ->
                   keys = map (option_map to_period_M) dates)
            /\ (forall name l,
                   filter (named "Hours") (columns hours)
                   = [(name, NumCol l)] ->
                   worked = reduce sum_present (groupby keys l)))
    /\ doc = front_matter client_name total_sales total_profit total_hours
             ++ shown g1 ++ shown g2 ++ shown g3 ++ shown g4
    /\ pictures doc
       = flat_map (fun g => match g with Some c => [c] | None => [] end)
                  [g1; g2; g3; g4].
Proof.
  intros H. unfold generate_report in H.
  destruct (total_of orders "Total Sales") as [total_sales |];
    [| discriminate].
  destruct (total_of orders "Total Profits") as [total_profit |];
    [| discriminate].
  destruct (total_of hours "Hours") as [total_hours |]; [| discriminate].
  cbn [rbind] in H.
  change (_ ++ [Heading "Graphs" 1])
    with (front_matter client_name total_sales total_profit total_hours) in H.
  apply chart_block in H. destruct H as (g1 & Hg1 & H).
  apply two_chart_block in H. destruct H as (g2 & g3 & Hg23 & H).
  apply chart_block in H. destruct H as (g4 & Hg4 & H).
  assert (Hdoc : doc = front_matter client_name total_sales total_profit
                         total_hours
                       ++ shown g1 ++ shown g2 ++ shown g3 ++ shown g4).
  { rewrite <- !app_assoc in H. congruence. }
  clear H.
  exists total_sales, total_profit, total_hours, g1, g2, g3, g4.
  do 3 (split; [reflexivity |]).
  split.
  { destruct (df_empty products); [exact Hg1 |].
    destruct (products_chart_ok _ _ Hg1) as (keys & Hkeys & Hg).
    exists keys. split; [exact Hkeys |]. split; [exact Hg |].
    intros name dates Hcol. exact (month_keys_single _ _ _ _ _ Hkeys Hcol). }
  split.
  { destruct (df_empty orders); [exact Hg23 |].
    destruct Hg23 as [Hg2 Hg3].
    destruct (orders_charts_ok _ _ _ Hg2 Hg3)
      as (keys & sales & profit & Hkeys & Hsales & Hprofit & E2 & E3).
    exists keys, sales, profit.
    do 5 (split; [assumption |]).
    split; [| split].
    - intros name dates Hcol.
      exact (month_keys_single _ _ _ _ _ Hkeys Hcol).
    - intros name c Hcol.
      exact (groupby_count_single _ _ _ _ _ _ Hsales Hcol).
    - intros name l Hcol.
      exact (groupby_sum_single _ _ _ _ _ _ Hprofit Hcol). }
  split.
  { destruct (df_empty hours); [exact Hg4 |].
    destruct (hours_chart_ok _ _ Hg4) as (keys & worked & Hkeys & Hworked & E4).
    exists keys, worked.
    do 3 (split; [assumption |]).
    split.
    - intros name dates Hcol.
      exact (month_keys_single _ _ _ _ _ Hkeys Hcol).
    - intros name l Hcol.
      exact (groupby_sum_single _ _ _ _ _ _ Hworked Hcol). }
  split; [exact Hdoc |].
  rewrite Hdoc, !pictures_app, !pictures_shown. cbn. now rewrite app_nil_r.
Qed.

Lemma generate_report_charts_witness :
  pictures sample_full_report
  = [ {| chart_kind := bar;
         chart_x := ["2024-03"; "2024-04"];
         chart_y := [1%Q; 1%Q];
         chart_title := "Products Uploaded per Month";
         chart_xlabel := "Month";
         chart_ylabel := "Number of Products" |};
      {| chart_kind := bar;
         chart_x := ["2024-03"; "2024-04"];
         chart_y := [2%Q; 0%Q];
         chart_title := "Sales per Month";
         chart_xlabel := "Month";
         chart_ylabel := "Number of Sales" |};
      {| chart_kind := bar;
         chart_x := ["2024-03"; "2024-04"];
         chart_y := [8%Q; 1%Q];
         chart_title := "Profit per Month";
         chart_xlabel := "Month";
         chart_ylabel := "Profit ($)" |};
      {| chart_kind := bar;
         chart_x := ["2024-03"];
         chart_y := [31 # 2];
         chart_title := "Hours Worked per Month";
         chart_xlabel := "Month";
         chart_ylabel := "Hours" |} ].
Proof.
  destruct (generate_report_charts "Acme" sample_products sample_orders_table
              sample_hours_table sample_full_report eq_refl)
    as (ts & tp & th & g1 & g2 & g3 & g4 & _ & _ & _ & H1 & H23 & H4 & _ & Hpic).
  change (df_empty sample_products) with false in H1.
  change (df_empty sample_orders_table) with false in H23.
  change (df_empty sample_hours_table) with false in H4.
  destruct H1 as (keys1 & _ & -> & Hk1).
  destruct H23 as (keys2 & sales & profit & _ & _ & _ & -> & -> & Hk2 & Hs & Hp).
  destruct H4 as (keys4 & worked & _ & _ & -> & Hk4 & Hw).
  rewrite (Hk1 "Date Uploaded"
             [Some {| year := 2024; month := 3; day := 15 |}; None;
              Some {| year := 2024; month := 4; day := 1 |}] eq_refl) in Hpic.
  rewrite (Hs "eBay Price" (NumCol [Some 20%Q; Some 10%Q; None]) eq_refl),
    (Hp "Profit Per Sale USD" [Some (11 # 2); Some (5 # 2); Some 1%Q] eq_refl),
    (Hk2 "Date Of Purchase"
       [Some {| year := 2024; month := 3; day := 2 |};
        Some {| year := 2024; month := 3; day := 17 |};
        Some {| year := 2024; month := 4; day := 5 |}] eq_refl) in Hpic.
  rewrite (Hw "Hours" [Some (15 # 2); Some 8%Q; Some 3%Q] eq_refl),
    (Hk4 "Date"
       [Some {| year := 2024; month := 3; day := 1 |};
        Some {| year := 2024; month := 3; day := 2 |}; None] eq_refl) in Hpic.
  rewrite Hpic. reflexivity.
Defined.

(** ** Cell coercions *)

Lemma re_delete_keep pat s :
  re_delete pat s = keep_chars (fun c => negb (pat c)) s.
Proof.
  unfold keep_chars. induction s as [| c s IH]; [reflexivity |].
  cbn [re_delete list_ascii_of_string filter].
  destruct (pat c); cbn [negb string_of_list_ascii]; now rewrite IH.
Qed.

Lemma keep_chars_ext keep keep' s :
  (forall c, keep c = keep' c) -> keep_chars keep s = keep_chars keep' s.
Proof.
  intros H. unfold keep_chars. f_equal. apply filter_ext. exact H.
Qed.

Lemma digit_char_digit k :
  (0 <= k <= 9)%Z ->
  is_digit (digit_char k) = true /\ digit_value (digit_char k) = k.
Proof.
  intros H.
  assert (Hk : exists n, k = Z.of_nat n /\ n <= 9) by (exists (Z.to_nat k); lia).
  destruct Hk as (n & -> & Hn).
  do 10 (destruct n as [| n]; [split; reflexivity |]). lia.
Qed.

(** An ASCII digit is a decimal digit, with its own value. *)
Lemma unicode_digit_ascii c rest :
  is_digit c = true ->
  unicode_digit (String c rest) = Some (digit_value c, rest).
Proof.
  intros H. unfold unicode_digit, digit_in, digit_blocks.
  cbn [first_match fst snd utf8 map string_of_list_ascii drop_prefix].
  unfold is_digit in H. cbn [Nat.add]. rewrite H. reflexivity.
Qed.

Lemma re_Y_four_digits y :
  (0 <= y <= 9999)%Z -> re_Y (four_digits y) = [(y, "")].
Proof.
  intros H. unfold four_digits, re_Y.
  destruct (digit_char_digit (y / 1000)) as [Ha Ha'];
    [Z.div_mod_to_equations; lia |].
  destruct (digit_char_digit (y / 100 mod 10)) as [Hb Hb'];
    [Z.div_mod_to_equations; lia |].
  destruct (digit_char_digit (y / 10 mod 10)) as [Hc Hc'];
    [Z.div_mod_to_equations; lia |].
  destruct (digit_char_digit (y mod 10)) as [Hd Hd'];
    [Z.div_mod_to_equations; lia |].
  rewrite (unicode_digit_ascii _ _ Ha), (unicode_digit_ascii _ _ Hb),
    (unicode_digit_ascii _ _ Hc), (unicode_digit_ascii _ _ Hd).
  rewrite Ha', Hb', Hc', Hd'. do 2 f_equal.
  Z.div_mod_to_equations. lia.
Qed.

(** The first byte of a decimal digit that is not ASCII is not ASCII. *)
Lemma digit_in_first_byte (blocks : list (list nat * nat)) c rest v rest' :
  forallb (fun block : list nat * nat =>
             match fst block with
             | [] => snd block =? 48
             | p0 :: _ => (128 <=? p0) && (p0 <? 256)
             end) blocks = true ->
  digit_in blocks (String c rest) = Some (v, rest') ->
  is_digit c = true \/ 128 <= nat_of_ascii c.
Proof.
  unfold digit_in.
  induction blocks as [| [pre z] blocks IH]; [discriminate 2 |].
  cbn [forallb first_match fst snd]. intros Hgood.
  apply andb_true_iff in Hgood. destruct Hgood as [Hblock Hgood].
  destruct pre as [| p0 pre].
  - apply Nat.eqb_eq in Hblock. subst z.
    cbn [utf8 map string_of_list_ascii drop_prefix].
    destruct ((48 <=? nat_of_ascii c) && (nat_of_ascii c <=? 48 + 9)) eqn:E.
    + intros _. left. exact E.
    + now apply IH.
  - apply andb_true_iff in Hblock. destruct Hblock as [Hlo Hhi].
    apply Nat.leb_le in Hlo. apply Nat.ltb_lt in Hhi.
    cbn [utf8 map string_of_list_ascii drop_prefix].
    destruct (Ascii.eqb_spec (ascii_of_nat p0) c) as [<- | Hne].
    + intros _. right. rewrite nat_ascii_embedding by lia. exact Hlo.
    + now apply IH.
Qed.

Lemma unicode_digit_first_byte c rest v rest' :
  unicode_digit (String c rest) = Some (v, rest') ->
  is_digit c = true \/ 128 <= nat_of_ascii c.
Proof.
  apply digit_in_first_byte. vm_compute. reflexivity.
Qed.

Lemma digit_width_ascii c rest :
  is_digit c = true -> digit_width (String c rest) = 1.
Proof.
  intros H. unfold digit_width. rewrite (unicode_digit_ascii _ _ H).
  cbn [String.length]. lia.
Qed.

Lemma digit_width_other c rest :
  is_digit c = false -> digit_width (String c rest) <> 0 ->
  128 <= nat_of_ascii c.
Proof.
  intros Hd Hw. unfold digit_width in Hw.
  destruct (unicode_digit (String c rest)) as [[v r] |] eqn:E;
    [| contradiction].
  destruct (unicode_digit_first_byte _ _ _ _ E) as [H | H];
    [congruence | exact H].
Qed.

Lemma digit_is_ascii c : is_digit c = true -> (nat_of_ascii c <? 128) = true.
Proof.
  unfold is_digit. intros H. apply andb_true_iff in H. destruct H as [_ H].
  apply Nat.leb_le in H. apply Nat.ltb_lt. lia.
Qed.

(** On a cell without a digit of another script, [[^\d.]] deletes the
    bytes that are not an ASCII digit or a point. *)
Lemma sub_ascii s :
  ascii_digits_only s = true ->
  sub_not_digit_or_dot s = re_delete ascii_not_digit_or_dot s.
Proof.
  unfold ascii_digits_only, sub_not_digit_or_dot, ascii_text.
  induction s as [| c s IH]; [reflexivity |].
  cbn [keep_digits_and_dots re_delete]. unfold ascii_not_digit_or_dot at 1.
  destruct (Ascii.eqb_spec c ".") as [-> | Hdot].
  - change (is_digit ".") with false. cbn [orb negb].
    cbn [list_ascii_of_string forallb]. intros H.
    apply andb_true_iff in H. destruct H as [_ H]. now rewrite (IH H).
  - rewrite orb_false_r. destruct (is_digit c) eqn:Hd; cbn [negb].
    + rewrite (digit_width_ascii c s Hd).
      cbn [list_ascii_of_string forallb]. intros H.
      apply andb_true_iff in H. destruct H as [_ H]. now rewrite (IH H).
    + destruct (digit_width (String c s)) as [| n] eqn:Hw; [exact IH |].
      cbn [list_ascii_of_string forallb]. intros H.
      apply andb_true_iff in H. destruct H as [H _].
      apply Nat.ltb_lt in H.
      pose proof (digit_width_other c s Hd) as Hc. rewrite Hw in Hc.
      specialize (Hc ltac:(discriminate)). lia.
Qed.

(** What [pd.to_numeric] reads is ASCII: a text with any other byte is
    not a number. *)
Lemma ascii_text_cons c s :
  ascii_text (String c s) = (nat_of_ascii c <? 128) && ascii_text s.
Proof. reflexivity. Qed.

Lemma space_is_ascii c : is_space c = true -> (nat_of_ascii c <? 128) = true.
Proof.
  unfold is_space. intros H. apply Nat.ltb_lt.
  apply orb_true_iff in H. destruct H as [H | H].
  - apply Nat.eqb_eq in H. lia.
  - apply andb_true_iff in H. destruct H as [_ H]. apply Nat.leb_le in H. lia.
Qed.

Lemma skip_spaces_ascii s :
  ascii_text (skip_spaces s) = true -> ascii_text s = true.
Proof.
  induction s as [| c s IH]; [reflexivity |].
  cbn [skip_spaces]. destruct (is_space c) eqn:E; [| auto].
  intros H. rewrite ascii_text_cons, (space_is_ascii c E). now apply IH.
Qed.

Lemma take_sign_ascii s :
  ascii_text (snd (take_sign s)) = true -> ascii_text s = true.
Proof.
  destruct s as [| c s]; [reflexivity |].
  destruct (Ascii.eqb_spec c "-") as [-> | Hm]; [now cbn |].
  destruct (Ascii.eqb_spec c "+") as [-> | Hp]; [now cbn |].
  assert (E : take_sign (String c s) = (false, String c s)).
  { destruct c as [[|] [|] [|] [|] [|] [|] [|] [|]]; try reflexivity;
      exfalso; (now apply Hm) || (now apply Hp). }
  now rewrite E.
Qed.

Lemma take_digits_ascii s :
  ascii_text (snd (take_digits s)) = true -> ascii_text s = true.
Proof.
  induction s as [| c s IH]; [reflexivity |].
  cbn [take_digits]. destruct (is_digit c) eqn:E; [| auto].
  destruct (take_digits s) as [ds rest]. cbn [snd] in *.
  intros H. rewrite ascii_text_cons, (digit_is_ascii c E). now apply IH.
Qed.

Lemma take_exponent_ascii s e rest :
  take_exponent s = Some (e, rest) ->
  ascii_text rest = true -> ascii_text s = true.
Proof.
  destruct s as [| c s]; cbn [take_exponent].
  - intros H. now injection H as _ <-.
  - destruct (Ascii.eqb c "e" || Ascii.eqb c "E") eqn:E.
    + pose proof (take_sign_ascii s) as Hs.
      destruct (take_sign s) as [neg s1]. cbn [snd] in Hs.
      pose proof (take_digits_ascii s1) as Hd.
      destruct (take_digits s1) as [ds s2]. cbn [snd] in Hd.
      destruct ds; [discriminate |].
      intros H Hrest. injection H as _ <-.
      rewrite ascii_text_cons, (Hs (Hd Hrest)), andb_true_r.
      apply orb_true_iff in E.
      destruct E as [E | E]; apply Ascii.eqb_eq in E; now subst c.
    + intros H. now injection H as _ <-.
Qed.

Lemma parse_float_ascii s q : parse_float s = Some q -> ascii_text s = true.
Proof.
  unfold parse_float. intros H. apply skip_spaces_ascii.
  pose proof (take_sign_ascii (skip_spaces s)) as Hsign.
  destruct (take_sign (skip_spaces s)) as [neg s1]. cbn [snd] in Hsign.
  apply Hsign. clear Hsign.
  pose proof (take_digits_ascii s1) as Hint.
  destruct (take_digits s1) as [ip s2]. cbn [snd] in Hint.
  apply Hint. clear Hint.
  assert (Hfrac : forall fp s3,
             match s2 with
             | String "." s' => take_digits s'
             | _ => ([], s2)
             end = (fp, s3) ->
             ascii_text s3 = true -> ascii_text s2 = true).
  { intros fp s3 E H3. destruct s2 as [| c s2']; [now injection E as _ <- |].
    destruct (Ascii.eqb_spec c ".") as [-> | Hne].
    - rewrite ascii_text_cons. cbn [andb nat_of_ascii Nat.ltb Nat.leb].
      apply take_digits_ascii. now rewrite E.
    - assert (E' : (@nil ascii, String c s2') = (fp, s3)).
      { rewrite <- E.
        destruct c as [[|] [|] [|] [|] [|] [|] [|] [|]]; try reflexivity;
          exfalso; now apply Hne. }
      now injection E' as _ <-. }
  destruct (match s2 with
            | String "." s' => take_digits s'
            | _ => ([], s2)
            end) as [fp s3] eqn:E.
  apply (Hfrac fp s3 eq_refl).
  destruct (ip ++ fp); [discriminate |].
  destruct (take_exponent s3) as [[ex s4] |] eqn:Ee; [| discriminate].
  apply (take_exponent_ascii _ _ _ Ee). apply skip_spaces_ascii.
  destruct (skip_spaces s4); [reflexivity | discriminate].
Qed.

Lemma re_d_two_digits n rest :
  (1 <= n <= 31)%Z ->
  exists alts, re_d (two_digits n ++ rest) = (n, rest) :: alts.
Proof.
  intros H.
  assert (Hk : exists k, n = Z.of_nat k /\ 1 <= k <= 31)
    by (exists (Z.to_nat n); lia).
  destruct Hk as (k & -> & Hk).
  do 32 (destruct k as [| k]; [first [lia | lazy; eexists; reflexivity] |]).
  lia.
Qed.

Lemma re_m_two_digits n rest :
  (1 <= n <= 12)%Z ->
  exists alts, re_m (two_digits n ++ rest) = (n, rest) :: alts.
Proof.
  intros H.
  assert (Hk : exists k, n = Z.of_nat k /\ 1 <= k <= 12)
    by (exists (Z.to_nat n); lia).
  destruct Hk as (k & -> & Hk).
  do 13 (destruct k as [| k]; [first [lia | lazy; eexists; reflexivity] |]).
  lia.
Qed.

Lemma first_match_head A B (k : A -> option B) a rest b :
  k a = Some b -> first_match k (a :: rest) = Some b.
Proof. cbn. now intros ->. Qed.

Lemma valid_date_bounds y m d :
  valid_date y m d = true ->
  (1 <= y <= 9999 /\ 1 <= m <= 12 /\ 1 <= d <= 31)%Z.
Proof.
  unfold valid_date, days_in_month. intros H.
  repeat (apply andb_true_iff in H; destruct H as [H ?]).
  repeat match goal with
         | H : (_ <=? _)%Z = true |- _ => apply Z.leb_le in H
         end.
  repeat match goal with
         | H : context [if ?b then _ else _] |- _ => destruct b
         end; lia.
Qed.

Lemma re_char_head ch rest : re_char ch (String ch rest) = [rest].
Proof. cbn. now rewrite Ascii.eqb_refl. Qed.

(** A valid date in bounds written day/month/year is read back as
    itself. *)
Lemma parse_date_strftime d :
  valid_date (year d) (month d) (day d) = true ->
  in_ns_bounds (year d) (month d) (day d) = true ->
  parse_date (strftime_dmY d) = Some d.
Proof.
  destruct d as [y m d]. cbn [year month day]. intros Hv Hb.
  destruct (valid_date_bounds _ _ _ Hv) as (Hy & Hm & Hd).
  assert (Hmatch : match_dmY (strftime_dmY {| year := y; month := m; day := d |})
                   = Some (d, m, y, "")).
  { unfold strftime_dmY, match_dmY. cbn [year month day].
    destruct (re_d_two_digits d ("/" ++ two_digits m ++ "/" ++ four_digits y) Hd)
      as [alts_d ->].
    apply first_match_head. cbn [append]. rewrite re_char_head.
    apply first_match_head.
    destruct (re_m_two_digits m (String "/" (four_digits y)) Hm) as [alts_m ->].
    apply first_match_head. rewrite re_char_head.
    apply first_match_head.
    rewrite (re_Y_four_digits y) by lia. reflexivity. }
  unfold parse_date. rewrite Hmatch, Hv, Hb. reflexivity.
Qed.

Lemma parse_date_valid s d :
  parse_date s = Some d ->
  valid_date (year d) (month d) (day d) = true
  /\ in_ns_bounds (year d) (month d) (day d) = true.
Proof.
  unfold parse_date.
  destruct (match_dmY s) as [[[[d0 m0] y0] [| c r]] |]; try discriminate.
  destruct (valid_date y0 m0 d0 && in_ns_bounds y0 m0 d0) eqn:Hv;
    [| discriminate].
  intros H. injection H as <-. now apply andb_true_iff in Hv.
Qed.

Lemma money_cell_keep s :
  ascii_digits_only s = true ->
  money_cell (Some s)
  = parse_float (keep_chars (fun c => is_digit c || Ascii.eqb c ".") s).
Proof.
  intros H. unfold money_cell. cbn [option_map numeric_cell].
  rewrite (sub_ascii s H), re_delete_keep.
  f_equal. apply keep_chars_ext. intros c. unfold ascii_not_digit_or_dot.
  apply negb_involutive.
Qed.

(** What is left of an ASCII cell is ASCII. *)
Lemma keep_digits_and_dots_ascii s :
  forall pending,
    ascii_text s = true -> ascii_text (keep_digits_and_dots pending s) = true.
Proof.
  induction s as [| c s IH]; intros pending; [reflexivity |].
  rewrite ascii_text_cons. intros H. apply andb_true_iff in H.
  destruct H as [Hc Hs]. cbn [keep_digits_and_dots].
  destruct pending as [| n].
  - destruct (Ascii.eqb c ".");
      [rewrite ascii_text_cons, Hc; now apply IH |].
    destruct (digit_width (String c s));
      [now apply IH | rewrite ascii_text_cons, Hc; now apply IH].
  - rewrite ascii_text_cons, Hc. now apply IH.
Qed.

Lemma ascii_text_digits_only s :
  ascii_text s = true -> ascii_digits_only s = true.
Proof. apply keep_digits_and_dots_ascii. Qed.

(** A digit of another script is kept by [[^\d.]] and not read by
    [pd.to_numeric]: the cell is missing. *)
Lemma money_cell_foreign s :
  ascii_digits_only s = false -> money_cell (Some s) = None.
Proof.
  unfold ascii_digits_only, money_cell. cbn [option_map numeric_cell].
  intros H. destruct (parse_float (sub_not_digit_or_dot s)) as [q |] eqn:E;
    [| reflexivity].
  apply parse_float_ascii in E. congruence.
Qed.

Lemma percent_cell_keep s :
  percent_cell (Some s)
  = option_map (fun x => Qred (x / 100))
               (parse_float (keep_chars (fun c => negb (Ascii.eqb c "%")) s)).
Proof.
  unfold percent_cell. cbn [option_map numeric_cell]. rewrite re_delete_keep.
  reflexivity.
Qed.

(** C6, as the code has it. On a text column the conversions never
    raise: each returns a column with one value per cell. A money cell
    is parsed from its digits and decimal points alone, every other
    character deleted ([£12.50] gives 12.5), and is missing when one of
    its digits is a decimal digit of a script other than ASCII, which
    the deletion keeps and the parser does not read; a percentage cell
    has every [%] deleted, wherever it stands, is parsed and divided by
    100 ([45%] gives 0.45); the hours are parsed as they stand, nothing
    deleted ([3h] is missing); a date cell is read as day/month/year,
    so that a valid date in bounds written that way is read back as
    itself and nothing else is ever read; a missing, empty or
    unparseable cell ([not-a-date], the empty string) becomes a missing
    value. *)
Theorem cell_coercions (df : DataFrame) (key : string)
  (cells : list (option string)) :
  getitem df key = Ok (Sel_Series (ObjCol cells)) ->
  (money_column df key = Ok (NumCol (map money_cell cells))
   /\ percent_column df key = Ok (NumCol (map percent_cell cells))
   /\ date_column df key = Ok (DtCol (map datetime_cell cells))
   /\ number_column df key = Ok (NumCol (map numeric_cell cells)))
  /\ (forall s,
         ascii_digits_only s = true ->
         money_cell (Some s)
         = parse_float (keep_chars (fun c => is_digit c || Ascii.eqb c ".") s))
  /\ (forall s, ascii_digits_only s = false -> money_cell (Some s) = None)
  /\ (forall s, ascii_text s = true -> ascii_digits_only s = true)
  /\ (forall s,
         percent_cell (Some s)
         = option_map (fun x => Qred (x / 100))
             (parse_float (keep_chars (fun c => negb (Ascii.eqb c "%")) s)))
  /\ (forall d,
         valid_date (year d) (month d) (day d) = true ->
         in_ns_bounds (year d) (month d) (day d) = true ->
         datetime_cell (Some (strftime_dmY d)) = Some d)
  /\ (forall s d,
         datetime_cell (Some s) = Some d ->
         valid_date (year d) (month d) (day d) = true
         /\ in_ns_bounds (year d) (month d) (day d) = true)
  /\ (money_cell (Some "£12.50") = Some (25 # 2)
      /\ (25 # 2 == 12.50)%Q
      /\ percent_cell (Some "45%") = Some (9 # 20)
      /\ (9 # 20 == 0.45)%Q
      /\ datetime_cell (Some "03/04/2024")
         = Some {| year := 2024; month := 4; day := 3 |})
  /\ (datetime_cell (Some "not-a-date") = None
      /\ datetime_cell (Some "31/02/2024") = None
      /\ datetime_cell (Some "2024-03-15") = None
      /\ datetime_cell (Some "") = None
      /\ money_cell (Some "") = None
      /\ money_cell (Some "n/a") = None
      /\ percent_cell (Some "") = None
      /\ percent_cell (Some "high") = None
      /\ money_cell None = None
      /\ percent_cell None = None
      /\ datetime_cell None = None)
  /\ (ascii_digits_only "£12.50" = true
      /\ ascii_digits_only "٣5" = false
      /\ money_cell (Some "٣5") = None
      /\ numeric_cell (Some "3h") = None
      /\ numeric_cell (Some "7.5") = Some (15 # 2)
      /\ datetime_cell (Some "01/01/٢٠٢٤")
         = Some {| year := 2024; month := 1; day := 1 |}).
Proof.
  intros Hget. split.
  { unfold money_column, percent_column, date_column, number_column.
    rewrite Hget.
    cbn [rbind str_replace to_numeric to_datetime truediv].
    rewrite !map_map. repeat split. }
  split; [exact money_cell_keep |].
  split; [exact money_cell_foreign |].
  split; [exact ascii_text_digits_only |].
  split; [exact percent_cell_keep |].
  split; [intros d Hv Hb; now apply parse_date_strftime |].
  split; [intros s d H; now apply (parse_date_valid s) |].
  split; [repeat split |].
  split; repeat split.
Qed.

Lemma cell_coercions_witness :
  money_column sample_frame "Cell"
  = Ok (NumCol [Some (25 # 2); Some 45%Q; Some 15032024%Q; None; None; None])
  /\ percent_column sample_frame "Cell"
     = Ok (NumCol [None; Some (9 # 20); None; None; None; None])
  /\ date_column sample_frame "Cell"
     = Ok (DtCol [None; None;
                  Some {| year := 2024; month := 3; day := 15 |};
                  None; None; None]).
Proof.
  destruct (cell_coercions sample_frame "Cell" sample_cells eq_refl)
    as ((Hm & Hp & Hd & _) & _).
  exact (conj Hm (conj Hp Hd)).
Defined.

(** C6 as stated fails, twice. Of a cell with a [%] that is not at its
    end the statement makes a missing value, the code a number. Of the
    hours the statement strips what is not a digit or a decimal point,
    the code strips nothing: [3h] is 3 in the statement and missing in
    the cleaned table. *)
Lemma cells_not_as_stated :
  (percent_column
     {| index_len := 1; columns := [("Profit Per Product Present",
                                     ObjCol [Some "4%5"])] |}
     "Profit Per Product Present"
   = Ok (NumCol [Some (9 # 20)])
   /\ percent_cell (Some "4%5") = Some (9 # 20)
   /\ spec_percent_cell "4%5" = None
   /\ spec_percent_cell "45%" = Some (9 # 20))
  /\ (normalize_hours [["Date:"; "Hours:"];
                       ["01/03/2024"; "3h"];
                       ["02/03/2024"; "7.5"]]
      = Ok {| index_len := 2;
              columns :=
                [("Date", DtCol [Some {| year := 2024; month := 3; day := 1 |};
                                 Some {| year := 2024; month := 3; day := 2 |}]);
                 ("Hours", NumCol [None; Some (15 # 2)])] |}
      /\ numeric_cell (Some "3h") = None
      /\ spec_numeric_cell "3h" = Some 3%Q
      /\ spec_numeric_cell "7.5" = Some (15 # 2)
      /\ spec_numeric_cell "£12.50" = Some (25 # 2)).
Proof. repeat split. Qed.

(** ** A batch with a link that cannot be opened *)

Lemma batch_isolation_witness :
  let results := batch_results (trace (generate_reports sample_client sample_links)) in
  length results = 3
  /\ nth_error results 1
     = Some (Failed "Error processing link https://sheets/bad: no such spreadsheet")
  /\ nth_error results 0 = nth_error results 2
  /\ (exists report,
         nth_error results 0 = Some (Completed "Acme_Report.docx" report)
         /\ map chart_title (pictures report)
            = ["Products Uploaded per Month"; "Sales per Month";
               "Profit per Month"; "Hours Worked per Month"]
         /\ map chart_y (pictures report)
            = [[1; 1]; [2; 0]; [8; 1]; [31 # 2]]%Q).
Proof.
  destruct (batch_isolation sample_client sample_links)
    as (_ & Hres & Hlen & _).
  cbv zeta in *. rewrite Hres.
  split; [reflexivity |]. split; [reflexivity |]. split; [reflexivity |].
  eexists. split; [reflexivity |]. split; reflexivity.
Defined.

(** ** Reports for cleaned tables *)

Lemma to_numeric_float s c : to_numeric s = Ok c -> dtype_of c = float64.
Proof.
  destruct s as [[l | l | l] | cs]; cbn; intros H; try discriminate;
    injection H as <-; reflexivity.
Qed.

Lemma date_column_yields df key c :
  date_column df key = Ok c -> dtype_of c = datetime64.
Proof.
  unfold date_column. destruct (getitem df key) as [s |]; [| discriminate].
  cbn [rbind]. destruct s as [[l | l | l] | cs]; cbn; intros H;
    try discriminate; injection H as <-; reflexivity.
Qed.

Lemma number_column_yields df key c :
  number_column df key = Ok c -> dtype_of c = float64.
Proof.
  unfold number_column. destruct (getitem df key) as [s |]; [| discriminate].
  cbn [rbind]. apply to_numeric_float.
Qed.

Lemma money_column_yields df key c :
  money_column df key = Ok c -> dtype_of c = float64.
Proof.
  unfold money_column. destruct (getitem df key) as [s |]; [| discriminate].
  cbn [rbind].
  destruct (str_replace sub_not_digit_or_dot s) as [c1 |]; [| discriminate].
  cbn [rbind]. apply to_numeric_float.
Qed.

Lemma percent_column_yields df key c :
  percent_column df key = Ok c -> dtype_of c = float64.
Proof.
  unfold percent_column. destruct (getitem df key) as [s |]; [| discriminate].
  cbn [rbind]. destruct (str_replace (re_delete re_percent) s) as [c1 |]; [| discriminate].
  cbn [rbind]. destruct (to_numeric (Sel_Series c1)) as [n |]; [| discriminate].
  cbn [rbind]. destruct n; cbn; intros H; try discriminate.
  injection H as <-. reflexivity.
Qed.

Lemma products_steps_yield : steps_yield products_steps.
Proof.
  unfold steps_yield, products_steps.
  repeat (apply Forall_cons || apply Forall_nil); cbn [convert yield].
  - exact date_column_yields.
  - exact money_column_yields.
  - exact percent_column_yields.
Qed.

Lemma orders_steps_yield : steps_yield orders_steps.
Proof.
  unfold steps_yield, orders_steps.
  repeat (apply Forall_cons || apply Forall_nil); cbn [convert yield];
    first [exact date_column_yields | exact money_column_yields].
Qed.

Lemma hours_steps_yield : steps_yield hours_steps.
Proof.
  unfold steps_yield, hours_steps.
  repeat (apply Forall_cons || apply Forall_nil); cbn [convert yield].
  - exact date_column_yields.
  - exact number_column_yields.
Qed.

Lemma filter_named_replaced (cs : list (string * column)) k c :
  filter (named k) (map (fun p => if named k p then (k, c) else p) cs)
  = map (fun _ => (k, c)) (filter (named k) cs).
Proof.
  induction cs as [| [name c0] cs IH]; [reflexivity |].
  cbn [map filter]. destruct (named k (name, c0)) eqn:E.
  - unfold named at 1. cbn [fst]. rewrite String.eqb_refl.
    cbn [map]. now rewrite IH.
  - rewrite E. exact IH.
Qed.

Lemma filter_named_setitem_same df k c :
  length (filter (named k) (columns df)) <= 1 ->
  filter (named k) (columns (setitem df k c)) = [(k, c)].
Proof.
  intros Hlen. unfold setitem. destruct (contains df k) eqn:Hc; cbn [columns].
  - rewrite filter_named_replaced.
    destruct (filter (named k) (columns df)) as [| p [| q l]] eqn:E.
    + apply filter_named_nil in E. apply contains_In in Hc. contradiction.
    + reflexivity.
    + cbn in Hlen. lia.
  - rewrite filter_app.
    assert (E : filter (named k) (columns df) = []).
    { apply filter_named_nil. intros Hin. apply contains_In in Hin. congruence. }
    rewrite E. cbn. unfold named. cbn [fst]. now rewrite String.eqb_refl.
Qed.

Lemma apply_steps_filter_other steps key :
  forall df df',
    apply_steps df steps = Ok df' ->
    Forall (fun st => String.eqb key (target st) = false) steps ->
    filter (named key) (columns df') = filter (named key) (columns df).
Proof.
  induction steps as [| st steps IH]; intros df df'; cbn [apply_steps].
  - intros H _. now injection H as <-.
  - destruct (convert st df (source st)) as [c |]; [| discriminate].
    cbn [rbind]. intros H Hne. inversion Hne as [| ? ? Hst Hrest]; subst.
    rewrite (IH _ _ H Hrest). now apply filter_named_setitem_other.
Qed.

Lemma targets_distinct_later st rest later :
  targets_distinct (st :: rest) = true -> In later rest ->
  String.eqb (target st) (target later) = false.
Proof.
  cbn [targets_distinct]. intros H Hin. apply andb_true_iff in H.
  destruct H as [H _]. rewrite forallb_forall in H.
  specialize (H _ Hin). now apply negb_true_iff in H.
Qed.

Lemma targets_distinct_tail st rest :
  targets_distinct (st :: rest) = true -> targets_distinct rest = true.
Proof. cbn [targets_distinct]. intros H. now apply andb_true_iff in H. Qed.

(** After the steps each target is one column of the declared dtype. *)
Lemma apply_steps_typed steps :
  steps_yield steps ->
  targets_distinct steps = true ->
  forall df df',
    apply_steps df steps = Ok df' ->
    Forall (fun st => length (filter (named (target st)) (columns df)) <= 1)
           steps ->
    Forall (fun st => typed_column df' (target st) (yield st)) steps.
Proof.
  induction 1 as [| st steps Hst _ IH]; intros Hdist df df';
    cbn [apply_steps]; [constructor |].
  destruct (convert st df (source st)) as [c |] eqn:Hc; [| discriminate].
  cbn [rbind]. intros H Hfree. inversion Hfree as [| ? ? Hhere Hrest]; subst.
  constructor.
  - exists c. split; [| exact (Hst _ _ _ Hc)].
    rewrite (apply_steps_filter_other steps (target st) _ _ H).
    + now apply filter_named_setitem_same.
    + apply Forall_forall. intros later Hin.
      eapply targets_distinct_later; eassumption.
  - apply (IH (targets_distinct_tail _ _ Hdist) _ _ H).
    apply Forall_forall. intros later Hin. rewrite Forall_forall in Hrest.
    rewrite filter_named_setitem_other; [now apply Hrest |].
    rewrite String.eqb_sym. eapply targets_distinct_later; eassumption.
Qed.

Lemma filter_named_twice (cs : list (string * column)) key k :
  filter (named key) (filter (named k) cs)
  = if String.eqb k key then filter (named key) cs else [].
Proof.
  unfold named.
  induction cs as [| [name c] cs IH];
    [now destruct (String.eqb k key) |].
  cbn [filter fst].
  destruct (String.eqb_spec name k) as [E | Hnk].
  - subst name. cbn [filter fst]. rewrite IH.
    destruct (String.eqb k key); reflexivity.
  - rewrite IH. destruct (String.eqb_spec k key) as [E | Hkk]; [| reflexivity].
    subst key. destruct (String.eqb_spec name k); [contradiction | reflexivity].
Qed.

Lemma getitem_list_filter df keys key :
  forall t, getitem_list df keys = Ok t ->
            count_name key keys = 1 ->
            filter (named key) (columns t) = filter (named key) (columns df).
Proof.
  unfold count_name.
  assert (Hnone : forall ks t, getitem_list df ks = Ok t ->
                               filter (String.eqb key) ks = [] ->
                               filter (named key) (columns t) = []).
  { induction ks as [| k ks IH]; intros t; cbn [getitem_list filter].
    - intros H _. now injection H as <-.
    - destruct (filter (named k) (columns df)) as [| p cs] eqn:E;
        [discriminate |].
      destruct (getitem_list df ks) as [r |]; [| discriminate].
      cbn [rbind]. intros H. injection H as <-. cbn [columns].
      destruct (String.eqb_spec key k) as [-> | Hne]; [discriminate |].
      intros Hrest. change (p :: cs ++ columns r) with ((p :: cs) ++ columns r).
      rewrite filter_app, <- E, filter_named_twice, (IH r eq_refl Hrest).
      destruct (String.eqb_spec k key); [congruence | reflexivity]. }
  induction keys as [| k keys IH]; intros t; cbn [getitem_list filter];
    [discriminate 2 |].
  destruct (filter (named k) (columns df)) as [| p cs] eqn:E; [discriminate |].
  destruct (getitem_list df keys) as [r |] eqn:Hr; [| discriminate].
  cbn [rbind]. intros H. injection H as <-. cbn [columns].
  change (p :: cs ++ columns r) with ((p :: cs) ++ columns r).
  rewrite filter_app, <- E, filter_named_twice.
  destruct (String.eqb_spec key k) as [-> | Hne].
  - cbn [length]. intros Hone. rewrite String.eqb_refl.
    rewrite (Hnone keys r Hr); [apply app_nil_r |].
    apply length_zero_iff_nil. lia.
  - intros Hone. rewrite (IH r eq_refl Hone).
    destruct (String.eqb_spec k key); [congruence | reflexivity].
Qed.

Lemma count_name_absent key (steps : list step) :
  Forall (fun st => String.eqb key (target st) = false) steps ->
  count_name key (map target steps) = 0.
Proof.
  unfold count_name. induction 1 as [| st steps Hst _ IH]; [reflexivity |].
  cbn [map filter]. now rewrite Hst.
Qed.

Lemma targets_distinct_count steps st :
  targets_distinct steps = true -> In st steps ->
  count_name (target st) (map target steps) = 1.
Proof.
  induction steps as [| st0 steps IH]; intros Hd Hin; [destruct Hin |].
  unfold count_name. cbn [map filter]. destruct Hin as [-> | Hin].
  - rewrite String.eqb_refl. cbn [length]. f_equal.
    apply count_name_absent. apply Forall_forall. intros later Hl.
    eapply targets_distinct_later; eassumption.
  - rewrite (String.eqb_sym (target st) (target st0)).
    rewrite (targets_distinct_later _ _ st Hd Hin).
    apply IH; [eapply targets_distinct_tail; eassumption | exact Hin].
Qed.

(** A table a cleaner returns is typed, when no target column was in
    the header more than once. *)
Lemma clean_with_typed steps raw_data t :
  steps_yield steps ->
  targets_distinct steps = true ->
  targets_free steps raw_data = true ->
  clean_with steps raw_data = Ok t ->
  typed_table steps t.
Proof.
  intros Hy Hd Hfree. unfold clean_with.
  destruct (1 <? length raw_data); [| intros H; injection H as <-; now left].
  destruct (DataFrame_of_rows (tl raw_data) (hd [] raw_data)) as [df |] eqn:Hdf;
    [| discriminate].
  cbn [rbind].
  destruct (apply_steps df steps) as [df' |] eqn:Hsteps; [| discriminate].
  cbn [rbind]. intros Hget. right.
  destruct (DataFrame_of_rows_ok _ _ _ Hdf) as (_ & Hnames & _ & _).
  assert (Htyped : Forall (fun st => typed_column df' (target st) (yield st))
                          steps).
  { apply (apply_steps_typed steps Hy Hd df df' Hsteps).
    apply Forall_forall. intros st Hin. rewrite length_filter_named.
    fold (column_names df). rewrite Hnames.
    unfold targets_free in Hfree. rewrite forallb_forall in Hfree.
    apply Nat.leb_le. now apply Hfree. }
  rewrite Forall_forall in *. intros st Hin.
  destruct (Htyped st Hin) as (c & Hc & Hk). exists c. split; [| exact Hk].
  rewrite (getitem_list_filter df' (map target steps) (target st) t Hget);
    [exact Hc |].
  now apply targets_distinct_count.
Qed.

(** The orders have the same names for sources and targets, so a table
    the cleaner returns is always typed. *)
Lemma normalize_orders_typed raw_data t :
  normalize_orders raw_data = Ok t -> typed_table orders_steps t.
Proof.
  rewrite normalize_orders_steps. intros H.
  destruct (Nat.lt_ge_cases (length raw_data) 2) as [Hlt | Hge].
  - left. unfold clean_with in H. rewrite (short_grid_test _ Hlt) in H.
    now injection H as <-.
  - apply (clean_with_typed orders_steps raw_data t orders_steps_yield eq_refl);
      [| exact H].
    pose proof (clean_with_valid_inv orders_steps raw_data t orders_steps_read
                  eq_refl Hge H) as Hv.
    unfold valid_grid in Hv. apply andb_true_iff in Hv. destruct Hv as [_ Hv].
    unfold targets_free. rewrite forallb_forall in *. intros st Hin.
    assert (Hsrc : In (target st) (map source orders_steps)).
    { change (map source orders_steps) with (map target orders_steps).
      now apply in_map. }
    specialize (Hv _ Hsrc). apply Nat.eqb_eq in Hv. rewrite Hv. reflexivity.
Qed.

Lemma typed_float t name :
  typed_column t name float64 ->
  exists l, filter (named name) (columns t) = [(name, NumCol l)].
Proof. intros ([l | l | l] & Hc & Hk); try discriminate. eauto. Qed.

Lemma typed_datetime t name :
  typed_column t name datetime64 ->
  exists l, filter (named name) (columns t) = [(name, DtCol l)].
Proof. intros ([l | l | l] & Hc & Hk); try discriminate. eauto. Qed.

Lemma total_of_typed t name :
  t = empty_DataFrame \/ typed_column t name float64 ->
  exists q, total_of t name = Ok q.
Proof.
  intros [-> | Ht]; [cbn; eauto |].
  destruct (typed_float _ _ Ht) as [l Hl]. unfold total_of.
  destruct (contains t name); [| eauto].
  rewrite (getitem_single _ _ _ _ Hl). cbn. eauto.
Qed.

Lemma month_keys_typed t name :
  typed_column t name datetime64 -> exists keys, month_keys t name = Ok keys.
Proof.
  intros Ht. destruct (typed_datetime _ _ Ht) as [l Hl]. unfold month_keys.
  rewrite (getitem_single _ _ _ _ Hl). cbn. eauto.
Qed.

Lemma groupby_sum_typed keys t name :
  typed_column t name float64 -> exists s, groupby_sum keys t name = Ok s.
Proof.
  intros Ht. destruct (typed_float _ _ Ht) as [l Hl]. unfold groupby_sum.
  rewrite Hl. eauto.
Qed.

Lemma groupby_count_typed keys t name k :
  typed_column t name k -> exists s, groupby_count keys t name = Ok s.
Proof.
  intros (c & Hc & _). unfold groupby_count. rewrite Hc. eauto.
Qed.

(** Typed tables always get a report. *)
Lemma generate_report_total client_name products orders hours :
  typed_table products_steps products ->
  typed_table orders_steps orders ->
  typed_table hours_steps hours ->
  exists doc, generate_report client_name products orders hours = Ok doc.
Proof.
  intros Hp Ho Hh. unfold generate_report.
  assert (Hts : exists q, total_of orders "Total Sales" = Ok q).
  { apply total_of_typed. destruct Ho as [-> | Ho]; [now left | right].
    rewrite Forall_forall in Ho.
    apply (Ho {| source := "Total Sales"; target := "Total Sales";
                 convert := money_column; yield := float64 |}).
    cbn. tauto. }
  assert (Htp : exists q, total_of orders "Total Profits" = Ok q).
  { apply total_of_typed. destruct Ho as [-> | Ho]; [now left | right].
    rewrite Forall_forall in Ho.
    apply (Ho {| source := "Total Profits"; target := "Total Profits";
                 convert := money_column; yield := float64 |}).
    cbn. tauto. }
  assert (Hth : exists q, total_of hours "Hours" = Ok q).
  { apply total_of_typed. destruct Hh as [-> | Hh]; [now left | right].
    rewrite Forall_forall in Hh.
    apply (Hh {| source := "Hours:"; target := "Hours";
                 convert := number_column; yield := float64 |}).
    cbn. tauto. }
  destruct Hts as [ts ->], Htp as [tp ->], Hth as [th ->]. cbn [rbind].
  assert (Hpc : df_empty products = false ->
                exists g, products_chart products = Ok g).
  { destruct Hp as [-> | Hp]; [discriminate |]. intros _.
    rewrite Forall_forall in Hp.
    destruct (month_keys_typed products "Date Uploaded") as [keys Hk].
    { apply (Hp {| source := "Date Uploaded:"; target := "Date Uploaded";
                   convert := date_column; yield := datetime64 |}).
      cbn. tauto. }
    unfold products_chart. rewrite Hk. cbn. eauto. }
  assert (Hoc : df_empty orders = false ->
                exists g g0, sales_chart orders = Ok g
                             /\ profit_chart orders = Ok g0).
  { destruct Ho as [-> | Ho]; [discriminate |]. intros _.
    rewrite Forall_forall in Ho.
    destruct (month_keys_typed orders "Date Of Purchase") as [keys Hk].
    { apply (Ho {| source := "Date Of Purchase"; target := "Date Of Purchase";
                   convert := date_column; yield := datetime64 |}).
      cbn. tauto. }
    destruct (groupby_count_typed keys orders "eBay Price" float64) as [s Hs].
    { apply (Ho {| source := "eBay Price"; target := "eBay Price";
                   convert := money_column; yield := float64 |}).
      cbn. tauto. }
    destruct (groupby_sum_typed keys orders "Profit Per Sale USD") as [s0 Hs0].
    { apply (Ho {| source := "Profit Per Sale USD";
                   target := "Profit Per Sale USD";
                   convert := money_column; yield := float64 |}).
      cbn. tauto. }
    unfold sales_chart, profit_chart. rewrite Hk. cbn [rbind].
    rewrite Hs, Hs0. cbn. eauto. }
  assert (Hhc : df_empty hours = false ->
                exists g, hours_chart hours = Ok g).
  { destruct Hh as [-> | Hh]; [discriminate |]. intros _.
    rewrite Forall_forall in Hh.
    destruct (month_keys_typed hours "Date") as [keys Hk].
    { apply (Hh {| source := "Date:"; target := "Date";
                   convert := date_column; yield := datetime64 |}).
      cbn. tauto. }
    destruct (groupby_sum_typed keys hours "Hours") as [s Hs].
    { apply (Hh {| source := "Hours:"; target := "Hours";
                   convert := number_column; yield := float64 |}).
      cbn. tauto. }
    unfold hours_chart. rewrite Hk. cbn [rbind]. rewrite Hs. cbn. eauto. }
  destruct (df_empty products); cbn [negb rbind];
    [| destruct (Hpc eq_refl) as [g ->]; cbn [rbind]];
    (destruct (df_empty orders); cbn [negb rbind];
     [| destruct (Hoc eq_refl) as (g2 & g3 & -> & ->); cbn [rbind]];
     (destruct (df_empty hours); cbn [negb rbind];
      [| destruct (Hhc eq_refl) as [g4 ->]; cbn [rbind]]; eauto)).
Qed.

(** What the three cleaners return always gets a report, as long as
    the headers of the listings and of the hours do not already hold a
    target column twice. *)
Lemma report_for_cleaned_tables client_name
  (listings_grid orders_grid hours_grid : RawGrid)
  (products orders hours : DataFrame) :
  normalize_products listings_grid = Ok products ->
  normalize_orders orders_grid = Ok orders ->
  normalize_hours hours_grid = Ok hours ->
  targets_free products_steps listings_grid = true ->
  targets_free hours_steps hours_grid = true ->
  exists doc, generate_report client_name products orders hours = Ok doc.
Proof.
  intros Hp Ho Hh Hfp Hfh. apply generate_report_total.
  - rewrite normalize_products_steps in Hp.
    exact (clean_with_typed products_steps listings_grid products
             products_steps_yield eq_refl Hfp Hp).
  - exact (normalize_orders_typed orders_grid orders Ho).
  - rewrite normalize_hours_steps in Hh.
    exact (clean_with_typed hours_steps hours_grid hours
             hours_steps_yield eq_refl Hfh Hh).
Qed.

(* ================================================================== *)
(** * More of the program                                             *)
(* ================================================================== *)

(** ** A fetch that recovers *)

Lemma safe_fetch_loop_recovers ws (err : nat -> exn) d grid :
  (0 <= d)%Z ->
  forall n a d0 k,
    a <= k < a + n ->
    (forall i, a <= i < k -> (d * 2 ^ Z.of_nat i <= sleep_max)%Z) ->
    (forall i, a <= i < k -> get_all_values ws i = Raise (err i)) ->
    get_all_values ws k = Ok grid ->
    d0 = (d * 2 ^ Z.of_nat a)%Z ->
    safe_fetch_loop ws (seq a n) d0
    = (flat_map (failed_attempt err d) (seq a (k - a)) ++ [ev_get_all_values],
       Ok grid).
Proof.
  intros Hpos.
  induction n as [| n IH]; intros a d0 k Hk Hfit Hfail Hok Hd; [lia |].
  cbn [seq safe_fetch_loop].
  destruct (Nat.eq_dec a k) as [-> | Hne].
  - rewrite Hok, Nat.sub_diag. reflexivity.
  - rewrite (Hfail a) by lia.
    rewrite (sleep_in_range d0)
      by (subst d0; split; [now apply delay_nonneg | apply Hfit; lia]).
    replace (k - a) with (S (k - S a)) by lia.
    cbn [seq flat_map].
    rewrite (IH (S a) (d0 * 2)%Z k).
    + subst d0. reflexivity.
    + lia.
    + intros i Hi. apply Hfit. lia.
    + intros i Hi. apply Hfail. lia.
    + exact Hok.
    + subst d0. rewrite Nat2Z.inj_succ, Z.pow_succ_r by lia. ring.
Qed.

Lemma remote_calls_app t1 t2 :
  remote_calls (t1 ++ t2) = remote_calls t1 + remote_calls t2.
Proof. unfold remote_calls. now rewrite filter_app, length_app. Qed.

Lemma sleeps_app t1 t2 : sleeps (t1 ++ t2) = sleeps t1 ++ sleeps t2.
Proof. unfold sleeps. apply flat_map_app. Qed.

Lemma warnings_app t1 t2 : warnings (t1 ++ t2) = warnings t1 ++ warnings t2.
Proof. unfold warnings. apply flat_map_app. Qed.

(** X1. A fetch with a delay [d] that [time.sleep] takes, as it takes
    [2^(k-1) d], whose first [k] calls fail and whose next call, still
    within the retries, answers: it returns that answer after [k + 1]
    calls, having warned [k] times and slept [d, 2d, ..., 2^(k-1) d];
    nothing is slept after the call that answers. *)
Theorem safe_fetch_recovers ws (r d : Z) (k : nat) (err : nat -> exn)
  (grid : RawGrid) :
  (0 <= d)%Z ->
  (d * 2 ^ (Z.of_nat k - 1) <= sleep_max)%Z ->
  k < Z.to_nat r ->
  (forall i, i < k -> get_all_values ws i = Raise (err i)) ->
  get_all_values ws k = Ok grid ->
  let run := safe_fetch_worksheet ws r d in
  outcome run = Ok grid
  /\ trace run
     = flat_map (failed_attempt err d) (seq 0 k) ++ [ev_get_all_values]
  /\ remote_calls (trace run) = k + 1
  /\ warnings (trace run) = map (fun i => retry_warning (err i) i) (seq 0 k)
  /\ sleeps (trace run) = map (fun i => (d * 2 ^ Z.of_nat i)%Z) (seq 0 k).
Proof.
  intros Hpos Hmax Hk Hfail Hok run.
  assert (Hrun : run = (flat_map (failed_attempt err d) (seq 0 k)
                        ++ [ev_get_all_values], Ok grid)).
  { unfold run, safe_fetch_worksheet, range.
    rewrite (safe_fetch_loop_recovers ws err d grid Hpos (Z.to_nat r) 0 d k).
    - now rewrite Nat.sub_0_r.
    - lia.
    - intros i Hi. apply (delay_fits d (Z.of_nat k) i Hpos Hmax). lia.
    - intros i Hi. apply Hfail. lia.
    - exact Hok.
    - simpl. ring. }
  rewrite Hrun. unfold trace, outcome. cbn [fst snd].
  split; [reflexivity |]. split; [reflexivity |].
  rewrite remote_calls_app, warnings_app, sleeps_app.
  rewrite remote_calls_failed_attempts, warnings_failed_attempts,
    sleeps_failed_attempts, length_seq.
  cbn. rewrite !app_nil_r. auto.
Qed.

Lemma safe_fetch_recovers_witness :
  outcome (safe_fetch_worksheet (worksheet_flaky 2 sample_listings) 5 2)
  = Ok sample_listings
  /\ remote_calls (trace (safe_fetch_worksheet
                            (worksheet_flaky 2 sample_listings) 5 2)) = 3
  /\ sleeps (trace (safe_fetch_worksheet
                      (worksheet_flaky 2 sample_listings) 5 2)) = [2; 4]%Z.
Proof.
  pose proof (safe_fetch_recovers (worksheet_flaky 2 sample_listings) 5 2 2
                (fun _ => quota_error) sample_listings) as H.
  cbv zeta in H.
  destruct H as (Hout & _ & Hcalls & _ & Hsleeps).
  - lia.
  - vm_compute. discriminate.
  - simpl. lia.
  - intros i Hi. unfold worksheet_flaky. cbn [get_all_values].
    destruct (Nat.ltb_spec i 2); [reflexivity | lia].
  - reflexivity.
  - split; [exact Hout |]. split; [exact Hcalls | exact Hsleeps].
Defined.

(** ** Any worksheet *)

Lemma safe_fetch_loop_shape ws d :
  (0 <= d)%Z ->
  forall n a d0,
    (forall i, a <= i < a + n -> (d * 2 ^ Z.of_nat i <= sleep_max)%Z) ->
    d0 = (d * 2 ^ Z.of_nat a)%Z ->
    exists k grid,
      k <= n
      /\ safe_fetch_loop ws (seq a n) d0
         = (flat_map (failed_attempt (error_at ws) d) (seq a k)
            ++ (if k <? n then [ev_get_all_values] else []),
            Ok grid).
Proof.
  intros Hpos.
  induction n as [| n IH]; intros a d0 Hfit Hd.
  - exists 0, []. split; [lia | reflexivity].
  - cbn [seq safe_fetch_loop].
    destruct (get_all_values ws a) as [grid | e] eqn:Hcall.
    + exists 0, grid. split; [lia | reflexivity].
    + rewrite (sleep_in_range d0)
        by (subst d0; split; [now apply delay_nonneg | apply Hfit; lia]).
      destruct (IH (S a) (d0 * 2)%Z) as (k & grid & Hk & Hrun).
      { intros i Hi. apply Hfit. lia. }
      { subst d0. rewrite Nat2Z.inj_succ, Z.pow_succ_r by lia. ring. }
      exists (S k), grid. split; [lia |].
      rewrite Hrun. cbn [seq flat_map].
      unfold failed_attempt at 2, error_at at 2. rewrite Hcall.
      subst d0.
      change (S k <? S n) with (k <? n). reflexivity.
Qed.

Lemma safe_fetch_worksheet_shape ws r d :
  (0 <= d)%Z ->
  (d * 2 ^ (r - 1) <= sleep_max)%Z ->
  exists k grid,
    k <= Z.to_nat r
    /\ safe_fetch_worksheet ws r d
       = (flat_map (failed_attempt (error_at ws) d) (seq 0 k)
          ++ (if k <? Z.to_nat r then [ev_get_all_values] else []),
          Ok grid).
Proof.
  intros Hpos Hmax. unfold safe_fetch_worksheet, range.
  apply safe_fetch_loop_shape; [exact Hpos | | simpl; ring].
  intros i Hi. apply (delay_fits d r i Hpos Hmax). lia.
Qed.

(** Whatever the worksheet does and however the fetch ends, what it has
    slept is the first delays of [d, 2d, 4d, ...]. *)
Lemma safe_fetch_loop_sleeps ws d :
  forall n a d0,
    d0 = (d * 2 ^ Z.of_nat a)%Z ->
    exists k,
      k <= n
      /\ sleeps (trace (safe_fetch_loop ws (seq a n) d0))
         = map (fun i => (d * 2 ^ Z.of_nat i)%Z) (seq a k).
Proof.
  induction n as [| n IH]; intros a d0 Hd.
  - exists 0. split; [lia | reflexivity].
  - cbn [seq safe_fetch_loop].
    destruct (get_all_values ws a) as [grid | e].
    + exists 0. split; [lia | reflexivity].
    + unfold sleep.
      destruct (d0 <? 0)%Z; [exists 0; split; [lia | reflexivity] |].
      destruct (sleep_max <? d0)%Z; [exists 0; split; [lia | reflexivity] |].
      destruct (IH (S a) (d0 * 2)%Z) as (k & Hk & Hrun).
      { subst d0. rewrite Nat2Z.inj_succ, Z.pow_succ_r by lia. ring. }
      exists (S k). split; [lia |].
      unfold trace in *.
      destruct (safe_fetch_loop ws (seq (S a) n) (d0 * 2)%Z) as [t res].
      cbn [fst] in Hrun. cbn. fold (sleeps t). rewrite Hrun. now subst d0.
Qed.

Lemma geometric_sum d k :
  fold_right Z.add 0%Z (map (fun i => (d * 2 ^ Z.of_nat i)%Z) (seq 0 k))
  = (d * (2 ^ Z.of_nat k - 1))%Z.
Proof.
  induction k as [| k IH]; [simpl; ring |].
  rewrite seq_S, map_app, fold_right_app. cbn [map fold_right Nat.add].
  assert (Hacc : forall l z,
             fold_right Z.add z l = (fold_right Z.add 0 l + z)%Z).
  { induction l as [| x l IHl]; intros z; cbn [fold_right]; [ring |].
    rewrite IHl. ring. }
  rewrite Hacc, IH, Nat2Z.inj_succ, Z.pow_succ_r by lia. ring.
Qed.

(** X2. With a first delay [d] that [time.sleep] takes, as it takes
    the last delay [2^(r-1) d], whatever the worksheet does, a fetch
    returns a grid and never raises; it calls the remote at most
    [retries] times; every sleep follows a failed call, with one warning
    each, so the calls are the sleeps or one more; and the sleeps are
    [d, 2d, 4d, ...]. With a delay that [time.sleep] refuses, negative
    or too long to be counted, the first call that fails ends the
    fetch: the refusal is raised inside the handler, and the fetch
    raises it ([ValueError] or [OverflowError]) after one call and one
    warning, without sleeping. *)
Theorem safe_fetch_outcome ws (r d : Z) :
  let run := safe_fetch_worksheet ws r d in
  let k := length (sleeps (trace run)) in
  ((0 <= d)%Z -> (d * 2 ^ (r - 1) <= sleep_max)%Z ->
   (exists grid, outcome run = Ok grid)
   /\ remote_calls (trace run) <= Z.to_nat r
   /\ k <= remote_calls (trace run) <= k + 1
   /\ length (warnings (trace run)) = k
   /\ sleeps (trace run) = map (fun i => (d * 2 ^ Z.of_nat i)%Z) (seq 0 k))
  /\ ((d < 0)%Z -> (0 < r)%Z ->
      forall e, get_all_values ws 0 = Raise e ->
                outcome run
                = Raise (ValueError "sleep length must be non-negative")
                /\ trace run
                   = [ev_get_all_values; st_warning (retry_warning e 0)])
  /\ ((sleep_max < d)%Z -> (0 < r)%Z ->
      forall e, get_all_values ws 0 = Raise e ->
                outcome run
                = Raise (OverflowError
                           "timestamp too large to convert to C _PyTime_t")
                /\ trace run
                   = [ev_get_all_values; st_warning (retry_warning e 0)]).
Proof.
  cbv zeta. split; [| split].
  - intros Hpos Hmax.
    destruct (safe_fetch_worksheet_shape ws r d Hpos Hmax)
      as (k & grid & Hk & Hrun).
    rewrite Hrun. unfold trace, outcome. cbn [fst snd].
    rewrite remote_calls_app, warnings_app, sleeps_app,
      remote_calls_failed_attempts, warnings_failed_attempts,
      sleeps_failed_attempts, length_seq.
    assert (Hlast : sleeps (if k <? Z.to_nat r then [ev_get_all_values]
                            else []) = [])
      by (destruct (k <? Z.to_nat r); reflexivity).
    assert (Hlastw : warnings (if k <? Z.to_nat r then [ev_get_all_values]
                               else []) = [])
      by (destruct (k <? Z.to_nat r); reflexivity).
    rewrite Hlast, Hlastw, !app_nil_r, !length_map, length_seq.
    split; [eauto |].
    destruct (Nat.ltb_spec k (Z.to_nat r)); cbn; repeat split; lia.
  - intros Hneg Hr e Hcall.
    unfold safe_fetch_worksheet, range.
    destruct (Z.to_nat r) as [| n] eqn:En; [lia |].
    cbn [seq safe_fetch_loop]. rewrite Hcall. unfold sleep.
    destruct (Z.ltb_spec d 0) as [_ | Hge]; [| lia].
    split; reflexivity.
  - intros Hlong Hr e Hcall.
    unfold safe_fetch_worksheet, range.
    destruct (Z.to_nat r) as [| n] eqn:En; [lia |].
    cbn [seq safe_fetch_loop]. rewrite Hcall. unfold sleep.
    destruct (Z.ltb_spec d 0) as [Hlt | _];
      [unfold sleep_max in Hlong; lia |].
    destruct (Z.ltb_spec sleep_max d) as [_ | Hle]; [| lia].
    split; reflexivity.
Qed.

Lemma safe_fetch_outcome_witness :
  outcome (safe_fetch_worksheet (worksheet_flaky 2 sample_listings) 5 2)
  = Ok sample_listings
  /\ outcome (safe_fetch_worksheet (worksheet_flaky 2 sample_listings) 5 (-1))
     = Raise (ValueError "sleep length must be non-negative")
  /\ outcome (safe_fetch_worksheet (worksheet_flaky 2 sample_listings) 5
                                   9223372037)
     = Raise (OverflowError "timestamp too large to convert to C _PyTime_t").
Proof.
  split; [| split].
  - destruct (safe_fetch_outcome (worksheet_flaky 2 sample_listings) 5 2)
      as [Hpos _].
    destruct (Hpos ltac:(lia) ltac:(vm_compute; discriminate))
      as ((grid & Hgrid) & _).
    rewrite Hgrid. vm_compute in Hgrid. exact (eq_sym Hgrid).
  - destruct (safe_fetch_outcome (worksheet_flaky 2 sample_listings) 5 (-1))
      as (_ & Hneg & _).
    exact (proj1 (Hneg ltac:(lia) ltac:(lia) quota_error eq_refl)).
  - destruct (safe_fetch_outcome (worksheet_flaky 2 sample_listings) 5
                                 9223372037)
      as (_ & _ & Hlong).
    exact (proj1 (Hlong ltac:(vm_compute; reflexivity) ltac:(lia)
                    quota_error eq_refl)).
Defined.

(** X3. With a delay that is not negative, a fetch sleeps at most
    [d (2^r - 1)] seconds in all: 62 seconds with the defaults. *)
Theorem safe_fetch_sleep_bound ws (r d : Z) :
  (0 <= d)%Z -> (0 <= r)%Z ->
  (0 <= total_sleep (trace (safe_fetch_worksheet ws r d))
   <= d * (2 ^ r - 1))%Z.
Proof.
  intros Hd Hr.
  destruct (safe_fetch_loop_sleeps ws d (Z.to_nat r) 0 d) as (k & Hk & Hrun);
    [simpl; ring |].
  unfold total_sleep, safe_fetch_worksheet, range.
  rewrite Hrun, geometric_sum.
  assert (H1 : (1 <= 2 ^ Z.of_nat k)%Z) by (apply Z.pow_le_mono_r with (b := 0%Z); lia).
  assert (H2 : (2 ^ Z.of_nat k <= 2 ^ r)%Z) by (apply Z.pow_le_mono_r; lia).
  split; [apply Z.mul_nonneg_nonneg; lia |].
  apply Z.mul_le_mono_nonneg_l; lia.
Qed.

Lemma safe_fetch_sleep_bound_witness :
  (0 <= total_sleep (trace (safe_fetch_worksheet
                              (worksheet_flaky 2 sample_listings)
                              default_retries default_delay))
   <= 62)%Z.
Proof.
  apply (safe_fetch_sleep_bound (worksheet_flaky 2 sample_listings)
           default_retries default_delay).
  - unfold default_delay. lia.
  - unfold default_retries. lia.
Defined.

(** ** A source that is down *)

Lemma build_report_down client sheet_url sheet wp wo wh
  (errp erro errh : nat -> exn) :
  open_by_url client sheet_url = Ok sheet ->
  worksheet sheet "PRODUCTS" = Ok wp ->
  worksheet sheet "ORDERS" = Ok wo ->
  worksheet sheet "HOURSWORKED" = Ok wh ->
  (forall i, i < 5 -> get_all_values wp i = Raise (errp i)) ->
  (forall i, i < 5 -> get_all_values wo i = Raise (erro i)) ->
  (forall i, i < 5 -> get_all_values wh i = Raise (errh i)) ->
  build_report client sheet_url
  = (flat_map (failed_attempt errp 2) (seq 0 5)
     ++ flat_map (failed_attempt erro 2) (seq 0 5)
     ++ flat_map (failed_attempt errh 2) (seq 0 5),
     Ok (title sheet, front_matter (title sheet) 0 0 0)).
Proof.
  intros Hopen Hp Ho Hh Hfp Hfo Hfh.
  assert (Hdown : forall ws err,
             (forall i, i < 5 -> get_all_values ws i = Raise (err i)) ->
             safe_fetch_worksheet ws default_retries default_delay
             = (flat_map (failed_attempt err 2) (seq 0 5), Ok [])).
  { intros ws err Hfail. unfold safe_fetch_worksheet, range.
    apply safe_fetch_loop_all_fail;
      [unfold default_delay; lia | | | reflexivity].
    - intros i Hi.
      apply (delay_fits default_delay default_retries i);
        [unfold default_delay; lia | vm_compute; discriminate |].
      simpl in Hi |- *. lia.
    - intros i Hi. apply Hfail. simpl in Hi. lia. }
  unfold build_report, fetch_products_data, fetch_orders_data,
    fetch_hours_data.
  rewrite Hopen. cbn [lift bind]. rewrite Hp, Ho, Hh. cbn [lift bind].
  rewrite (Hdown wp errp Hfp), (Hdown wo erro Hfo), (Hdown wh errh Hfh).
  reflexivity.
Qed.

(** X4. A source whose three worksheets fail at all five calls is not
    reported as an error: after 15 remote calls, 15 warnings and 186
    seconds of sleep the user is offered a report with the title, the
    three totals at 0 and no chart. *)
Theorem down_source_gets_empty_report client idx sheet_url sheet wp wo wh
  (errp erro errh : nat -> exn) :
  open_by_url client sheet_url = Ok sheet ->
  worksheet sheet "PRODUCTS" = Ok wp ->
  worksheet sheet "ORDERS" = Ok wo ->
  worksheet sheet "HOURSWORKED" = Ok wh ->
  (forall i, i < 5 -> get_all_values wp i = Raise (errp i)) ->
  (forall i, i < 5 -> get_all_values wo i = Raise (erro i)) ->
  (forall i, i < 5 -> get_all_values wh i = Raise (errh i)) ->
  let run := process_link client idx sheet_url in
  batch_results (trace run)
  = [Completed (title sheet ++ "_Report.docx")
               (front_matter (title sheet) 0 0 0)]
  /\ pictures (front_matter (title sheet) 0 0 0) = []
  /\ remote_calls (trace run) = 15
  /\ length (warnings (trace run)) = 15
  /\ total_sleep (trace run) = 186%Z.
Proof.
  intros Hopen Hp Ho Hh Hfp Hfo Hfh run.
  unfold run, process_link.
  rewrite (build_report_down client sheet_url sheet wp wo wh errp erro errh
             Hopen Hp Ho Hh Hfp Hfo Hfh).
  cbn [emit bind try_except trace fst snd app].
  unfold total_sleep.
  rewrite !app_comm_cons.
  repeat split.
Qed.

Lemma down_source_gets_empty_report_witness :
  batch_results
    (trace (process_link (client_of (sheet_down "Acme")) 0 "https://sheets/a"))
  = [Completed "Acme_Report.docx" (front_matter "Acme" 0 0 0)]
  /\ remote_calls
       (trace (process_link (client_of (sheet_down "Acme")) 0
                 "https://sheets/a")) = 15.
Proof.
  pose proof (down_source_gets_empty_report
                (client_of (sheet_down "Acme")) 0 "https://sheets/a"
                (sheet_down "Acme") worksheet_down worksheet_down
                worksheet_down (fun _ => quota_error) (fun _ => quota_error)
                (fun _ => quota_error)
                eq_refl eq_refl eq_refl eq_refl
                (fun _ _ => eq_refl) (fun _ _ => eq_refl)
                (fun _ _ => eq_refl)) as H.
  cbv zeta in H. destruct H as (Hres & _ & Hcalls & _).
  split; [exact Hres | exact Hcalls].
Defined.

(** ** The cleaned tables, cell by cell *)

Lemma frame_of_grid (raw_data : RawGrid) :
  1 < length raw_data ->
  list_max (map (@length string) (tl raw_data)) = length (hd [] raw_data) ->
  DataFrame_of_rows (tl raw_data) (hd [] raw_data)
  = Ok {| index_len := length raw_data - 1;
          columns :=
            map (fun jn : nat * string =>
                   (snd jn,
                    ObjCol (map (fun row => nth_error row (fst jn))
                                (tl raw_data))))
                (combine (seq 0 (length (hd [] raw_data))) (hd [] raw_data)) |}.
Proof.
  destruct raw_data as [| header [| row rows]]; cbn [length]; try lia.
  intros _ Hw. cbn [tl hd] in *. unfold DataFrame_of_rows.
  rewrite Hw, Nat.eqb_refl. reflexivity.
Qed.

Lemma filter_named_absent (data : list (list string)) key :
  forall cols n,
    count_name key cols = 0 ->
    filter (named key)
      (map (fun jn : nat * string =>
              (snd jn, ObjCol (map (fun row => nth_error row (fst jn)) data)))
           (combine (seq n (length cols)) cols)) = [].
Proof.
  unfold count_name, named.
  induction cols as [| name cols IH]; intros n; [reflexivity |].
  cbn [length seq combine map filter fst snd].
  rewrite (String.eqb_sym key name).
  destruct (String.eqb name key); [discriminate |]. apply IH.
Qed.

Lemma filter_named_present (data : list (list string)) key :
  forall cols n,
    count_name key cols = 1 ->
    filter (named key)
      (map (fun jn : nat * string =>
              (snd jn, ObjCol (map (fun row => nth_error row (fst jn)) data)))
           (combine (seq n (length cols)) cols))
    = [(key, ObjCol (map (fun row => nth_error row (n + column_index key cols))
                         data))].
Proof.
  induction cols as [| name cols IH]; intros n; [discriminate |].
  unfold count_name.
  cbn [length seq combine map filter fst snd column_index].
  unfold named at 1. cbn [fst].
  rewrite (String.eqb_sym key name).
  destruct (String.eqb_spec name key) as [E | Hne].
  - subst name. cbn [length]. intros H.
    rewrite filter_named_absent by (unfold count_name; lia).
    now rewrite Nat.add_0_r.
  - intros H. rewrite (IH (S n) H). now rewrite Nat.add_succ_r.
Qed.

Lemma getitem_list_exact df :
  forall keys,
    Forall (fun key => filter (named key) (columns df) <> []) keys ->
    getitem_list df keys
    = Ok {| index_len := index_len df;
            columns := flat_map (fun key => filter (named key) (columns df))
                                keys |}.
Proof.
  induction 1 as [| key keys Hkey _ IH]; [reflexivity |].
  cbn [getitem_list flat_map]. rewrite IH.
  destruct (filter (named key) (columns df)); [contradiction | reflexivity].
Qed.

Lemma text_cells_single df key name l :
  filter (named key) (columns df) = [(name, ObjCol l)] -> text_cells df key = l.
Proof. unfold text_cells. now intros ->. Qed.

(** The steps one after the other: each target ends as the one column
    its step computed from the cells of its source. *)
Lemma apply_steps_exact
  (plan : list (step * (list (option string) -> column))) :
  Forall (fun sg => cellwise (convert (fst sg)) (snd sg)) plan ->
  sources_fresh (map fst plan) = true ->
  targets_distinct (map fst plan) = true ->
  forall df,
    Forall (fun sg => exists name l,
                filter (named (source (fst sg))) (columns df)
                = [(name, ObjCol l)]) plan ->
    Forall (fun sg => length (filter (named (target (fst sg))) (columns df))
                      <= 1) plan ->
    exists df',
      apply_steps df (map fst plan) = Ok df'
      /\ index_len df' = index_len df
      /\ Forall (fun sg =>
                   filter (named (target (fst sg))) (columns df')
                   = [(target (fst sg),
                       snd sg (text_cells df (source (fst sg))))]) plan.
Proof.
  induction 1 as [| [st g] plan Hg _ IH]; intros Hfresh Hdist df Hsrc Htgt.
  - exists df. repeat split. constructor.
  - cbn [map fst snd] in *.
    inversion Hsrc as [| ? ? (name & l & Hl) Hsrc']; subst.
    inversion Htgt as [| ? ? Hone Htgt']; subst.
    cbn [fst snd] in *.
    cbn [apply_steps]. rewrite (Hg df (source st) name l Hl). cbn [rbind].
    assert (Hsame : forall sg, In sg plan ->
               filter (named (source (fst sg)))
                      (columns (setitem df (target st) (g l)))
               = filter (named (source (fst sg))) (columns df)).
    { intros sg Hin. apply filter_named_setitem_other.
      pose proof (sources_fresh_later st (map fst plan) (fst sg) Hfresh
                    (in_map fst _ _ Hin)) as Hne.
      exact Hne. }
    destruct (IH (sources_fresh_tail _ _ Hfresh)
                 (targets_distinct_tail _ _ Hdist)
                 (setitem df (target st) (g l))) as (df' & Hrun & Hlen & Hcols).
    { apply Forall_forall. intros sg Hin. rewrite (Hsame sg Hin).
      rewrite Forall_forall in Hsrc'. now apply Hsrc'. }
    { apply Forall_forall. intros sg Hin.
      rewrite filter_named_setitem_other.
      - rewrite Forall_forall in Htgt'. now apply Htgt'.
      - rewrite String.eqb_sym.
        exact (targets_distinct_later st (map fst plan) (fst sg) Hdist
                 (in_map fst _ _ Hin)). }
    exists df'. split; [exact Hrun |]. split.
    { now rewrite Hlen, setitem_index_len. }
    constructor; cbn [fst snd].
    + rewrite (apply_steps_filter_other (map fst plan) (target st) _ _ Hrun).
      * rewrite (text_cells_single _ _ _ _ Hl).
        now apply filter_named_setitem_same.
      * apply Forall_forall. intros later Hin.
        exact (targets_distinct_later st (map fst plan) later Hdist Hin).
    + apply Forall_forall. intros sg Hin.
      rewrite Forall_forall in Hcols. rewrite (Hcols sg Hin).
      unfold text_cells. now rewrite (Hsame sg Hin).
Qed.

Lemma clean_with_exact
  (plan : list (step * (list (option string) -> column)))
  (raw_data : RawGrid) :
  Forall (fun sg => cellwise (convert (fst sg)) (snd sg)) plan ->
  sources_fresh (map fst plan) = true ->
  targets_distinct (map fst plan) = true ->
  1 < length raw_data ->
  valid_grid (map source (map fst plan)) raw_data = true ->
  targets_free (map fst plan) raw_data = true ->
  clean_with (map fst plan) raw_data
  = Ok {| index_len := length raw_data - 1;
          columns :=
            map (fun sg => (target (fst sg),
                            snd sg (raw_column raw_data (source (fst sg)))))
                plan |}.
Proof.
  intros Hcell Hfresh Hdist Hrows Hvalid Hfree.
  unfold valid_grid in Hvalid. apply andb_true_iff in Hvalid.
  destruct Hvalid as [Hw Hsrc]. apply Nat.eqb_eq in Hw.
  rewrite forallb_forall in Hsrc.
  unfold targets_free in Hfree. rewrite forallb_forall in Hfree.
  unfold clean_with.
  replace (1 <? length raw_data) with true by (symmetry; now apply Nat.ltb_lt).
  pose proof (frame_of_grid raw_data Hrows Hw) as Hdf.
  rewrite Hdf. cbn [rbind].
  set (df := {| index_len := length raw_data - 1; columns := _ |}) in *.
  assert (Hread : forall key, In key (map source (map fst plan)) ->
             filter (named key) (columns df)
             = [(key, ObjCol (raw_column raw_data key))]).
  { intros key Hin. unfold df. cbn [columns].
    rewrite filter_named_present by (apply Nat.eqb_eq; now apply Hsrc).
    reflexivity. }
  destruct (apply_steps_exact plan Hcell Hfresh Hdist df)
    as (df' & Hrun & Hlen & Hcols).
  { apply Forall_forall. intros sg Hin.
    exists (source (fst sg)), (raw_column raw_data (source (fst sg))).
    apply Hread. now apply in_map, in_map. }
  { apply Forall_forall. intros sg Hin. rewrite length_filter_named.
    destruct (DataFrame_of_rows_ok _ _ _ Hdf) as (_ & Hnames & _ & _).
    unfold column_names in Hnames. rewrite Hnames.
    apply Nat.leb_le. apply Hfree. now apply in_map. }
  rewrite Hrun. cbn [rbind].
  rewrite Forall_forall in Hcols.
  rewrite getitem_list_exact.
  - rewrite Hlen. unfold df at 1. cbn [index_len]. do 2 f_equal.
    rewrite map_map, flat_map_concat_map, map_map.
    rewrite (map_ext_in _ (fun sg => [(target (fst sg),
                            snd sg (raw_column raw_data (source (fst sg))))])).
    + clear. induction plan as [| sg plan IH]; [reflexivity |].
      cbn [map concat app]. now rewrite IH.
    + intros sg Hin. rewrite (Hcols sg Hin).
      rewrite (text_cells_single _ _ _ _
                 (Hread _ (in_map source _ _ (in_map fst _ _ Hin)))).
      reflexivity.
  - apply Forall_forall. intros key Hin. apply in_map_iff in Hin.
    destruct Hin as (st & <- & Hin). apply in_map_iff in Hin.
    destruct Hin as (sg & <- & Hin). rewrite (Hcols sg Hin). discriminate.
Qed.

Lemma date_column_cellwise : cellwise date_column date_cells.
Proof.
  intros df key name l H. unfold date_column.
  now rewrite (getitem_single _ _ _ _ H).
Qed.

Lemma number_column_cellwise : cellwise number_column number_cells.
Proof.
  intros df key name l H. unfold number_column.
  now rewrite (getitem_single _ _ _ _ H).
Qed.

Lemma money_column_cellwise : cellwise money_column money_cells.
Proof.
  intros df key name l H. unfold money_column.
  rewrite (getitem_single _ _ _ _ H). cbn [rbind str_replace to_numeric].
  unfold money_cells, money_cell. now rewrite map_map.
Qed.

Lemma percent_column_cellwise : cellwise percent_column percent_cells.
Proof.
  intros df key name l H. unfold percent_column.
  rewrite (getitem_single _ _ _ _ H).
  cbn [rbind str_replace to_numeric truediv].
  unfold percent_cells, percent_cell. now rewrite !map_map.
Qed.

(** X5. On a grid with data rows whose header has each of the three
    source columns once and [Date Uploaded] at most once, and whose
    widest data row is as wide as the header, the listings table is
    exactly three columns in this order: the dates parsed from the cells
    under [Date Uploaded:], the prices from the cells under [eBay Price]
    and the rates from the cells under [Profit Per Product Present], row
    by row; every other column of the grid is dropped. *)
Theorem normalize_products_cells (raw_data : RawGrid) :
  1 < length raw_data ->
  valid_grid products_source_columns raw_data = true ->
  count_name "Date Uploaded" (hd [] raw_data) <= 1 ->
  normalize_products raw_data
  = Ok {| index_len := length raw_data - 1;
          columns :=
            [("Date Uploaded",
              DtCol (map datetime_cell (raw_column raw_data "Date Uploaded:")));
             ("eBay Price",
              NumCol (map money_cell (raw_column raw_data "eBay Price")));
             ("Profit Per Product Present",
              NumCol (map percent_cell
                          (raw_column raw_data "Profit Per Product Present")))]
       |}.
Proof.
  intros Hrows Hvalid Hdate. rewrite normalize_products_steps.
  apply (clean_with_exact
           (combine products_steps [date_cells; money_cells; percent_cells])
           raw_data); try reflexivity; try assumption.
  - repeat constructor; cbn [fst snd convert];
      auto using date_column_cellwise, money_column_cellwise,
        percent_column_cellwise.
  - pose proof Hvalid as Hv. unfold valid_grid in Hv.
    apply andb_true_iff in Hv. destruct Hv as [_ Hv].
    cbn [products_source_columns forallb] in Hv.
    apply andb_true_iff in Hv. destruct Hv as [_ Hv].
    apply andb_true_iff in Hv. destruct Hv as [Hprice Hv].
    apply andb_true_iff in Hv. destruct Hv as [Hrate _].
    apply Nat.eqb_eq in Hprice, Hrate.
    unfold targets_free. cbn [combine map fst forallb products_steps target].
    rewrite Hprice, Hrate. apply Nat.leb_le in Hdate. rewrite Hdate.
    reflexivity.
Qed.

(** X6. On a grid with data rows whose header has each of the five
    columns of the orders once, and whose widest data row is as wide as
    the header, the orders table is exactly these five columns in the
    order of the schema: the dates parsed from the cells under
    [Date Of Purchase] and the four amounts from the cells under their
    own names, row by row. *)
Theorem normalize_orders_cells (raw_data : RawGrid) :
  1 < length raw_data ->
  valid_grid orders_source_columns raw_data = true ->
  normalize_orders raw_data
  = Ok {| index_len := length raw_data - 1;
          columns :=
            [("Date Of Purchase",
              DtCol (map datetime_cell (raw_column raw_data "Date Of Purchase")));
             ("eBay Price",
              NumCol (map money_cell (raw_column raw_data "eBay Price")));
             ("Profit Per Sale USD",
              NumCol (map money_cell (raw_column raw_data "Profit Per Sale USD")));
             ("Total Sales",
              NumCol (map money_cell (raw_column raw_data "Total Sales")));
             ("Total Profits",
              NumCol (map money_cell (raw_column raw_data "Total Profits")))]
       |}.
Proof.
  intros Hrows Hvalid. rewrite normalize_orders_steps.
  apply (clean_with_exact
           (combine orders_steps
              [date_cells; money_cells; money_cells; money_cells; money_cells])
           raw_data); try reflexivity; try assumption.
  - repeat constructor; cbn [fst snd convert];
      auto using date_column_cellwise, money_column_cellwise.
  - unfold valid_grid in Hvalid.
    apply andb_true_iff in Hvalid. destruct Hvalid as [_ Hv].
    rewrite forallb_forall in Hv.
    unfold targets_free. apply forallb_forall. intros st Hin.
    assert (Hsrc : In (target st) orders_source_columns).
    { change orders_source_columns with (map target orders_steps).
      apply in_map. exact Hin. }
    specialize (Hv _ Hsrc). apply Nat.eqb_eq in Hv. now rewrite Hv.
Qed.

(** X7. On a grid with data rows whose header has [Date:] and [Hours:]
    once each and [Date] and [Hours] at most once each, and whose widest
    data row is as wide as the header, the hours table is exactly two
    columns: the dates parsed from the cells under [Date:] and the
    numbers parsed from the cells under [Hours:] as they stand, row by
    row. *)
Theorem normalize_hours_cells (raw_data : RawGrid) :
  1 < length raw_data ->
  valid_grid hours_source_columns raw_data = true ->
  count_name "Date" (hd [] raw_data) <= 1 ->
  count_name "Hours" (hd [] raw_data) <= 1 ->
  normalize_hours raw_data
  = Ok {| index_len := length raw_data - 1;
          columns :=
            [("Date", DtCol (map datetime_cell (raw_column raw_data "Date:")));
             ("Hours", NumCol (map numeric_cell (raw_column raw_data "Hours:")))]
       |}.
Proof.
  intros Hrows Hvalid Hdate Hhours. rewrite normalize_hours_steps.
  apply (clean_with_exact (combine hours_steps [date_cells; number_cells])
           raw_data); try reflexivity; try assumption.
  - repeat constructor; cbn [fst snd convert];
      auto using date_column_cellwise, number_column_cellwise.
  - unfold targets_free. cbn [combine map fst forallb hours_steps target].
    apply Nat.leb_le in Hdate, Hhours. now rewrite Hdate, Hhours.
Qed.

Lemma normalize_products_cells_witness :
  normalize_products sample_listings
  = Ok {| index_len := 3;
          columns :=
            [("Date Uploaded",
              DtCol [Some {| year := 2024; month := 3; day := 15 |}; None;
                     Some {| year := 2024; month := 4; day := 1 |}]);
             ("eBay Price", NumCol [Some (25 # 2); None; Some 7%Q]);
             ("Profit Per Product Present",
              NumCol [Some (9 # 20); None; None])] |}.
Proof.
  apply (normalize_products_cells sample_listings).
  - simpl. lia.
  - reflexivity.
  - vm_compute. lia.
Defined.

Lemma normalize_orders_cells_witness :
  normalize_orders sample_orders
  = Ok {| index_len := 3;
          columns :=
            [("Date Of Purchase",
              DtCol [Some {| year := 2024; month := 3; day := 2 |};
                     Some {| year := 2024; month := 3; day := 17 |};
                     Some {| year := 2024; month := 4; day := 5 |}]);
             ("eBay Price", NumCol [Some 20%Q; Some 10%Q; None]);
             ("Profit Per Sale USD",
              NumCol [Some (11 # 2); Some (5 # 2); Some 1%Q]);
             ("Total Sales", NumCol [Some 20%Q; Some 30%Q; Some 30%Q]);
             ("Total Profits", NumCol [Some (11 # 2); Some 8%Q; Some 9%Q])] |}.
Proof.
  apply (normalize_orders_cells sample_orders).
  - simpl. lia.
  - reflexivity.
Defined.

Lemma normalize_hours_cells_witness :
  normalize_hours sample_hours
  = Ok {| index_len := 3;
          columns :=
            [("Date",
              DtCol [Some {| year := 2024; month := 3; day := 1 |};
                     Some {| year := 2024; month := 3; day := 2 |}; None]);
             ("Hours", NumCol [Some (15 # 2); Some 8%Q; Some 3%Q])] |}.
Proof.
  apply (normalize_hours_cells sample_hours).
  - simpl. lia.
  - reflexivity.
  - vm_compute. lia.
  - vm_compute. lia.
Defined.

(** Decimal digits of another script in the three grids: the date
    format reads them, the numbers do not, so the date is there and the
    amount, the rate and the hours are missing. *)
Example foreign_digits_in_grids :
  normalize_products
    [["Date Uploaded:"; "eBay Price"; "Profit Per Product Present"];
     ["01/01/٢٠٢٤"; "٣5"; "4٥%"];
     ["1٥/03/2024"; "£1٣.5"; "45%"]]
  = Ok {| index_len := 2;
          columns :=
            [("Date Uploaded",
              DtCol [Some {| year := 2024; month := 1; day := 1 |};
                     Some {| year := 2024; month := 3; day := 15 |}]);
             ("eBay Price", NumCol [None; None]);
             ("Profit Per Product Present", NumCol [None; Some (9 # 20)])] |}
  /\ normalize_orders
       [["Date Of Purchase"; "eBay Price"; "Profit Per Sale USD";
         "Total Sales"; "Total Profits"];
        ["02/03/٢٠٢٤"; "$٢0"; "$5.50"; "20"; "5.5"]]
     = Ok {| index_len := 1;
             columns :=
               [("Date Of Purchase",
                 DtCol [Some {| year := 2024; month := 3; day := 2 |}]);
                ("eBay Price", NumCol [None]);
                ("Profit Per Sale USD", NumCol [Some (11 # 2)]);
                ("Total Sales", NumCol [Some 20%Q]);
                ("Total Profits", NumCol [Some (11 # 2)])] |}
  /\ normalize_hours [["Date:"; "Hours:"]; ["1٥/03/2024"; "٧"]]
     = Ok {| index_len := 1;
             columns :=
               [("Date", DtCol [Some {| year := 2024; month := 3; day := 15 |}]);
                ("Hours", NumCol [None])] |}.
Proof. repeat split. Qed.

(** ** Totals over the months *)

Lemma list_sum_cons (a : nat) (l : list nat) :
  list_sum (a :: l) = a + list_sum l.
Proof. reflexivity. Qed.

Lemma add_to_groups_total V (m : list V -> nat) (k : period) (v : V) :
  (forall a b, m (a ++ b) = m a + m b) ->
  forall gs, groups_total m (add_to_groups k v gs) = groups_total m gs + m [v].
Proof.
  intros Hadd. unfold groups_total.
  induction gs as [| [k0 vs] gs IH]; cbn [add_to_groups map snd].
  - cbn. lia.
  - destruct (k <? k0)%Z;
      [cbn [map snd]; rewrite !list_sum_cons; lia |].
    destruct (k =? k0)%Z; cbn [map snd]; rewrite !list_sum_cons.
    + rewrite Hadd. lia.
    + rewrite IH. lia.
Qed.

Lemma groupby_from_total V (m : list V -> nat) :
  (forall a b, m (a ++ b) = m a + m b) ->
  forall (rows : list (option period * V)) gs,
    groups_total m (groupby_from rows gs)
    = groups_total m gs
      + list_sum (map (fun row => m [snd row]) (filter dated rows)).
Proof.
  intros Hadd.
  induction rows as [| [[k |] v] rows IH]; intros gs;
    cbn [groupby_from filter dated fst map snd].
  - cbn. lia.
  - rewrite IH, (add_to_groups_total V m k v Hadd), list_sum_cons. lia.
  - apply IH.
Qed.

Lemma series_total_reduce V (m : list V -> nat) (gs : groups V) :
  (series_total (reduce (fun vs => Q_of_nat (m vs)) gs)
   == Q_of_nat (groups_total m gs))%Q.
Proof.
  unfold groups_total, reduce, Q_of_nat.
  induction gs as [| [k vs] gs IH]; [reflexivity |].
  cbn [map snd fst]. rewrite list_sum_cons.
  unfold series_total. cbn [fold_right snd].
  fold (series_total
          (map (fun g => (fst g, inject_Z (Z.of_nat (m (snd g))))) gs)).
  rewrite IH, Nat2Z.inj_add, inject_Z_plus. reflexivity.
Qed.

Lemma add_to_groups_nonempty V (k : period) (v : V) (gs : groups V) :
  Forall (fun g => snd g <> []) gs ->
  Forall (fun g => snd g <> []) (add_to_groups k v gs).
Proof.
  induction 1 as [| [k0 vs] gs Hg Hgs IH]; cbn [add_to_groups].
  - constructor; [discriminate | constructor].
  - cbn [snd] in Hg.
    destruct (k <? k0)%Z.
    { constructor; [discriminate |]. now constructor. }
    destruct (k =? k0)%Z; constructor; auto; cbn [snd].
    destruct vs; discriminate.
Qed.

Lemma groupby_from_nonempty V (rows : list (option period * V)) :
  forall gs, Forall (fun g => snd g <> []) gs ->
             Forall (fun g => snd g <> []) (groupby_from rows gs).
Proof.
  induction rows as [| [[k |] v] rows IH]; intros gs Hgs; cbn [groupby_from];
    auto using add_to_groups_nonempty.
Qed.

Lemma filter_dated_self (keys : list (option period)) :
  length (filter dated (combine keys keys)) = length (filter present keys).
Proof.
  induction keys as [| [k |] keys IH]; cbn; auto.
Qed.

Lemma list_sum_ones A (l : list A) : list_sum (map (fun _ => 1) l) = length l.
Proof. induction l as [| a l IH]; cbn; auto. Qed.

(** X8. The row counts of the months add up to the number of rows that
    have a date: every dated row is counted in one month and once, a row
    without a date in none; and every month of the series has at least
    one row. *)
Theorem groupby_size_total (keys : list (option period)) :
  (series_total (groupby_size keys)
   == Q_of_nat (length (filter present keys)))%Q
  /\ Forall (fun kv => (1 <= snd kv)%Q) (groupby_size keys).
Proof.
  unfold groupby_size, groupby. split.
  - rewrite series_total_reduce.
    rewrite (groupby_from_total _ (@length (option period)))
      by (intros a b; apply length_app).
    unfold groups_total at 1. cbn [map length].
    rewrite (list_sum_ones _ (filter dated (combine keys keys))).
    now rewrite filter_dated_self.
  - pose proof (groupby_from_nonempty _ (combine keys keys) [] (Forall_nil _))
      as Hne.
    unfold reduce. rewrite Forall_forall in *. intros kv Hin.
    apply in_map_iff in Hin. destruct Hin as (g & <- & Hin). cbn [snd].
    specialize (Hne g Hin). destruct (snd g) as [| v vs]; [contradiction |].
    unfold Q_of_nat, Qle. cbn [length Qnum Qden inject_Z]. lia.
Qed.

Lemma in_combine_key A B (a : A) :
  forall (l : list A) (l' : list B),
    length l = length l' ->
    ((exists b, In (a, b) (combine l l')) <-> In a l).
Proof.
  induction l as [| x l IH]; intros [| y l'] Hlen; try discriminate.
  - split; [intros [b []] | intros []].
  - cbn [combine In]. injection Hlen as Hlen. rewrite <- (IH l' Hlen). split.
    + intros [b [E | H]]; [left; congruence | right; eauto].
    + intros [-> | [b H]]; [exists y; now left | exists b; now right].
Qed.

Lemma groupby_months V (keys : list (option period)) (values : list V) :
  length keys = length values ->
  keys_of (groupby keys values) = keys_of (groupby keys keys).
Proof.
  intros Hlen. unfold groupby.
  apply strictly_sorted_unique;
    try (apply groupby_from_sorted; constructor).
  intros k. rewrite !groupby_from_keys.
  rewrite (in_combine_key _ _ (Some k) keys values Hlen).
  rewrite (in_combine_key _ _ (Some k) keys keys eq_refl).
  reflexivity.
Qed.

Lemma notna_length c : length (notna c) = column_len c.
Proof. destruct c; cbn; apply length_map. Qed.

Lemma count_true_app (a b : list bool) :
  count_true (a ++ b) = count_true a + count_true b.
Proof. unfold count_true. now rewrite filter_app, length_app. Qed.

Lemma list_sum_counted (rows : list (option period * bool)) :
  list_sum (map (fun row => count_true [snd row]) (filter dated rows))
  = length (filter counted rows).
Proof.
  induction rows as [| [[k |] b] rows IH]; [reflexivity | |].
  - change (filter dated ((Some k, b) :: rows))
      with ((Some k, b) :: filter dated rows).
    change (filter counted ((Some k, b) :: rows))
      with (if b then (Some k, b) :: filter counted rows
            else filter counted rows).
    cbn [map snd]. rewrite list_sum_cons, IH. destruct b; cbn; lia.
  - exact IH.
Qed.

(** X9. Counting the values of a column by month, when the frame has one
    column of that name: the counts of the months add up to the number
    of rows that have both a date and a value; no count is negative; and
    when the column is as long as the keys, the months are those of the
    row counts, a month none of whose rows has a value included. *)
Theorem groupby_count_total (keys : list (option period)) (df : DataFrame)
  (name : string) (c : column) :
  filter (named name) (columns df) = [(name, c)] ->
  exists sales,
    groupby_count keys df name = Ok sales
    /\ (series_total sales
        == Q_of_nat (length (filter counted (combine keys (notna c)))))%Q
    /\ Forall (fun kv => (0 <= snd kv)%Q) sales
    /\ (length keys = column_len c ->
        map fst sales = map fst (groupby_size keys)).
Proof.
  intros Hcol. unfold groupby_count. rewrite Hcol.
  eexists. split; [reflexivity |]. split; [| split].
  - rewrite series_total_reduce. unfold groupby.
    rewrite (groupby_from_total _ count_true count_true_app).
    unfold groups_total at 1. cbn [map].
    rewrite list_sum_counted. reflexivity.
  - unfold reduce. apply Forall_forall. intros kv Hin.
    apply in_map_iff in Hin. destruct Hin as (g & <- & _). cbn [snd].
    unfold Q_of_nat, Qle. cbn [Qnum Qden inject_Z]. lia.
  - intros Hlen. unfold groupby_size. rewrite !keys_of_reduce.
    apply groupby_months. now rewrite notna_length.
Qed.

Lemma groupby_count_total_witness :
  groupby_count [Some 650%Z; None; Some 650%Z; Some 651%Z]
    {| index_len := 4;
       columns := [("eBay Price",
                    NumCol [Some 20%Q; Some 5%Q; Some 10%Q; None])] |}
    "eBay Price"
  = Ok [(650%Z, 2%Q); (651%Z, 0%Q)].
Proof.
  destruct (groupby_count_total
              [Some 650%Z; None; Some 650%Z; Some 651%Z]
              {| index_len := 4;
                 columns := [("eBay Price",
                              NumCol [Some 20%Q; Some 5%Q; Some 10%Q; None])] |}
              "eBay Price" (NumCol [Some 20%Q; Some 5%Q; Some 10%Q; None])
              eq_refl) as (sales & Hrun & _).
  rewrite Hrun. f_equal.
  vm_compute in Hrun. now injection Hrun as <-.
Defined.

(** ** The report of cleaned tables *)

Lemma groups_nil_iff V (keys : list (option period)) (values : list V) :
  length keys = length values ->
  (groupby keys values = [] <-> Forall (fun key => key = None) keys).
Proof.
  intros Hlen.
  assert (Hin : forall k, In k (keys_of (groupby keys values))
                          <-> In (Some k) keys).
  { intros k. unfold groupby. rewrite groupby_from_keys.
    rewrite (in_combine_key _ _ (Some k) keys values Hlen).
    cbn. tauto. }
  split.
  - intros Hnil. apply Forall_forall. intros [k |] Hk; [| reflexivity].
    apply Hin in Hk. rewrite Hnil in Hk. destruct Hk.
  - intros Hall. rewrite Forall_forall in Hall.
    destruct (groupby keys values) as [| [k vs] gs]; [reflexivity |].
    assert (Hk : In (Some k) keys) by (apply Hin; now left).
    specialize (Hall _ Hk). discriminate.
Qed.

Lemma create_graph_absent V (f : list V -> Q) (dates : list (option date))
  (values : list V) (title x_label y_label : string) (kind : graph_type) :
  length dates = length values ->
  (create_graph (reduce f (groupby (map (option_map to_period_M) dates) values))
                title x_label y_label kind = None
   <-> Forall (fun d => d = None) dates).
Proof.
  intros Hlen.
  assert (Hkeys : Forall (fun key => key = None)
                         (map (option_map to_period_M) dates)
                  <-> Forall (fun d => d = None) dates).
  { rewrite !Forall_forall. split.
    - intros H d Hd. specialize (H _ (in_map _ _ _ Hd)).
      destruct d; [discriminate | reflexivity].
    - intros H key Hk. apply in_map_iff in Hk. destruct Hk as (d & <- & Hd).
      now rewrite (H d Hd). }
  rewrite <- Hkeys, <- (groups_nil_iff V _ values)
    by (now rewrite length_map).
  destruct (groupby (map (option_map to_period_M) dates) values) as [| g gs].
  - cbn. tauto.
  - cbn. split; discriminate.
Qed.

(** X10. The report of three tables as the cleaners return them, each
    with a row at least: it is always produced; its totals are the sums
    of the values that are there under [Total Sales], [Total Profits]
    and [Hours], over all the rows, dated or not; and the chart of the
    listings is left out exactly when no listing has a date, the two
    charts of the orders exactly when no order has one, the chart of the
    hours exactly when no row of the hours has one. *)
Theorem generate_report_on_tables (client_name : string) (np no nh : nat)
  (dates : list (option date)) (prices rates : list (option Q))
  (odates : list (option date))
  (oprices oprofit osales oprofits : list (option Q))
  (hdates : list (option date)) (hvals : list (option Q)) :
  0 < np -> 0 < no -> 0 < nh ->
  length odates = length oprices ->
  length odates = length oprofit ->
  length hdates = length hvals ->
  exists g1 g2 g3 g4 : option chart,
    generate_report client_name
      {| index_len := np;
         columns := [("Date Uploaded", DtCol dates);
                     ("eBay Price", NumCol prices);
                     ("Profit Per Product Present", NumCol rates)] |}
      {| index_len := no;
         columns := [("Date Of Purchase", DtCol odates);
                     ("eBay Price", NumCol oprices);
                     ("Profit Per Sale USD", NumCol oprofit);
                     ("Total Sales", NumCol osales);
                     ("Total Profits", NumCol oprofits)] |}
      {| index_len := nh;
         columns := [("Date", DtCol hdates); ("Hours", NumCol hvals)] |}
    = Ok (front_matter client_name (sum_present osales)
            (sum_present oprofits) (sum_present hvals)
          ++ shown g1 ++ shown g2 ++ shown g3 ++ shown g4)
    /\ (g1 = None <-> Forall (fun d => d = None) dates)
    /\ (g2 = None <-> Forall (fun d => d = None) odates)
    /\ (g3 = None <-> Forall (fun d => d = None) odates)
    /\ (g4 = None <-> Forall (fun d => d = None) hdates).
Proof.
  intros Hp Ho Hh Hprices Hprofit Hhours.
  unfold generate_report, total_of, contains, column_names, df_empty.
  cbn [columns index_len map fst existsb String.eqb Ascii.eqb Bool.eqb orb
       andb length Nat.eqb].
  replace (np =? 0) with false by (symmetry; apply Nat.eqb_neq; lia).
  replace (no =? 0) with false by (symmetry; apply Nat.eqb_neq; lia).
  replace (nh =? 0) with false by (symmetry; apply Nat.eqb_neq; lia).
  cbn [orb negb].
  unfold products_chart, sales_chart, profit_chart, hours_chart, month_keys,
    getitem, groupby_count, groupby_sum, named.
  cbn [columns filter fst String.eqb Ascii.eqb Bool.eqb andb rbind series_sum
       dt_to_period_M].
  rewrite !add_picture_shown, <- !app_assoc.
  do 4 eexists. split; [reflexivity |].
  unfold groupby_size. repeat split.
  all: try (apply create_graph_absent; rewrite ?length_map; cbn [notna];
            rewrite ?length_map; auto; fail).
  all: try (apply (create_graph_absent _ _ dates); rewrite ?length_map; auto).
Qed.

Lemma generate_report_on_tables_witness :
  exists doc,
    generate_report "Acme" sample_products sample_orders_table
      sample_hours_table = Ok doc
    /\ length (pictures doc) = 4.
Proof.
  destruct (generate_report_on_tables "Acme" 3 3 3
              [Some {| year := 2024; month := 3; day := 15 |}; None;
               Some {| year := 2024; month := 4; day := 1 |}]
              [Some (25 # 2); None; Some 7%Q] [Some (9 # 20); None; None]
              [Some {| year := 2024; month := 3; day := 2 |};
               Some {| year := 2024; month := 3; day := 17 |};
               Some {| year := 2024; month := 4; day := 5 |}]
              [Some 20%Q; Some 10%Q; None]
              [Some (11 # 2); Some (5 # 2); Some 1%Q]
              [Some 20%Q; Some 30%Q; Some 30%Q]
              [Some (11 # 2); Some 8%Q; Some 9%Q]
              [Some {| year := 2024; month := 3; day := 1 |};
               Some {| year := 2024; month := 3; day := 2 |}; None]
              [Some (15 # 2); Some 8%Q; Some 3%Q])
    as (g1 & g2 & g3 & g4 & Hrun & H1 & H2 & H3 & H4); try (simpl; lia).
  eexists. split; [exact Hrun |].
  assert (Hsome : forall (g : option chart) (l : list (option date)) d,
             (g = None <-> Forall (fun d => d = None) l) -> In (Some d) l ->
             length (shown g) = 1).
  { intros g l d Hiff Hin. destruct g; [reflexivity |].
    pose proof (proj1 Hiff eq_refl) as Hall. rewrite Forall_forall in Hall.
    specialize (Hall _ Hin). discriminate. }
  rewrite !pictures_app, !pictures_shown, !length_app.
  assert (Hlen : forall g : option chart,
             length (match g with Some c => [c] | None => [] end)
             = length (shown g)) by (intros [g |]; reflexivity).
  rewrite !Hlen.
  rewrite (Hsome g1 _ _ H1 (or_introl eq_refl)),
    (Hsome g2 _ _ H2 (or_introl eq_refl)),
    (Hsome g3 _ _ H3 (or_introl eq_refl)),
    (Hsome g4 _ _ H4 (or_introl eq_refl)).
  reflexivity.
Defined.

(** ** The links pasted in the text area *)

Lemma list_ascii_app (a b : string) :
  list_ascii_of_string (a ++ b)%string
  = list_ascii_of_string a ++ list_ascii_of_string b.
Proof. induction a as [| c a IH]; cbn; [reflexivity | now rewrite IH]. Qed.

Lemma string_of_list_app (a b : list ascii) :
  string_of_list_ascii (a ++ b)
  = (string_of_list_ascii a ++ string_of_list_ascii b)%string.
Proof. induction a as [| c a IH]; cbn; [reflexivity | now rewrite IH]. Qed.

Lemma rev_string_involutive s : rev_string (rev_string s) = s.
Proof.
  unfold rev_string.
  now rewrite list_ascii_of_string_of_list_ascii, rev_involutive,
    string_of_list_ascii_of_string.
Qed.

Lemma rev_string_app a b :
  rev_string (a ++ b)%string = (rev_string b ++ rev_string a)%string.
Proof.
  unfold rev_string. now rewrite list_ascii_app, rev_app_distr, string_of_list_app.
Qed.

Lemma no_newline_app a b :
  no_newline (a ++ b)%string = no_newline a && no_newline b.
Proof. unfold no_newline. now rewrite list_ascii_app, forallb_app. Qed.

Lemma no_newline_rev s : no_newline (rev_string s) = no_newline s.
Proof.
  unfold no_newline, rev_string. rewrite list_ascii_of_string_of_list_ascii.
  induction (list_ascii_of_string s) as [| c l IH]; [reflexivity |].
  cbn [rev forallb]. rewrite forallb_app, IH. cbn [forallb].
  rewrite andb_true_r. apply andb_comm.
Qed.

Lemma drop_prefix_app p s r : drop_prefix p s = Some r -> s = (p ++ r)%string.
Proof.
  revert s. induction p as [| a p IH]; intros s; cbn [drop_prefix].
  - intros H. now injection H as ->.
  - destruct s as [| b s]; [discriminate |].
    destruct (Ascii.eqb_spec a b) as [-> | _]; [| discriminate].
    intros H. cbn. f_equal. now apply IH.
Qed.

Lemma drop_prefix_longer p s r q :
  drop_prefix p s = Some r ->
  drop_prefix p (s ++ q)%string = Some (r ++ q)%string.
Proof.
  revert s. induction p as [| a p IH]; intros s; cbn [drop_prefix].
  - intros H. now injection H as ->.
  - destruct s as [| b s]; [discriminate |]. cbn [append].
    destruct (Ascii.eqb a b); [apply IH | discriminate].
Qed.

Lemma drop_space_some spaces s r :
  drop_space spaces s = Some r ->
  exists ws, In ws spaces /\ drop_prefix ws s = Some r.
Proof.
  unfold drop_space. induction spaces as [| ws spaces IH]; [discriminate |].
  cbn [first_match]. destruct (drop_prefix ws s) as [r' |] eqn:E.
  - intros H. injection H as ->. exists ws. split; [now left | exact E].
  - intros H. destruct (IH H) as (ws' & Hin & Hd). exists ws'.
    split; [now right | exact Hd].
Qed.

Lemma drop_space_none spaces s ws :
  drop_space spaces s = None -> In ws spaces -> drop_prefix ws s = None.
Proof.
  unfold drop_space. induction spaces as [| ws' spaces IH]; [intros _ []|].
  cbn [first_match]. destruct (drop_prefix ws' s) as [r |] eqn:E;
    [discriminate |].
  intros H [-> | Hin]; [exact E | now apply IH].
Qed.

(** What is stripped is at the start, and nothing strippable is left. *)
Lemma lstrip_fuel_suffix spaces :
  forall fuel s, exists p, s = (p ++ lstrip_fuel spaces fuel s)%string.
Proof.
  induction fuel as [| fuel IH]; intros s; cbn [lstrip_fuel];
    [now exists "" |].
  destruct (drop_space spaces s) as [r |] eqn:E; [| now exists ""].
  destruct (drop_space_some _ _ _ E) as (ws & _ & Hd).
  apply drop_prefix_app in Hd. destruct (IH r) as [p Hp].
  exists (ws ++ p)%string. rewrite Hd at 1. rewrite Hp at 1.
  clear. induction ws as [| c ws IHw]; cbn; [reflexivity | now rewrite IHw].
Qed.

Lemma lstrip_fuel_done spaces :
  Forall (fun ws => ws <> "") spaces ->
  forall fuel s, String.length s <= fuel ->
                 drop_space spaces (lstrip_fuel spaces fuel s) = None.
Proof.
  intros Hne. induction fuel as [| fuel IH]; intros s Hlen;
    cbn [lstrip_fuel].
  - destruct s; [| cbn in Hlen; lia].
    unfold drop_space. clear Hlen.
    induction Hne as [| ws spaces Hws _ IHs]; [reflexivity |].
    cbn [first_match]. destruct ws; [contradiction | exact IHs].
  - destruct (drop_space spaces s) as [r |] eqn:E; [| exact E].
    apply IH. destruct (drop_space_some _ _ _ E) as (ws & Hin & Hd).
    rewrite Forall_forall in Hne. specialize (Hne _ Hin).
    apply drop_prefix_app in Hd. subst s.
    destruct ws as [| c ws]; [contradiction |].
    cbn [append String.length] in Hlen.
    assert (Happ : forall a b, String.length (a ++ b)%string
                               = String.length a + String.length b).
    { clear. induction a as [| c a IHa]; intros b; cbn; auto. }
    rewrite Happ in Hlen. lia.
Qed.

Lemma lstrip_fuel_fixed spaces fuel s :
  drop_space spaces s = None -> lstrip_fuel spaces fuel s = s.
Proof. destruct fuel; cbn [lstrip_fuel]; [reflexivity | now intros ->]. Qed.

Lemma whitespace_nonempty : Forall (fun ws => ws <> "") whitespace.
Proof. unfold whitespace. repeat constructor; discriminate. Qed.

Lemma whitespace_rev_nonempty :
  Forall (fun ws => ws <> "") (map rev_string whitespace).
Proof. unfold whitespace. repeat constructor; discriminate. Qed.

Lemma lstrip_suffix s : exists p, s = (p ++ lstrip s)%string.
Proof. apply lstrip_fuel_suffix. Qed.

Lemma rstrip_prefix s : exists q, s = (rstrip s ++ q)%string.
Proof.
  unfold rstrip, lstrip_with.
  destruct (lstrip_fuel_suffix (map rev_string whitespace)
              (String.length (rev_string s)) (rev_string s)) as [p Hp].
  exists (rev_string p).
  rewrite <- rev_string_app, <- Hp. symmetry. apply rev_string_involutive.
Qed.

Lemma lstrip_done s : starts_with_space (lstrip s) = false.
Proof.
  unfold starts_with_space, lstrip, lstrip_with.
  now rewrite (lstrip_fuel_done _ whitespace_nonempty).
Qed.

Lemma rstrip_done s : ends_with_space (rstrip s) = false.
Proof.
  unfold ends_with_space, rstrip, lstrip_with.
  rewrite rev_string_involutive.
  now rewrite (lstrip_fuel_done _ whitespace_rev_nonempty).
Qed.

Lemma present_none A (v : option A) : present v = false <-> v = None.
Proof. destruct v; cbn; split; congruence. Qed.

Lemma rstrip_keeps_start s :
  starts_with_space s = false -> starts_with_space (rstrip s) = false.
Proof.
  unfold starts_with_space. rewrite !present_none. intros Hs.
  destruct (drop_space whitespace (rstrip s)) as [r |] eqn:E; [| reflexivity].
  exfalso. destruct (drop_space_some _ _ _ E) as (ws & Hin & Hd).
  destruct (rstrip_prefix s) as [q Hq].
  pose proof (drop_prefix_longer _ _ _ q Hd) as Hd'. rewrite <- Hq in Hd'.
  rewrite (drop_space_none _ _ _ Hs Hin) in Hd'. discriminate.
Qed.

Lemma strip_no_newline s : no_newline s = true -> no_newline (strip s) = true.
Proof.
  intros Hs. unfold strip.
  destruct (lstrip_suffix s) as [p Hp]. rewrite Hp, no_newline_app in Hs.
  apply andb_true_iff in Hs. destruct Hs as [_ Hs].
  destruct (rstrip_prefix (lstrip s)) as [q Hq].
  rewrite Hq, no_newline_app in Hs. apply andb_true_iff in Hs. tauto.
Qed.

Lemma strip_clean s : clean_link s = true -> strip s = s.
Proof.
  unfold clean_link, starts_with_space, ends_with_space. intros H.
  apply andb_true_iff in H. destruct H as [H He].
  apply andb_true_iff in H. destruct H as [H Hs].
  apply negb_true_iff, present_none in He, Hs.
  unfold strip, rstrip, lstrip, lstrip_with.
  rewrite (lstrip_fuel_fixed _ _ _ Hs), (lstrip_fuel_fixed _ _ _ He).
  apply rev_string_involutive.
Qed.

Lemma split_newline_lines s :
  Forall (fun line => no_newline line = true) (split_lines s).
Proof.
  unfold split_lines. induction s as [| c s IH]; cbn [split_newline].
  - repeat constructor.
  - destruct (split_newline s) as [line lines].
    inversion IH as [| ? ? Hline Hlines]; subst.
    destruct (Ascii.eqb c newline) eqn:E.
    + constructor; [reflexivity | now constructor].
    + constructor; [| exact Hlines].
      unfold no_newline in *. cbn [list_ascii_of_string forallb].
      now rewrite E, Hline.
Qed.

Lemma split_newline_line s :
  no_newline s = true -> split_newline s = (s, []).
Proof.
  unfold no_newline. induction s as [| c s IH];
    cbn [split_newline list_ascii_of_string forallb]; [reflexivity |].
  intros H. apply andb_true_iff in H. destruct H as [Hc Hs].
  rewrite (IH Hs). apply negb_true_iff in Hc. now rewrite Hc.
Qed.

Lemma split_newline_app s rest :
  no_newline s = true ->
  split_newline (s ++ String newline rest)%string
  = (s, fst (split_newline rest) :: snd (split_newline rest)).
Proof.
  unfold no_newline. induction s as [| c s IH];
    cbn [append split_newline list_ascii_of_string forallb].
  - intros _. destruct (split_newline rest). now rewrite Ascii.eqb_refl.
  - intros H. apply andb_true_iff in H. destruct H as [Hc Hs].
    rewrite (IH Hs). apply negb_true_iff in Hc. now rewrite Hc.
Qed.

Lemma split_lines_concat (lines : list string) :
  lines <> [] ->
  Forall (fun line => no_newline line = true) lines ->
  split_lines (String.concat (String newline "") lines) = lines.
Proof.
  unfold split_lines.
  induction lines as [| line lines IH]; [contradiction |].
  intros _ Hall. inversion Hall as [| ? ? Hline Hlines]; subst.
  destruct lines as [| line' lines].
  - cbn [String.concat]. now rewrite (split_newline_line _ Hline).
  - change (String.concat (String newline "") (line :: line' :: lines))
      with (line ++ String newline
                      (String.concat (String newline "") (line' :: lines)))%string.
    rewrite (split_newline_app _ _ Hline).
    specialize (IH ltac:(discriminate) Hlines).
    destruct (split_newline (String.concat (String newline "") (line' :: lines)))
      as [l ls].
    cbn [fst snd]. now rewrite IH.
Qed.

(** X11. Every link the loop is given is non-empty, lies on one line and
    has no whitespace at its start or at its end; and there are no more
    links than lines in the text. *)
Theorem sheet_links_clean (sheet_links_input : string) :
  forallb clean_link (sheet_links_of sheet_links_input) = true
  /\ length (sheet_links_of sheet_links_input)
     <= length (split_lines sheet_links_input).
Proof.
  unfold sheet_links_of. split.
  - pose proof (split_newline_lines sheet_links_input) as Hlines.
    induction Hlines as [| line lines Hline _ IH]; [reflexivity |].
    cbn [filter].
    destruct (String.eqb (strip line) "") eqn:E; cbn [negb]; [exact IH |].
    cbn [map forallb]. rewrite IH, andb_true_r.
    unfold clean_link. rewrite E, (strip_no_newline _ Hline). cbn [negb andb].
    unfold strip at 1 2.
    rewrite (rstrip_keeps_start _ (lstrip_done line)), rstrip_done.
    reflexivity.
  - rewrite length_map. apply filter_length_le.
Qed.

(** X12. Links that are clean, pasted one per line, are the links of the
    loop, unchanged and in their order. *)
Theorem sheet_links_of_lines (links : list string) :
  forallb clean_link links = true ->
  sheet_links_of (String.concat (String newline "") links) = links.
Proof.
  intros Hclean. unfold sheet_links_of.
  destruct links as [| link links]; [reflexivity |].
  rewrite split_lines_concat; [| discriminate |].
  - rewrite forallb_forall in Hclean.
    assert (Hkeep : filter (fun l => negb (String.eqb (strip l) ""))
                           (link :: links) = link :: links).
    { apply forallb_filter_id. apply forallb_forall. intros l Hl.
      specialize (Hclean l Hl). rewrite (strip_clean _ Hclean).
      unfold clean_link in Hclean.
      apply andb_true_iff in Hclean. destruct Hclean as [Hc _].
      apply andb_true_iff in Hc. destruct Hc as [Hc _].
      apply andb_true_iff in Hc. tauto. }
    rewrite Hkeep. rewrite <- (map_id (link :: links)) at 2.
    apply map_ext_in. intros l Hl. apply strip_clean. now apply Hclean.
  - rewrite forallb_forall in Hclean. apply Forall_forall. intros l Hl.
    specialize (Hclean l Hl). unfold clean_link in Hclean.
    apply andb_true_iff in Hclean. destruct Hclean as [Hc _].
    apply andb_true_iff in Hc. destruct Hc as [Hc _].
    apply andb_true_iff in Hc. tauto.
Qed.

Lemma sheet_links_of_lines_witness :
  sheet_links_of
    (String.concat (String newline "") ["https://sheets/a"; "https://sheets/b"])
  = ["https://sheets/a"; "https://sheets/b"].
Proof.
  apply (sheet_links_of_lines ["https://sheets/a"; "https://sheets/b"]).
  vm_compute. reflexivity.
Defined.

(** ** The page *)

Lemma page_log_app (t1 t2 : list page_event) :
  page_log (t1 ++ t2) = page_log t1 ++ page_log t2.
Proof. unfold page_log. apply flat_map_app. Qed.

Lemma page_log_logged (t : list event) : page_log (map logged t) = t.
Proof.
  unfold page_log. induction t as [| e t IH]; [reflexivity |].
  cbn [map flat_map app]. now rewrite IH.
Qed.

Lemma client_of_env_ok env client :
  client_of_env env = Some (Ok client) ->
  path_exists env credentials_path = true
  /\ exists creds,
      from_json_keyfile_name env credentials_path scope = Ok creds
      /\ authorize env creds = Ok client.
Proof.
  unfold client_of_env.
  destruct (path_exists env credentials_path); [| discriminate].
  destruct (from_json_keyfile_name env credentials_path scope) as [creds |];
    cbn [rbind]; [| discriminate].
  intros H. injection H as H. eauto.
Qed.

(** X13. A run that gets its client shows the title and the two widgets
    and never the message of the outer handler, whatever the links and
    the worksheets do. When the button is pressed it shows one result
    for each line of the text that is not blank, in the order of the
    lines, each the result of the link of that line stripped; when the
    button is not pressed it calls no worksheet and shows no result. *)
Theorem main_script_reports (env : Environment) (client : Client) :
  client_of_env env = Some (Ok client) ->
  let links := sheet_links_of (text_area env) in
  main_script env
  = st_title "Client Report Generator"
    :: widgets
    ++ (if button env
        then map logged (trace (generate_reports client links))
        else [])
  /\ batch_results (page_log (main_script env))
     = (if button env then map (source_result client) links else [])
  /\ length (batch_results (page_log (main_script env)))
     <= length (split_lines (text_area env))
  /\ (button env = false -> remote_calls (page_log (main_script env)) = 0).
Proof.
  intros Hclient links.
  destruct (client_of_env_ok _ _ Hclient) as (Hpath & creds & Hcreds & Hauth).
  destruct (generate_reports_results client links) as [Hout Hres].
  assert (Hpage : main_script env
                  = st_title "Client Report Generator"
                    :: widgets
                    ++ (if button env
                        then map logged (trace (generate_reports client links))
                        else [])).
  { unfold main_script, app_body. rewrite Hpath, Hcreds, Hauth. cbn [negb].
    fold links. destruct (button env).
    - cbv zeta. rewrite Hout. reflexivity.
    - now rewrite app_nil_r. }
  assert (Hshown : batch_results (page_log (main_script env))
                   = (if button env then map (source_result client) links
                      else [])).
  { rewrite Hpage.
    change (st_title "Client Report Generator" :: widgets ++ ?t)
      with ((st_title "Client Report Generator" :: widgets) ++ t).
    rewrite page_log_app. cbn [page_log widgets flat_map app].
    fold (page_log (if button env
                    then map logged (trace (generate_reports client links))
                    else [])).
    destruct (button env); [| reflexivity].
    now rewrite page_log_logged. }
  split; [exact Hpage |]. split; [exact Hshown |]. split.
  - rewrite Hshown. destruct (button env); [| cbn; lia].
    rewrite length_map. unfold links, sheet_links_of. rewrite length_map.
    apply filter_length_le.
  - intros Hb. rewrite Hpage, Hb. reflexivity.
Qed.

Lemma main_script_reports_witness :
  batch_results
    (page_log (main_script
                 (sample_env sample_client
                    (String.concat (String newline "") sample_links) true)))
  = map (source_result sample_client) sample_links.
Proof.
  destruct (main_script_reports
              (sample_env sample_client
                 (String.concat (String newline "") sample_links) true)
              sample_client eq_refl) as (_ & Hshown & _).
  exact Hshown.
Defined.

(** X14. A run that gets no client shows the title and one error and
    nothing else: no widget, no result, no call of a worksheet. The
    error is the message of the missing key file when the file is not
    there, whatever the library calls would do; otherwise it is the
    message of the outer handler with the text of the exception that
    reading the key file or authorizing raised. *)
Theorem main_script_without_client (env : Environment) :
  (forall client, client_of_env env <> Some (Ok client)) ->
  main_script env
  = [st_title "Client Report Generator";
     logged (st_error (failure_message env))]
  /\ (path_exists env credentials_path = false ->
      failure_message env = "The `credentials.json` file is missing.")
  /\ (forall e,
         client_of_env env = Some (Raise e) ->
         failure_message env = ("An error occurred: " ++ exn_str e)%string)
  /\ remote_calls (page_log (main_script env)) = 0.
Proof.
  intros Hnone.
  assert (Hpage : main_script env
                  = [st_title "Client Report Generator";
                     logged (st_error (failure_message env))]).
  { unfold main_script, app_body, failure_message.
    unfold client_of_env in *.
    destruct (path_exists env credentials_path); cbn [negb]; [| reflexivity].
    destruct (from_json_keyfile_name env credentials_path scope)
      as [creds | e]; cbn [rbind] in *; [| reflexivity].
    destruct (authorize env creds) as [client | e]; [| reflexivity].
    exfalso. now apply (Hnone client). }
  split; [exact Hpage |]. split; [| split].
  - intros Hpath. unfold failure_message, client_of_env. now rewrite Hpath.
  - intros e He. unfold failure_message. now rewrite He.
  - rewrite Hpage. reflexivity.
Qed.

Lemma main_script_without_client_witness :
  main_script sample_env_bad_key
  = [st_title "Client Report Generator";
     logged (st_error "An error occurred: Unexpected credentials type")].
Proof.
  destruct (main_script_without_client sample_env_bad_key) as (Hpage & _).
  - intros client. discriminate.
  - exact Hpage.
Defined.

(** ** What is read of a money cell *)

Lemma take_sign_other c s :
  c <> "-"%char -> c <> "+"%char -> take_sign (String c s) = (false, String c s).
Proof.
  intros Hm Hp.
  destruct c as [[|] [|] [|] [|] [|] [|] [|] [|]]; try reflexivity;
    exfalso; (now apply Hm) || (now apply Hp).
Qed.

Lemma digit_not_space c : is_digit c = true -> is_space c = false.
Proof.
  unfold is_digit, is_space. intros H. apply andb_true_iff in H.
  destruct H as [H1 H2]. apply Nat.leb_le in H1, H2.
  apply orb_false_iff. split.
  - apply Nat.eqb_neq. lia.
  - apply andb_false_iff. right. apply Nat.leb_gt. lia.
Qed.

Lemma digit_not_sign c :
  is_digit c = true -> c <> "-"%char /\ c <> "+"%char /\ c <> "."%char.
Proof.
  unfold is_digit. intros H. apply andb_true_iff in H.
  destruct H as [H1 H2]. apply Nat.leb_le in H1, H2.
  repeat split; intros ->; cbn in H1, H2; lia.
Qed.

(** A text of digits and decimal points. *)
Lemma plain_cases c :
  is_digit c || Ascii.eqb c "." = true ->
  (is_digit c = true /\ Ascii.eqb c "." = false)
  \/ (is_digit c = false /\ c = "."%char).
Proof.
  destruct (is_digit c) eqn:Hd; cbn [orb].
  - intros _. left. split; [reflexivity |]. apply Ascii.eqb_neq.
    now apply digit_not_sign.
  - intros H. right. split; [reflexivity |]. now apply Ascii.eqb_eq.
Qed.

Lemma take_digits_plain (k : string) :
  forallb (fun c => is_digit c || Ascii.eqb c ".") (list_ascii_of_string k)
  = true ->
  digits_of_text k = fst (take_digits k) ++ digits_of_text (snd (take_digits k))
  /\ count_dots k = count_dots (snd (take_digits k))
  /\ after_dot k = after_dot (snd (take_digits k))
  /\ (snd (take_digits k) = ""
      \/ exists r, snd (take_digits k) = String "." r
                   /\ forallb (fun c => is_digit c || Ascii.eqb c ".")
                              (list_ascii_of_string r) = true).
Proof.
  unfold digits_of_text, count_dots.
  induction k as [| c k IH]; cbn [list_ascii_of_string forallb take_digits].
  - intros _. cbn. auto.
  - intros H. apply andb_true_iff in H. destruct H as [Hc Hk].
    destruct (plain_cases c Hc) as [[Hd Hdot] | [Hd ->]].
    + rewrite Hd. destruct (IH Hk) as (H1 & H2 & H3 & H4).
      destruct (take_digits k) as [ds rest]. cbn [fst snd] in *.
      cbn [filter after_dot]. rewrite Hd, Hdot, (Ascii.eqb_sym "." c), Hdot.
      rewrite H1. auto.
    + cbn [is_digit]. change (is_digit ".") with false. cbn [fst snd app].
      repeat split. right. exists k. auto.
Qed.

Lemma plain_start (k : string) :
  forallb (fun c => is_digit c || Ascii.eqb c ".") (list_ascii_of_string k)
  = true ->
  skip_spaces k = k /\ take_sign k = (false, k).
Proof.
  destruct k as [| c k]; [split; reflexivity |].
  cbn [list_ascii_of_string forallb]. intros H.
  apply andb_true_iff in H. destruct H as [Hc _].
  destruct (plain_cases c Hc) as [[Hd _] | [_ ->]]; [| split; reflexivity].
  split.
  - cbn [skip_spaces]. now rewrite (digit_not_space c Hd).
  - apply take_sign_other; now apply digit_not_sign.
Qed.

Lemma parse_float_plain (k : string) :
  forallb (fun c => is_digit c || Ascii.eqb c ".") (list_ascii_of_string k)
  = true ->
  parse_float k
  = if (count_dots k <=? 1)
    then match digits_of_text k with
         | [] => None
         | ds => Some (scale10 (digits_value ds)
                         (- Z.of_nat (length (digits_of_text (after_dot k)))))
         end
    else None.
Proof.
  intros Hk. unfold parse_float.
  destruct (plain_start k Hk) as [-> ->].
  destruct (take_digits_plain k Hk) as (Hdig & Hdots & Hafter & Hrest).
  destruct (take_digits k) as [ip s2]. cbn [fst snd] in *.
  rewrite Hdig, Hdots, Hafter. clear Hdig Hdots Hafter Hk.
  destruct Hrest as [-> | (r & -> & Hr)].
  - change (count_dots "") with 0. change (digits_of_text "") with (@nil ascii).
    cbn [Nat.leb after_dot length Z.of_nat Z.opp].
    destruct (ip ++ []) as [| d ds]; [reflexivity |].
    cbn [take_exponent skip_spaces length Z.of_nat Z.sub Z.opp Z.add].
    reflexivity.
  - destruct (take_digits_plain r Hr) as (Hdig & Hdots & _ & Hrest).
    assert (E1 : digits_of_text (String "." r) = digits_of_text r)
      by reflexivity.
    assert (E2 : count_dots (String "." r) = S (count_dots r)) by reflexivity.
    rewrite E1, E2. cbn [after_dot Ascii.eqb Bool.eqb].
    rewrite Hdig, Hdots. clear E1 E2 Hdig Hdots Hr.
    destruct (take_digits r) as [fp s3]. cbn [fst snd] in *.
    destruct Hrest as [-> | (r' & -> & _)].
    + change (count_dots "") with 0.
      change (digits_of_text "") with (@nil ascii).
      cbn [Nat.leb]. rewrite !app_nil_r.
      destruct (ip ++ fp) as [| d ds]; [reflexivity |].
      cbn [take_exponent skip_spaces]. reflexivity.
    + change (count_dots (String "." r')) with (S (count_dots r')).
      cbn [Nat.leb].
      destruct (ip ++ fp) as [| d ds]; reflexivity.
Qed.

Lemma re_delete_plain s :
  forallb (fun c => is_digit c || Ascii.eqb c ".")
          (list_ascii_of_string (re_delete ascii_not_digit_or_dot s)) = true.
Proof.
  induction s as [| c s IH]; [reflexivity |].
  cbn [re_delete]. unfold ascii_not_digit_or_dot at 1.
  destruct (is_digit c || Ascii.eqb c ".") eqn:E; cbn [negb]; [| exact IH].
  cbn [list_ascii_of_string forallb]. now rewrite E, IH.
Qed.

Lemma re_delete_digits s :
  digits_of_text (re_delete ascii_not_digit_or_dot s) = digits_of_text s
  /\ count_dots (re_delete ascii_not_digit_or_dot s) = count_dots s
  /\ digits_of_text (after_dot (re_delete ascii_not_digit_or_dot s))
     = digits_of_text (after_dot s).
Proof.
  unfold digits_of_text, count_dots.
  induction s as [| c s (IH1 & IH2 & IH3)]; [repeat split |].
  cbn [re_delete].
  destruct (ascii_not_digit_or_dot c) eqn:E; unfold ascii_not_digit_or_dot in E.
  - apply negb_true_iff, orb_false_iff in E. destruct E as [Hd Hdot].
    cbn [list_ascii_of_string filter after_dot].
    rewrite Hd, Hdot, (Ascii.eqb_sym "." c), Hdot. auto.
  - apply negb_false_iff in E.
    destruct (plain_cases c E) as [[Hd Hdot] | [Hd ->]].
    + cbn [list_ascii_of_string filter after_dot].
      rewrite Hd, Hdot, (Ascii.eqb_sym "." c), Hdot, IH1, IH2. auto.
    + cbn [list_ascii_of_string filter after_dot Ascii.eqb Bool.eqb].
      rewrite Hd. cbn [length]. rewrite IH1, IH2. auto.
Qed.

Lemma digits_value_nonneg ds : (0 <= digits_value ds)%Z.
Proof.
  unfold digits_value.
  assert (H : forall acc, (0 <= acc)%Z ->
              (0 <= fold_left (fun a c => 10 * a + digit_value c) ds acc)%Z).
  { induction ds as [| d ds IH]; intros acc Hacc; [exact Hacc |].
    cbn [fold_left]. apply IH. unfold digit_value. lia. }
  apply H. lia.
Qed.

Lemma scale10_nonneg m e : (0 <= m)%Z -> (0 <= scale10 m e)%Q.
Proof.
  intros Hm. unfold scale10. rewrite Qred_correct.
  destruct (0 <=? e)%Z eqn:E.
  - apply Z.leb_le in E. unfold Qle. cbn.
    assert (0 <= 10 ^ e)%Z by (apply Z.pow_nonneg; lia). nia.
  - unfold Qle. cbn. lia.
Qed.

(** X15. What is read of a money cell. A cell with a decimal digit of
    a script other than ASCII is missing: the deletion keeps the digit
    and the parser does not read it. Of any other cell only the digits
    and the place of the first decimal point are read: the value is
    missing exactly when the cell has more than one decimal point or no
    digit; otherwise it is the number written by all the digits of the
    cell, with as many decimals as there are digits after the point. A
    sign, a separator of thousands, a letter or a blank anywhere in the
    cell changes nothing, so the value is never negative. *)
Theorem money_cell_value (s : string) :
  (ascii_digits_only s = true ->
   (money_cell (Some s) = None
    <-> 1 < count_dots s \/ digits_of_text s = [])
   /\ (forall q,
          money_cell (Some s) = Some q ->
          q = scale10 (digits_value (digits_of_text s))
                      (- Z.of_nat (length (digits_of_text (after_dot s))))))
  /\ (ascii_digits_only s = false -> money_cell (Some s) = None)
  /\ (forall q, money_cell (Some s) = Some q -> (0 <= q)%Q).
Proof.
  assert (Hascii : ascii_digits_only s = true ->
            money_cell (Some s)
            = if (count_dots s <=? 1)
              then match digits_of_text s with
                   | [] => None
                   | ds => Some (scale10 (digits_value ds)
                                   (- Z.of_nat (length (digits_of_text
                                                          (after_dot s)))))
                   end
              else None).
  { intros H. unfold money_cell. cbn [option_map numeric_cell].
    rewrite (sub_ascii s H), (parse_float_plain _ (re_delete_plain s)).
    now destruct (re_delete_digits s) as (-> & -> & ->). }
  split; [| split].
  - intros H. rewrite (Hascii H).
    destruct (Nat.leb_spec (count_dots s) 1) as [Hle | Hgt].
    + destruct (digits_of_text s) as [| d ds] eqn:Hds.
      * split; [split; auto | discriminate].
      * split.
        -- split; [discriminate | intros [H' | H']; [lia | discriminate]].
        -- intros q Hq. now injection Hq as <-.
    + split; [split; auto | discriminate].
  - apply money_cell_foreign.
  - intros q Hq. destruct (ascii_digits_only s) eqn:H.
    + rewrite (Hascii eq_refl) in Hq.
      destruct (count_dots s <=? 1); [| discriminate].
      destruct (digits_of_text s) as [| d ds]; [discriminate |].
      injection Hq as <-. apply scale10_nonneg, digits_value_nonneg.
    + rewrite (money_cell_foreign s H) in Hq. discriminate.
Qed.

Lemma money_cell_value_witness :
  money_cell (Some "-$1,234.50") = Some (2469 # 2)
  /\ (2469 # 2
      = scale10 (digits_value (digits_of_text "-$1,234.50"))
                (- Z.of_nat (length (digits_of_text (after_dot "-$1,234.50")))))
  /\ (0 <= 2469 # 2)%Q
  /\ money_cell (Some "٣5") = None.
Proof.
  destruct (money_cell_value "-$1,234.50") as (Hascii & _ & Hnonneg).
  destruct (Hascii eq_refl) as [_ Hvalue].
  destruct (money_cell_value "٣5") as (_ & Hforeign & _).
  split; [reflexivity |].
  split; [exact (Hvalue (2469 # 2) eq_refl) |].
  split; [exact (Hnonneg (2469 # 2) eq_refl) |].
  exact (Hforeign eq_refl).
Defined.

(** ** The labels of the months *)

Lemma year_label (y : Z) :
  (1677 <= y <= 2262)%Z ->
  zfill 4 (str_of_nat (Z.to_nat y)) = four_digits y.
Proof.
  intros Hy.
  assert (Hall : forallb (fun n => String.eqb (zfill 4 (str_of_nat n))
                                              (four_digits (Z.of_nat n)))
                         (seq 1677 586) = true) by (vm_compute; reflexivity).
  rewrite forallb_forall in Hall.
  specialize (Hall (Z.to_nat y)). rewrite Z2Nat.id in Hall by lia.
  apply String.eqb_eq, Hall, in_seq. lia.
Qed.

Lemma month_number_label (m : Z) :
  (1 <= m <= 12)%Z ->
  zfill 2 (str_of_nat (Z.to_nat m)) = two_digits m.
Proof.
  intros Hm.
  assert (Hall : forallb (fun n => String.eqb (zfill 2 (str_of_nat n))
                                              (two_digits (Z.of_nat n)))
                         (seq 1 12) = true) by (vm_compute; reflexivity).
  rewrite forallb_forall in Hall.
  specialize (Hall (Z.to_nat m)). rewrite Z2Nat.id in Hall by lia.
  apply String.eqb_eq, Hall, in_seq. lia.
Qed.

(** X16. The month of a date that was parsed from a cell gives back the
    year and the month of the date, and its label on the axis of a
    chart is that year in four digits, a hyphen, and that month in two
    digits. *)
Theorem month_label (s : string) (d : date) :
  parse_date s = Some d ->
  period_year (to_period_M d) = year d
  /\ period_month (to_period_M d) = month d
  /\ period_str (to_period_M d)
     = (four_digits (year d) ++ "-" ++ two_digits (month d))%string.
Proof.
  intros Hparse.
  destruct (parse_date_valid s d Hparse) as [Hvalid Hns].
  destruct (valid_date_bounds _ _ _ Hvalid) as (_ & Hm & Hd).
  assert (Hy : (1677 <= year d <= 2262)%Z).
  { unfold in_ns_bounds in Hns. apply andb_true_iff in Hns.
    destruct Hns as [Hlo Hhi]. apply Z.leb_le in Hlo, Hhi. lia. }
  assert (Hyear : period_year (to_period_M d) = year d).
  { unfold period_year, to_period_M. Z.div_mod_to_equations. lia. }
  assert (Hmonth : period_month (to_period_M d) = month d).
  { unfold period_month, to_period_M. Z.div_mod_to_equations. lia. }
  split; [exact Hyear |]. split; [exact Hmonth |].
  unfold period_str. rewrite Hyear, Hmonth.
  now rewrite (year_label _ Hy), (month_number_label _ Hm).
Qed.

Lemma month_label_witness :
  period_str (to_period_M {| year := 2024; month := 3; day := 15 |})
  = "2024-03".
Proof.
  destruct (month_label "15/03/2024" {| year := 2024; month := 3; day := 15 |}
              eq_refl) as (_ & _ & Hlabel).
  exact Hlabel.
Defined.

(** ** What the page shows during the loop *)

Lemma display_app (t1 t2 : list event) :
  display (t1 ++ t2) = display t1 ++ display t2.
Proof. unfold display. apply flat_map_app. Qed.

Lemma display_cons (e : event) (t : list event) :
  display (e :: t) = display [e] ++ display t.
Proof. apply (display_app [e] t). Qed.

Lemma display_bind A B (c : M A) (k : A -> M B) :
  display (trace (bind c k))
  = display (trace c)
    ++ match outcome c with
       | Ok a => display (trace (k a))
       | Raise _ => []
       end.
Proof.
  destruct c as [t [a | e]]; cbn [bind trace outcome fst snd].
  - destruct (k a) as [t' r]. cbn [fst]. apply display_app.
  - now rewrite app_nil_r.
Qed.

Lemma display_silent_bind A B (c : M A) (k : A -> M B) :
  display (trace c) = [] -> (forall a, display (trace (k a)) = []) ->
  display (trace (bind c k)) = [].
Proof.
  intros Hc Hk. rewrite display_bind, Hc.
  destruct (outcome c); [apply Hk | reflexivity].
Qed.

Lemma display_safe_fetch_loop ws attempts :
  forall delay, display (trace (safe_fetch_loop ws attempts delay)) = [].
Proof.
  induction attempts as [| attempt rest IH]; intros delay; [reflexivity |].
  cbn [safe_fetch_loop]. apply display_silent_bind; [reflexivity |]. intros _.
  destruct (get_all_values ws attempt); [reflexivity |].
  apply display_silent_bind; [reflexivity |]. intros _.
  apply display_silent_bind; [| intros _; apply IH].
  unfold sleep.
  destruct (delay <? 0)%Z; [| destruct (sleep_max <? delay)%Z]; reflexivity.
Qed.

Lemma display_fetch (sheet : Spreadsheet) (name : string)
  (clean : RawGrid -> result DataFrame) :
  display (trace (ws <- lift (worksheet sheet name) ;;
                  raw_data <- safe_fetch_worksheet ws default_retries
                                default_delay ;;
                  lift (clean raw_data))%eff) = [].
Proof.
  apply display_silent_bind; [reflexivity |]. intros ws.
  apply display_silent_bind; [apply display_safe_fetch_loop |]. intros raw.
  reflexivity.
Qed.

Lemma display_build_report client sheet_url :
  display (trace (build_report client sheet_url)) = [].
Proof.
  unfold build_report.
  apply display_silent_bind; [reflexivity |]. intros sheet.
  apply display_silent_bind; [apply display_fetch |]. intros products.
  apply display_silent_bind; [apply display_fetch |]. intros orders.
  apply display_silent_bind; [apply display_fetch |]. intros hours.
  apply display_silent_bind; [reflexivity |]. intros report. reflexivity.
Qed.

Lemma display_process_link client idx sheet_url :
  display (trace (process_link client idx sheet_url))
  = [inl (progress_message idx); inr (source_result client sheet_url)].
Proof.
  unfold process_link, source_result, progress_message.
  pose proof (display_build_report client sheet_url) as Hq.
  destruct (build_report client sheet_url) as [t [[name doc] | e]];
    cbn [trace outcome fst snd] in *.
  - cbn [emit bind try_except fst snd app]. unfold trace. cbn [fst].
    rewrite display_cons, display_app, Hq. reflexivity.
  - cbn [emit bind try_except fst snd app]. unfold trace. cbn [fst].
    rewrite display_cons, display_app, Hq. reflexivity.
Qed.

Lemma display_batch_loop client (items : list (nat * string)) :
  display (trace (batch_loop client items))
  = flat_map (fun item => [inl (progress_message (fst item));
                           inr (source_result client (snd item))]) items.
Proof.
  induction items as [| [idx url] items IH]; [reflexivity |].
  cbn [batch_loop flat_map fst snd].
  destruct (process_link_result client idx url) as [Ho _].
  rewrite display_bind, Ho, display_process_link, IH. reflexivity.
Qed.

(** X17. During the loop the page shows, for each link in the order of
    the links, the message [Processing link i...] with [i] counted from
    1, and right after it the result of that link, a download or an
    error; nothing else is shown but the warnings of the retries. *)
Theorem generate_reports_display (client : Client) (sheet_links : list string) :
  display (trace (generate_reports client sheet_links))
  = flat_map (fun item => [inl (progress_message (fst item));
                           inr (source_result client (snd item))])
             (enumerate sheet_links)
  /\ map fst (enumerate sheet_links) = seq 0 (length sheet_links)
  /\ map snd (enumerate sheet_links) = sheet_links.
Proof.
  split; [apply display_batch_loop |]. split.
  - unfold enumerate. generalize 0.
    induction sheet_links as [| url links IH]; intros n; [reflexivity |].
    cbn [length seq combine map fst]. now rewrite IH.
  - apply map_snd_enumerate.
Qed.
